(** * cnc-calc: tool validation and export engine

    A shallow embedding of [backend/services/validation_service.py],
    [backend/services/export_service.py] and
    [backend/services/tool_service.py], with the parts of
    [backend/schemas/tool.py] and [backend/models/tool.py] they use.

    Conventions of the embedding:
    - a Python number (int or float) is an exact rational [Q]; the
      rounding error of binary floating point is not modelled;
    - a value stored in a geometry dict is [None], a number or a string
      (the JSON column admits all three);
    - a Python exception is a [Raise] result; code that appends to the
      [errors] and [warnings] lists runs in a state monad over both lists;
    - the exporter copies and updates dicts, so its dicts live in a store
      and are handled through references;
    - a service that uses the database takes the table it reads, the list
      of its committed rows, and returns the table it leaves; the
      identifiers and the times it draws are arguments, as are the
      response schema, the text of a document and the matching and the
      ordering that the database does. *)

From Stdlib Require Import ZArith QArith Qabs Bool List Lia Lqa.
From stdpp Require Import base option strings list gmap fin_maps.

Local Open Scope string_scope.
Local Open Scope list_scope.

(** ** Python values and exceptions *)

Module Py.

Inductive value : Type :=
| VNone
| VNum (q : Q)
| VStr (s : string).

Inductive exn : Type :=
| KeyError (k : string)
| TypeError
| ZeroDivisionError
| ValueError (msg : string).

Inductive result (A : Type) : Type :=
| Ok (a : A)
| Raise (e : exn).
Arguments Ok {A} a.
Arguments Raise {A} e.

#[global] Instance result_ret : MRet result := @Ok.
#[global] Instance result_bind : MBind result := fun A B f m =>
  match m with
  | Ok a => f a
  | Raise e => Raise e
  end.

(** [bool(v)]: [None], zero and the empty string are falsy. *)
Definition truthy (v : value) : bool :=
  match v with
  | VNone => false
  | VNum q => negb (Qeq_bool q 0)
  | VStr s => negb (String.eqb s "")
  end.

(** [v is None] *)
Definition is_None (v : value) : bool :=
  match v with
  | VNone => true
  | _ => false
  end.

(** The ordering comparisons: defined between two numbers and between
    two strings, [TypeError] otherwise. *)
Definition py_lt (a b : value) : result bool :=
  match a, b with
  | VNum x, VNum y => Ok (negb (Qle_bool y x))
  | VStr s, VStr t => Ok (String.ltb s t)
  | _, _ => Raise TypeError
  end.

Definition py_le (a b : value) : result bool :=
  match a, b with
  | VNum x, VNum y => Ok (Qle_bool x y)
  | VStr s, VStr t => Ok (String.leb s t)
  | _, _ => Raise TypeError
  end.

Definition py_gt (a b : value) : result bool := py_lt b a.
Definition py_ge (a b : value) : result bool := py_le b a.

(** Arithmetic, on numbers only. *)
Definition py_sub (a b : value) : result value :=
  match a, b with
  | VNum x, VNum y => Ok (VNum (x - y))
  | _, _ => Raise TypeError
  end.

Definition py_div (a b : value) : result value :=
  match a, b with
  | VNum x, VNum y =>
      if Qeq_bool y 0 then Raise ZeroDivisionError else Ok (VNum (x / y))
  | _, _ => Raise TypeError
  end.

Definition py_abs (a : value) : result value :=
  match a with
  | VNum x => Ok (VNum (Qabs x))
  | _ => Raise TypeError
  end.

(** Nearest integer, ties to the even one. *)
Definition round_half_even (q : Q) : Z :=
  let n := Qnum q in
  let d := Z.pos (Qden q) in
  let fl := (n / d)%Z in
  let r2 := (2 * (n mod d))%Z in
  if (r2 <? d)%Z then fl
  else if (d <? r2)%Z then (fl + 1)%Z
  else if Z.even fl then fl else (fl + 1)%Z.

(** [round(a, ndigits)] *)
Definition round_digits (x : Q) (ndigits : nat) : Q :=
  let p := Pos.pow 10 (Pos.of_nat ndigits) in
  match ndigits with
  | O => inject_Z (round_half_even x)
  | _ => Qmake (round_half_even (x * inject_Z (Z.pos p))) p
  end.

Definition py_round (a : value) (ndigits : nat) : result value :=
  match a with
  | VNum x => Ok (VNum (round_digits x ndigits))
  | _ => Raise TypeError
  end.

(** Short-circuit [a or b] and [a and b] on a decided left operand. *)
Definition py_or (a : bool) (b : result bool) : result bool :=
  if a then Ok true else b.

Definition py_and (a : bool) (b : result bool) : result bool :=
  if a then b else Ok false.

(** Dict reads: [d.get(k)], [d.get(k, dflt)], [d[k]], [k in d]. *)
Definition get (d : gmap string value) (k : string) : value :=
  match d !! k with
  | Some v => v
  | None => VNone
  end.

Definition get_default (d : gmap string value) (k : string) (dflt : value) : value :=
  match d !! k with
  | Some v => v
  | None => dflt
  end.

Definition getitem (d : gmap string value) (k : string) : result value :=
  match d !! k with
  | Some v => Ok v
  | None => Raise (KeyError k)
  end.

Definition contains (d : gmap string value) (k : string) : bool :=
  bool_decide (is_Some (d !! k)).

End Py.
Import Py.

(** ** schemas/tool.py *)

(** [class ToolType(str, Enum)]: the members are their string values. A
    tool carries its type as the string: the validator checks it against
    the supported types and the exporter compares it with literals. *)
Module ToolType.
Definition END_MILL : string := "end_mill".
Definition BALL_END_MILL : string := "ball_end_mill".
Definition CHAMFER : string := "chamfer".
Definition DRILL : string := "drill".
Definition REAMER : string := "reamer".
Definition THREAD_MILL : string := "thread_mill".
End ToolType.

(** [class ExportFormat(str, Enum)]. A request carries the format as the
    string, for the generator has a branch for a format that is neither
    member. *)
Module ExportFormat.
Definition FUSION_JSON : string := "fusion_json".
Definition CSV : string := "csv".
End ExportFormat.

(** [class ExportUnits(str, Enum)] *)
Inductive ExportUnits : Type := METRIC | IMPERIAL.

Definition ExportUnits_eqb (a b : ExportUnits) : bool :=
  match a, b with
  | METRIC, METRIC | IMPERIAL, IMPERIAL => true
  | _, _ => false
  end.

(** [ToolResponse], without the limits and the timestamps, which neither
    service reads. The validator only reads the geometry and takes the
    record with the mapping itself; the exporter takes it with a
    reference to the mapping in the store. *)
Record ToolResponse (G : Type) : Type := {
  tool_id : string;
  name : string;
  vendor : string;
  type : string;
  geometry : G
}.
Arguments tool_id {G} _.
Arguments name {G} _.
Arguments vendor {G} _.
Arguments type {G} _.
Arguments geometry {G} _.

Record ExportRequest : Type := {
  format : string;
  units : ExportUnits
}.

Record ValidationError : Type := {
  field : string;
  message : string;
  severity : string
}.

Record ValidationResponse : Type := {
  is_valid : bool;
  errors : list ValidationError;
  warnings : list ValidationError
}.

(** ** services/validation_service.py *)

Module ValidationService.

(** The two lists every rule appends to. *)
Record lists : Type := {
  errors_ : list ValidationError;
  warnings_ : list ValidationError
}.

Definition V (A : Type) : Type := lists -> result (A * lists).

#[global] Instance V_ret : MRet V := fun A a s => Ok (a, s).
#[global] Instance V_bind : MBind V := fun A B f m s =>
  match m s with
  | Ok (a, s') => f a s'
  | Raise e => Raise e
  end.

(** Evaluation of a condition, which may raise. *)
Definition eval {A : Type} (r : result A) : V A := fun s =>
  match r with
  | Ok a => Ok (a, s)
  | Raise e => Raise e
  end.

Definition errors_append (e : ValidationError) : V unit := fun s =>
  Ok (tt, {| errors_ := errors_ s ++ [e]; warnings_ := warnings_ s |}).

Definition warnings_append (e : ValidationError) : V unit := fun s =>
  Ok (tt, {| errors_ := errors_ s; warnings_ := warnings_ s ++ [e] |}).

(** [if c: body] *)
Definition when_ (c : result bool) (body : V unit) : V unit :=
  b ← eval c; if b : bool then body else mret tt.

Definition _validate_basic_fields (tool : ToolResponse (gmap string value)) : V unit :=
  let geometry := geometry tool in
  (* Required fields *)
  when_ (py_or (negb (truthy (get geometry "diameter")))
               (x ← getitem geometry "diameter"; py_le x (VNum 0)))
    (errors_append {| field := "diameter";
                      message := "Diameter must be greater than 0";
                      severity := "error" |});;
  when_ (py_or (negb (truthy (get geometry "flute_length")))
               (x ← getitem geometry "flute_length"; py_le x (VNum 0)))
    (errors_append {| field := "flute_length";
                      message := "Flute length must be greater than 0";
                      severity := "error" |});;
  when_ (py_or (negb (truthy (get geometry "overall_length")))
               (x ← getitem geometry "overall_length"; py_le x (VNum 0)))
    (errors_append {| field := "overall_length";
                      message := "Overall length must be greater than 0";
                      severity := "error" |});;
  (* Relationship validation *)
  when_ (Ok (truthy (get geometry "flute_length") && truthy (get geometry "overall_length")))
    (when_ (x ← getitem geometry "flute_length";
            y ← getitem geometry "overall_length"; py_ge x y)
       (errors_append {| field := "flute_length";
                         message := "Flute length must be less than overall length";
                         severity := "error" |})).

Definition _validate_end_mill (tool : ToolResponse (gmap string value)) : V unit :=
  let geometry := geometry tool in
  (* Required fields *)
  when_ (py_or (negb (truthy (get geometry "flute_count")))
               (x ← getitem geometry "flute_count"; py_lt x (VNum 1)))
    (errors_append {| field := "flute_count";
                      message := "Flute count must be at least 1";
                      severity := "error" |});;
  when_ (py_or (negb (truthy (get geometry "helix_angle")))
               (x ← getitem geometry "helix_angle"; py_lt x (VNum 0)))
    (errors_append {| field := "helix_angle";
                      message := "Helix angle must be non-negative";
                      severity := "error" |});;
  when_ (py_or (negb (truthy (get geometry "length_of_cut")))
               (x ← getitem geometry "length_of_cut"; py_le x (VNum 0)))
    (errors_append {| field := "length_of_cut";
                      message := "Length of cut must be greater than 0";
                      severity := "error" |});;
  (* Relationship validation *)
  when_ (Ok (truthy (get geometry "flute_length") && truthy (get geometry "length_of_cut")))
    (when_ (x ← getitem geometry "flute_length";
            y ← getitem geometry "length_of_cut"; py_lt x y)
       (errors_append {| field := "length_of_cut";
                         message := "Length of cut cannot exceed flute length";
                         severity := "error" |}));;
  (* Warnings *)
  when_ (Ok (truthy (get geometry "helix_angle")))
    (when_ (x ← getitem geometry "helix_angle"; b ← py_lt x (VNum 20);
            py_or b (y ← getitem geometry "helix_angle"; py_gt y (VNum 45)))
       (warnings_append {| field := "helix_angle";
                           message := "Unusual helix angle - typical range is 20-45 degrees";
                           severity := "warning" |}));;
  when_ (Ok (truthy (get geometry "corner_radius") && truthy (get geometry "diameter")))
    (when_ (x ← getitem geometry "corner_radius";
            d ← getitem geometry "diameter"; q ← py_div d (VNum 4); py_gt x q)
       (warnings_append {| field := "corner_radius";
                           message := "Large corner radius may affect cutting performance";
                           severity := "warning" |})).

Definition _validate_ball_end_mill (tool : ToolResponse (gmap string value)) : V unit :=
  let geometry := geometry tool in
  (* Required fields *)
  when_ (py_or (negb (truthy (get geometry "flute_count")))
               (x ← getitem geometry "flute_count"; py_lt x (VNum 1)))
    (errors_append {| field := "flute_count";
                      message := "Flute count must be at least 1";
                      severity := "error" |});;
  when_ (py_or (negb (truthy (get geometry "tip_radius")))
               (x ← getitem geometry "tip_radius"; py_le x (VNum 0)))
    (errors_append {| field := "tip_radius";
                      message := "Tip radius must be greater than 0";
                      severity := "error" |});;
  (* Critical validation for ball end mills *)
  when_ (Ok (truthy (get geometry "diameter") && truthy (get geometry "tip_radius")))
    (expected_radius ← eval (d ← getitem geometry "diameter"; py_div d (VNum 2));
     when_ (x ← getitem geometry "tip_radius"; diff ← py_sub x expected_radius;
            a ← py_abs diff; py_gt a (VNum 0.01))
       (errors_append {| field := "tip_radius";
                         message := "Tip radius must equal half the diameter for ball end mills";
                         severity := "error" |})).

Definition _validate_chamfer (tool : ToolResponse (gmap string value)) : V unit :=
  let geometry := geometry tool in
  (* Required fields *)
  when_ (py_or (negb (truthy (get geometry "included_angle")))
               (x ← getitem geometry "included_angle"; py_le x (VNum 0)))
    (errors_append {| field := "included_angle";
                      message := "Included angle is required and must be greater than 0";
                      severity := "error" |});;
  when_ (py_or (is_None (get geometry "tip_flat"))
               (x ← getitem geometry "tip_flat"; py_lt x (VNum 0)))
    (errors_append {| field := "tip_flat";
                      message := "Tip flat is required";
                      severity := "error" |});;
  when_ (py_or (negb (truthy (get geometry "shank_diameter")))
               (x ← getitem geometry "shank_diameter"; py_le x (VNum 0)))
    (errors_append {| field := "shank_diameter";
                      message := "Shank diameter must be greater than 0";
                      severity := "error" |});;
  (* Warnings *)
  when_ (py_and (truthy (get geometry "tip_flat"))
                (x ← getitem geometry "tip_flat"; py_lt x (VNum 0.1)))
    (warnings_append {| field := "tip_flat";
                        message := "Very small tip flat may be difficult to manufacture";
                        severity := "warning" |}).

Definition _validate_drill (tool : ToolResponse (gmap string value)) : V unit :=
  let geometry := geometry tool in
  (* Required fields *)
  when_ (py_or (negb (truthy (get geometry "point_angle")))
               (x ← getitem geometry "point_angle"; py_le x (VNum 0)))
    (errors_append {| field := "point_angle";
                      message := "Point angle must be greater than 0";
                      severity := "error" |});;
  (* Warnings *)
  when_ (Ok (truthy (get geometry "point_angle")))
    (when_ (x ← getitem geometry "point_angle"; b ← py_lt x (VNum 90);
            py_or b (y ← getitem geometry "point_angle"; py_gt y (VNum 150)))
       (warnings_append {| field := "point_angle";
                           message := "Unusual point angle - typical range is 90-150 degrees";
                           severity := "warning" |})).

Definition _validate_reamer (tool : ToolResponse (gmap string value)) : V unit :=
  let geometry := geometry tool in
  (* Optional fields validation *)
  when_ (Ok (negb (is_None (get geometry "lead_angle"))))
    (when_ (x ← getitem geometry "lead_angle"; b ← py_lt x (VNum 0);
            py_or b (y ← getitem geometry "lead_angle"; py_gt y (VNum 90)))
       (warnings_append {| field := "lead_angle";
                           message := "Lead angle should be between 0 and 90 degrees";
                           severity := "warning" |})).

Definition _validate_thread_mill (tool : ToolResponse (gmap string value)) : V unit :=
  let geometry := geometry tool in
  (* Required fields *)
  when_ (py_or (negb (truthy (get geometry "pitch")))
               (x ← getitem geometry "pitch"; py_le x (VNum 0)))
    (errors_append {| field := "pitch";
                      message := "Pitch must be greater than 0";
                      severity := "error" |});;
  when_ (py_or (negb (truthy (get geometry "max_thread_length")))
               (x ← getitem geometry "max_thread_length"; py_le x (VNum 0)))
    (errors_append {| field := "max_thread_length";
                      message := "Maximum thread length must be greater than 0";
                      severity := "error" |});;
  (* Relationship validation *)
  when_ (Ok (truthy (get geometry "max_thread_length") && truthy (get geometry "flute_length")))
    (when_ (x ← getitem geometry "max_thread_length";
            y ← getitem geometry "flute_length"; py_gt x y)
       (warnings_append {| field := "max_thread_length";
                           message := "Maximum thread length should not exceed flute length";
                           severity := "warning" |})).

Definition supported_types : list string :=
  [ToolType.END_MILL; ToolType.BALL_END_MILL; ToolType.CHAMFER;
   ToolType.DRILL; ToolType.REAMER; ToolType.THREAD_MILL].

Definition _validate_fusion_compatibility (tool : ToolResponse (gmap string value)) : V unit :=
  (* Check if tool type is supported *)
  when_ (Ok (negb (existsb (String.eqb (type tool)) supported_types)))
    (errors_append {| field := "type";
                      message := "Tool type '" ++ type tool ++ "' is not supported by Fusion 360";
                      severity := "error" |});;
  (* Check for reasonable dimension ranges *)
  let geometry := geometry tool in
  when_ (Ok (truthy (get geometry "diameter")))
    (when_ (x ← getitem geometry "diameter"; b ← py_lt x (VNum 0.1);
            py_or b (y ← getitem geometry "diameter"; py_gt y (VNum 100)))
       (warnings_append {| field := "diameter";
                           message := "Diameter outside typical range (0.1-100mm)";
                           severity := "warning" |}));;
  when_ (Ok (truthy (get geometry "overall_length")))
    (when_ (x ← getitem geometry "overall_length"; b ← py_lt x (VNum 1);
            py_or b (y ← getitem geometry "overall_length"; py_gt y (VNum 500)))
       (warnings_append {| field := "overall_length";
                           message := "Overall length outside typical range (1-500mm)";
                           severity := "warning" |})).

(** The body of [validate_tool] between the creation of the two lists
    and the construction of the response. *)
Definition run_rules (tool : ToolResponse (gmap string value)) : V unit :=
  (* Basic validation *)
  _validate_basic_fields tool;;
  (* Geometry validation based on tool type *)
  (if String.eqb (type tool) ToolType.END_MILL then _validate_end_mill tool
   else if String.eqb (type tool) ToolType.BALL_END_MILL then _validate_ball_end_mill tool
   else if String.eqb (type tool) ToolType.CHAMFER then _validate_chamfer tool
   else if String.eqb (type tool) ToolType.DRILL then _validate_drill tool
   else if String.eqb (type tool) ToolType.REAMER then _validate_reamer tool
   else if String.eqb (type tool) ToolType.THREAD_MILL then _validate_thread_mill tool
   else mret tt);;
  (* Fusion 360 compatibility checks *)
  _validate_fusion_compatibility tool.

Definition validate_tool (tool : ToolResponse (gmap string value)) : result ValidationResponse :=
  match run_rules tool {| errors_ := []; warnings_ := [] |} with
  | Ok (_, s) =>
      let is_valid := Nat.eqb (length (errors_ s)) 0 in
      Ok {| is_valid := is_valid; errors := errors_ s; warnings := warnings_ s |}
  | Raise e => Raise e
  end.

End ValidationService.

(** ** services/export_service.py *)

Module ExportService.

(** Dict objects live in a store; a variable holds a reference. *)
Abbreviation ref := positive (only parsing).
Abbreviation store := (gmap positive (gmap string value)) (only parsing).

(** An exception leaves the store as it is at the raise. *)
Definition X (A : Type) : Type := store -> result A * store.

#[global] Instance X_ret : MRet X := fun A a σ => (Ok a, σ).
#[global] Instance X_bind : MBind X := fun A B f m σ =>
  match m σ with
  | (Ok a, σ') => f a σ'
  | (Raise e, σ') => (Raise e, σ')
  end.

Definition eval {A : Type} (r : result A) : X A := fun σ => (r, σ).

Definition raise {A : Type} (e : exn) : X A := fun σ => (Raise e, σ).

(** [d.copy()]: a new dict with the same items. *)
Definition dict_copy (d : ref) : X ref := fun σ =>
  let r := fresh (dom σ) in
  (Ok r, <[r := σ !!! d]> σ).

(** [d.get(k, dflt)] *)
Definition dict_get (d : ref) (k : string) (dflt : value) : X value := fun σ =>
  (Ok (get_default (σ !!! d) k dflt), σ).

(** [k in d] *)
Definition dict_contains (d : ref) (k : string) : X bool := fun σ =>
  (Ok (contains (σ !!! d) k), σ).

(** [d[k]] *)
Definition dict_getitem (d : ref) (k : string) : X value := fun σ =>
  (getitem (σ !!! d) k, σ).

(** [d[k] = v] *)
Definition dict_setitem (d : ref) (k : string) (v : value) : X unit := fun σ =>
  (Ok tt, <[d := <[k := v]> (σ !!! d)]> σ).

(** [for x in xs: body] *)
Fixpoint for_ {A : Type} (xs : list A) (body : A -> X unit) : X unit :=
  match xs with
  | [] => mret tt
  | x :: xs' => body x;; for_ xs' body
  end.

(** What the exporter returns is the text that [json.dumps] or
    [csv.writer] make of a structure; the model returns the structure:
    the items of the dict in insertion order, or the rows written. *)
Inductive document : Type :=
| Json (items : list (string * value))
| Csv (rows : list (list value)).

(** [d.update(more)] on the items of a dict in insertion order. *)
Definition items_set (items : list (string * value)) (kv : string * value)
  : list (string * value) :=
  if existsb (fun p => String.eqb (fst p) (fst kv)) items
  then map (fun p => if String.eqb (fst p) (fst kv) then kv else p) items
  else items ++ [kv].

Definition items_update (items more : list (string * value)) : list (string * value) :=
  fold_left items_set more items.

Definition mm_fields : list string :=
  ["diameter"; "flute_length"; "overall_length"; "length_of_cut";
   "corner_radius"; "tip_radius"; "tip_flat"; "shank_diameter";
   "pitch"; "max_thread_length"].

Definition _convert_to_imperial (geometry : ref) : X ref :=
  converted ← dict_copy geometry;
  (* Convert mm to inches (1 inch = 25.4 mm) *)
  for_ mm_fields (fun field =>
    c ← (b ← dict_contains converted field;
         if b : bool
         then v ← dict_getitem converted field; mret (negb (is_None v))
         else mret false);
    if c : bool
    then v ← dict_getitem converted field;
         r ← eval (x ← py_div v (VNum 25.4); py_round x 4);
         dict_setitem converted field r
    else mret tt);;
  mret converted.

Definition _map_tool_type_to_fusion (tool_type : string) : string :=
  let mapping : list (string * string) :=
    [("end_mill", "End Mill");
     ("ball_end_mill", "Ball End Mill");
     ("chamfer", "Chamfer Mill");
     ("drill", "Drill");
     ("reamer", "Reamer");
     ("thread_mill", "Thread Mill")] in
  match find (fun p => String.eqb (fst p) tool_type) mapping with
  | Some p => snd p
  | None => tool_type
  end.

Definition _generate_fusion_json (tool : ToolResponse ref) (units : ExportUnits)
  : X document :=
  (* Convert units if needed *)
  geometry ← dict_copy (geometry tool);
  geometry ← (if ExportUnits_eqb units IMPERIAL
              then _convert_to_imperial geometry
              else mret geometry);
  (* Create Fusion 360 compatible structure *)
  diameter ← dict_get geometry "diameter" (VNum 0);
  fluteLength ← dict_get geometry "flute_length" (VNum 0);
  overallLength ← dict_get geometry "overall_length" (VNum 0);
  let fusion_data :=
    [("toolType", VStr (_map_tool_type_to_fusion (type tool)));
     ("name", VStr (name tool));
     ("vendor", VStr (vendor tool));
     ("diameter", diameter);
     ("fluteLength", fluteLength);
     ("overallLength", overallLength);
     ("units", VStr (if ExportUnits_eqb units IMPERIAL then "in" else "mm"))] in
  (* Add tool-specific fields *)
  fusion_data ←
    (if String.eqb (type tool) "end_mill" then
       fluteCount ← dict_get geometry "flute_count" (VNum 2);
       helixAngle ← dict_get geometry "helix_angle" (VNum 30);
       lengthOfCut ← dict_get geometry "length_of_cut" (VNum 0);
       cornerRadius ← dict_get geometry "corner_radius" (VNum 0);
       mret (items_update fusion_data
               [("fluteCount", fluteCount);
                ("helixAngle", helixAngle);
                ("lengthOfCut", lengthOfCut);
                ("cornerRadius", cornerRadius)])
     else if String.eqb (type tool) "ball_end_mill" then
       fluteCount ← dict_get geometry "flute_count" (VNum 2);
       tipRadius ← dict_get geometry "tip_radius" (VNum 0);
       mret (items_update fusion_data
               [("fluteCount", fluteCount);
                ("tipRadius", tipRadius)])
     else if String.eqb (type tool) "chamfer" then
       includedAngle ← dict_get geometry "included_angle" (VNum 90);
       tipFlat ← dict_get geometry "tip_flat" (VNum 0);
       shankDiameter ← dict_get geometry "shank_diameter" (VNum 0);
       mret (items_update fusion_data
               [("includedAngle", includedAngle);
                ("tipFlat", tipFlat);
                ("shankDiameter", shankDiameter)])
     else if String.eqb (type tool) "drill" then
       pointAngle ← dict_get geometry "point_angle" (VNum 118);
       mret (items_update fusion_data [("pointAngle", pointAngle)])
     else if String.eqb (type tool) "reamer" then
       leadAngle ← dict_get geometry "lead_angle" (VNum 0);
       mret (items_update fusion_data [("leadAngle", leadAngle)])
     else if String.eqb (type tool) "thread_mill" then
       pitch ← dict_get geometry "pitch" (VNum 0);
       maxThreadLength ← dict_get geometry "max_thread_length" (VNum 0);
       mret (items_update fusion_data
               [("pitch", pitch);
                ("maxThreadLength", maxThreadLength)])
     else mret fusion_data);
  mret (Json fusion_data).

Definition _generate_csv (tool : ToolResponse ref) (units : ExportUnits)
  : X document :=
  (* Header row *)
  let headers :=
    ["Tool Name"; "Vendor"; "Type"; "Diameter"; "Flute Length";
     "Overall Length"; "Units"] in
  (* Add tool-specific headers *)
  let headers :=
    if String.eqb (type tool) "end_mill" then
      headers ++ ["Flute Count"; "Helix Angle"; "Length of Cut"; "Corner Radius"]
    else if String.eqb (type tool) "ball_end_mill" then
      headers ++ ["Flute Count"; "Tip Radius"]
    else if String.eqb (type tool) "chamfer" then
      headers ++ ["Included Angle"; "Tip Flat"; "Shank Diameter"]
    else if String.eqb (type tool) "drill" then
      headers ++ ["Point Angle"]
    else if String.eqb (type tool) "reamer" then
      headers ++ ["Lead Angle"]
    else if String.eqb (type tool) "thread_mill" then
      headers ++ ["Pitch"; "Max Thread Length"]
    else headers in
  let output := [map VStr headers] in
  (* Data row *)
  geometry ← dict_copy (geometry tool);
  geometry ← (if ExportUnits_eqb units IMPERIAL
              then _convert_to_imperial geometry
              else mret geometry);
  diameter ← dict_get geometry "diameter" (VStr "");
  flute_length ← dict_get geometry "flute_length" (VStr "");
  overall_length ← dict_get geometry "overall_length" (VStr "");
  let row :=
    [VStr (name tool);
     VStr (vendor tool);
     VStr (type tool);
     diameter;
     flute_length;
     overall_length;
     VStr (if ExportUnits_eqb units IMPERIAL then "in" else "mm")] in
  (* Add tool-specific data *)
  row ←
    (if String.eqb (type tool) "end_mill" then
       flute_count ← dict_get geometry "flute_count" (VStr "");
       helix_angle ← dict_get geometry "helix_angle" (VStr "");
       length_of_cut ← dict_get geometry "length_of_cut" (VStr "");
       corner_radius ← dict_get geometry "corner_radius" (VStr "");
       mret (row ++ [flute_count; helix_angle; length_of_cut; corner_radius])
     else if String.eqb (type tool) "ball_end_mill" then
       flute_count ← dict_get geometry "flute_count" (VStr "");
       tip_radius ← dict_get geometry "tip_radius" (VStr "");
       mret (row ++ [flute_count; tip_radius])
     else if String.eqb (type tool) "chamfer" then
       included_angle ← dict_get geometry "included_angle" (VStr "");
       tip_flat ← dict_get geometry "tip_flat" (VStr "");
       shank_diameter ← dict_get geometry "shank_diameter" (VStr "");
       mret (row ++ [included_angle; tip_flat; shank_diameter])
     else if String.eqb (type tool) "drill" then
       point_angle ← dict_get geometry "point_angle" (VStr "");
       mret (row ++ [point_angle])
     else if String.eqb (type tool) "reamer" then
       lead_angle ← dict_get geometry "lead_angle" (VStr "");
       mret (row ++ [lead_angle])
     else if String.eqb (type tool) "thread_mill" then
       pitch ← dict_get geometry "pitch" (VStr "");
       max_thread_length ← dict_get geometry "max_thread_length" (VStr "");
       mret (row ++ [pitch; max_thread_length])
     else mret row);
  mret (Csv (output ++ [row])).

Definition _generate_export_data (tool : ToolResponse ref) (export_request : ExportRequest)
  : X document :=
  if String.eqb (format export_request) ExportFormat.FUSION_JSON then
    _generate_fusion_json tool (units export_request)
  else if String.eqb (format export_request) ExportFormat.CSV then
    _generate_csv tool (units export_request)
  else
    raise (ValueError ("Unsupported export format: " ++ format export_request)).

End ExportService.

(** ** The database session *)

Import ExportService.

(** The time that [datetime.utcnow()] reads; like the identifier that
    [uuid.uuid4()] draws, it is an argument of the service that asks. *)
Definition datetime : Type := Z.

(** What a service may raise: an exception of the code above, or one of
    the session, of an attribute access or of [ToolResponse.from_orm]. *)
Inductive failure : Type :=
| Python (e : exn)
| AttributeError
| IntegrityError
| MultipleResultsFound
| ResponseValidationError.

Inductive outcome (A : Type) : Type :=
| Done (a : A)
| Failed (e : failure).
Arguments Done {A} a.
Arguments Failed {A} e.

#[global] Instance outcome_fmap : FMap outcome := fun A B f o =>
  match o with
  | Done a => Done (f a)
  | Failed e => Failed e
  end.

(** A table is the list of its committed rows. A service reads it through
    [select] and writes it when it commits; what it raises before it
    commits leaves the table as it was. *)
Module Db.

(** [select(R).where(p)] *)
Definition select {R : Type} (p : R -> bool) (table : list R) : list R :=
  List.filter p table.

(** [result.scalar_one_or_none()] *)
Definition scalar_one_or_none {R : Type} (rows : list R) : outcome (option R) :=
  match rows with
  | [] => Done None
  | [r] => Done (Some r)
  | _ => Failed MultipleResultsFound
  end.

(** [db.add(row)] and [db.commit()]: the primary key is unique. *)
Definition add {R : Type} (key : R -> string) (row : R) (table : list R)
  : outcome (list R) :=
  if existsb (fun r => String.eqb (key r) (key row)) table
  then Failed IntegrityError
  else Done (table ++ [row]).

(** [db.commit()] after assignments to the attributes of a loaded row. *)
Definition update {R : Type} (key : R -> string) (row : R) (table : list R) : list R :=
  map (fun r => if String.eqb (key r) (key row) then row else r) table.

End Db.

(** ** models/tool.py *)

(** A row of [tools]. The columns declared [nullable=False] always hold a
    value; [limits] may be null. *)
Module Tool.
Record t : Type := {
  id : string;
  name : string;
  vendor : string;
  type : string;
  geometry : gmap string value;
  limits : option (gmap string value);
  created_at : datetime;
  updated_at : datetime;
  is_deleted : bool
}.
End Tool.

(** A row of [tool_exports]. *)
Module ToolExport.
Record t : Type := {
  id : string;
  tool_id : string;
  export_format : string;
  export_units : string;
  file_size : option nat;
  export_data : option string;
  created_at : datetime
}.
End ToolExport.

(** ** schemas/tool.py: the requests and responses of the services *)

Record ToolLimits : Type := {
  sfm : option Q;
  stepdown : option Q;
  engagement : option Q;
  feed_rate : option Q;
  spindle_speed : option Q
}.

(** [limits.dict()] *)
Definition ToolLimits_dict (l : ToolLimits) : gmap string value :=
  let v (o : option Q) := match o with Some q => VNum q | None => VNone end in
  list_to_map
    [("sfm", v (sfm l)); ("stepdown", v (stepdown l)); ("engagement", v (engagement l));
     ("feed_rate", v (feed_rate l)); ("spindle_speed", v (spindle_speed l))].

Module ToolCreate.
Record t : Type := {
  name : string;
  vendor : string;
  type : string;
  geometry : gmap string value;
  limits : option ToolLimits
}.
End ToolCreate.

(** A field of a [ToolUpdate] is unset, or set to [None] or to a value:
    [dict(exclude_unset=True)] has an item for each field that is set. *)
Inductive update_field (A : Type) : Type :=
| Unset
| SetTo (v : option A).
Arguments Unset {A}.
Arguments SetTo {A} v.

Module ToolUpdate.
Record t : Type := {
  name : update_field string;
  vendor : update_field string;
  geometry : update_field (gmap string value);
  limits : update_field ToolLimits
}.
End ToolUpdate.

Module ToolListResponse.
Record t (R : Type) : Type := {
  tools : list R;
  total : nat;
  page : positive;
  size : nat
}.
Arguments tools {R} _.
Arguments total {R} _.
Arguments page {R} _.
Arguments size {R} _.
End ToolListResponse.

(** [units.value] *)
Definition ExportUnits_value (u : ExportUnits) : string :=
  match u with
  | METRIC => "metric"
  | IMPERIAL => "imperial"
  end.

Module ExportResponse.
Record t : Type := {
  export_id : string;
  tool_id : string;
  format : string;
  units : ExportUnits;
  file_size : option nat;
  download_url : option string;
  created_at : datetime
}.
End ExportResponse.

(** [len(s)] of a [str]: the number of code points of the UTF-8 text. *)
Definition is_continuation (a : Ascii.ascii) : bool :=
  match a with
  | Ascii.Ascii _ _ _ _ _ _ b6 b7 => b7 && negb b6
  end.

Fixpoint len (s : string) : nat :=
  match s with
  | EmptyString => 0
  | String a s' => (if is_continuation a then 0 else 1) + len s'
  end.

(** ** services/tool_service.py *)

Module ToolService.
Section service.

(** [ToolResponse.from_orm], which validates the attributes of a row
    against the response schema. *)
Context {Response : Type}.
Variable from_orm : Tool.t -> outcome Response.

(** [ilike] of the database, and the order that the database gives to the
    rows under [order_by(Tool.created_at.desc())]. *)
Variable ilike : string -> string -> bool.
Variable order_by_created_at_desc : list Tool.t -> list Tool.t.

(** [and_(Tool.id == tool_id, Tool.is_deleted == False)] *)
Definition by_id (tool_id : string) (tool : Tool.t) : bool :=
  String.eqb (Tool.id tool) tool_id && Bool.eqb (Tool.is_deleted tool) false.

Definition create_tool (tool_data : ToolCreate.t) (tool_id : string)
    (created updated : datetime) (db : list Tool.t)
  : outcome Response * list Tool.t :=
  let tool :=
    {| Tool.id := tool_id;
       Tool.name := ToolCreate.name tool_data;
       Tool.vendor := ToolCreate.vendor tool_data;
       Tool.type := ToolCreate.type tool_data;
       Tool.geometry := ToolCreate.geometry tool_data;
       Tool.limits :=
         match ToolCreate.limits tool_data with
         | Some l => Some (ToolLimits_dict l)
         | None => None
         end;
       Tool.created_at := created;
       Tool.updated_at := updated;
       Tool.is_deleted := false |} in
  match Db.add Tool.id tool db with
  | Failed e => (Failed e, db)
  | Done db' => (from_orm tool, db')
  end.

Definition get_tool (tool_id : string) (db : list Tool.t) : outcome (option Response) :=
  match Db.scalar_one_or_none (Db.select (by_id tool_id) db) with
  | Failed e => Failed e
  | Done None => Done None
  | Done (Some tool) => Some <$> from_orm tool
  end.

(** [if flag: query = query.where(p)] *)
Definition where_if {R : Type} (flag : option string) (p : string -> R -> bool)
    (rows : list R) : list R :=
  match flag with
  | Some s => if String.eqb s "" then rows else Db.select (p s) rows
  | None => rows
  end.

(** [[ToolResponse.from_orm(tool) for tool in tools]] *)
Fixpoint from_orm_all (rows : list Tool.t) : outcome (list Response) :=
  match rows with
  | [] => Done []
  | tool :: rows' =>
      match from_orm tool with
      | Failed e => Failed e
      | Done r =>
          match from_orm_all rows' with
          | Failed e => Failed e
          | Done rs => Done (r :: rs)
          end
      end
  end.

(** The query of [list_tools] with its filters. *)
Definition list_query (search tool_type vendor : option string) (db : list Tool.t)
  : list Tool.t :=
  let query := Db.select (fun tool => Bool.eqb (Tool.is_deleted tool) false) db in
  (* Apply filters *)
  let query :=
    where_if search
      (fun search tool =>
         ilike (Tool.name tool) ("%" ++ search ++ "%")%string ||
         ilike (Tool.vendor tool) ("%" ++ search ++ "%")%string) query in
  let query :=
    where_if tool_type (fun tool_type tool => String.eqb (Tool.type tool) tool_type) query in
  where_if vendor
    (fun vendor tool => ilike (Tool.vendor tool) ("%" ++ vendor ++ "%")%string) query.

(** The router allows only [page >= 1] and [size >= 1]; what the database does
    with a negative offset or limit is not modelled. *)
Definition list_tools (page : positive) (size : nat)
    (search tool_type vendor : option string) (db : list Tool.t)
  : outcome (ToolListResponse.t Response) :=
  (* Build query *)
  let query := list_query search tool_type vendor db in
  (* Get total count *)
  let total := length query in
  (* Apply pagination *)
  let offset := ((Pos.to_nat page - 1) * size)%nat in
  let tools := take size (drop offset (order_by_created_at_desc query)) in
  (* Convert to response models *)
  match from_orm_all tools with
  | Failed e => Failed e
  | Done tool_responses =>
      Done {| ToolListResponse.tools := tool_responses;
              ToolListResponse.total := total;
              ToolListResponse.page := page;
              ToolListResponse.size := size |}
  end.

(** The value of an attribute after the [setattr] of a field that is set. *)
Definition assigned {A : Type} (f : update_field A) (old : A) : option A :=
  match f with
  | SetTo v => v
  | Unset => Some old
  end.

Definition update_tool (tool_id : string) (tool_data : ToolUpdate.t)
    (updated : datetime) (db : list Tool.t)
  : outcome (option Response) * list Tool.t :=
  match Db.scalar_one_or_none (Db.select (by_id tool_id) db) with
  | Failed e => (Failed e, db)
  | Done None => (Done None, db)
  | Done (Some tool) =>
      (* Update fields: the items of [update_data], in the order of the
         fields of [ToolUpdate] *)
      let name := assigned (ToolUpdate.name tool_data) (Tool.name tool) in
      let vendor := assigned (ToolUpdate.vendor tool_data) (Tool.vendor tool) in
      let geometry := assigned (ToolUpdate.geometry tool_data) (Tool.geometry tool) in
      match ToolUpdate.limits tool_data with
      | SetTo (Some _) =>
          (* [value] is the dict that [tool_data.dict] made of the limits,
             and a dict has no attribute [dict] *)
          (Failed AttributeError, db)
      | limits =>
          let limits :=
            match limits with
            | SetTo _ => None
            | Unset => Tool.limits tool
            end in
          (* commit: [name], [vendor] and [geometry] are not nullable *)
          match name, vendor, geometry with
          | Some name, Some vendor, Some geometry =>
              let tool :=
                {| Tool.id := Tool.id tool;
                   Tool.name := name;
                   Tool.vendor := vendor;
                   Tool.type := Tool.type tool;
                   Tool.geometry := geometry;
                   Tool.limits := limits;
                   Tool.created_at := Tool.created_at tool;
                   Tool.updated_at := updated;
                   Tool.is_deleted := Tool.is_deleted tool |} in
              (Some <$> from_orm tool, Db.update Tool.id tool db)
          | _, _, _ => (Failed IntegrityError, db)
          end
      end
  end.

Definition delete_tool (tool_id : string) (updated : datetime) (db : list Tool.t)
  : outcome bool * list Tool.t :=
  match Db.scalar_one_or_none (Db.select (by_id tool_id) db) with
  | Failed e => (Failed e, db)
  | Done None => (Done false, db)
  | Done (Some tool) =>
      let tool :=
        {| Tool.id := Tool.id tool;
           Tool.name := Tool.name tool;
           Tool.vendor := Tool.vendor tool;
           Tool.type := Tool.type tool;
           Tool.geometry := Tool.geometry tool;
           Tool.limits := Tool.limits tool;
           Tool.created_at := Tool.created_at tool;
           Tool.updated_at := updated;
           Tool.is_deleted := true |} in
      (Done true, Db.update Tool.id tool db)
  end.

Definition get_tool_by_name_and_vendor (name vendor : string) (db : list Tool.t)
  : outcome (option Response) :=
  match Db.scalar_one_or_none
          (Db.select (fun tool =>
                        String.eqb (Tool.name tool) name &&
                        String.eqb (Tool.vendor tool) vendor &&
                        Bool.eqb (Tool.is_deleted tool) false) db) with
  | Failed e => Failed e
  | Done None => Done None
  | Done (Some tool) => Some <$> from_orm tool
  end.

End service.
End ToolService.

(** ** services/export_service.py: the methods that use the database *)

Module ExportRecords.
Section service.

(** The text that [json.dumps] or [csv.writer] make of a document. *)
Variable render : document -> string.

Definition export_tool (tool : ToolResponse ref) (export_request : ExportRequest)
    (export_id : string) (now : datetime)
    (σ : store) (db : list ToolExport.t)
  : outcome ExportResponse.t * list ToolExport.t * store :=
  (* Generate export data *)
  match _generate_export_data tool export_request σ with
  | (Raise e, σ') => (Failed (Python e), db, σ')
  | (Ok doc, σ') =>
      let export_data := render doc in
      (* Create export record *)
      let export_record :=
        {| ToolExport.id := export_id;
           ToolExport.tool_id := tool_id tool;
           ToolExport.export_format := format export_request;
           ToolExport.export_units := ExportUnits_value (units export_request);
           ToolExport.file_size := Some (len export_data);
           ToolExport.export_data := Some export_data;
           ToolExport.created_at := now |} in
      match Db.add ToolExport.id export_record db with
      | Failed e => (Failed e, db, σ')
      | Done db' =>
          (Done {| ExportResponse.export_id := export_id;
                   ExportResponse.tool_id := tool_id tool;
                   ExportResponse.format := format export_request;
                   ExportResponse.units := units export_request;
                   ExportResponse.file_size := Some (len export_data);
                   ExportResponse.download_url :=
                     Some ("/api/tools/" ++ tool_id tool ++ "/export/" ++
                           export_id ++ "/download")%string;
                   ExportResponse.created_at := ToolExport.created_at export_record |},
           db', σ')
      end
  end.

Definition get_export (export_id : string) (db : list ToolExport.t)
  : outcome (option string) :=
  match Db.scalar_one_or_none
          (Db.select (fun export => String.eqb (ToolExport.id export) export_id) db) with
  | Failed e => Failed e
  | Done None => Done None
  | Done (Some export) => Done (ToolExport.export_data export)
  end.

End service.
End ExportRecords.

(** ** Vocabulary of the properties *)

Import ValidationService ExportService.

Definition is_str (v : value) : bool :=
  match v with
  | VStr _ => true
  | _ => false
  end.

(** Every stored value is a number or [None]. *)
Definition no_strings (g : gmap string value) : Prop :=
  map_Forall (fun _ v => is_str v = false) g.

(** The number stored under a key, if one is. *)
Definition num (g : gmap string value) (k : string) : option Q :=
  match g !! k with
  | Some (VNum q) => Some q
  | _ => None
  end.

Definition with_geometry {G H : Type} (tool : ToolResponse G) (g : H) : ToolResponse H :=
  {| tool_id := tool_id tool; name := name tool; vendor := vendor tool;
     type := type tool; geometry := g |}.

(** A verdict holds an error finding on field [f]. *)
Definition error_on (f : string) (r : ValidationResponse) : Prop :=
  exists e, In e (errors r) /\ field e = f.

Definition error_onb (f : string) (r : ValidationResponse) : bool :=
  existsb (fun e => String.eqb (field e) f) (errors r).

(** The range each tool type requires of a field (section 4.1 of the
    specification): [Some ok] when the type has an error rule for the
    field, with [ok q] the test a stored number must pass. *)
Definition above_zero (q : Q) : bool := negb (Qle_bool q 0).
Definition at_least (c q : Q) : bool := Qle_bool c q.

Definition error_rule (ty f : string) : option (Q -> bool) :=
  if existsb (String.eqb f) ["diameter"; "flute_length"; "overall_length"] then Some above_zero
  else if String.eqb ty ToolType.END_MILL then
    if String.eqb f "flute_count" then Some (at_least 1)
    else if String.eqb f "helix_angle" then Some (at_least 0)
    else if String.eqb f "length_of_cut" then Some above_zero
    else None
  else if String.eqb ty ToolType.BALL_END_MILL then
    if String.eqb f "flute_count" then Some (at_least 1)
    else if String.eqb f "tip_radius" then Some above_zero
    else None
  else if String.eqb ty ToolType.CHAMFER then
    if String.eqb f "included_angle" then Some above_zero
    else if String.eqb f "tip_flat" then Some (at_least 0)
    else if String.eqb f "shank_diameter" then Some above_zero
    else None
  else if String.eqb ty ToolType.DRILL then
    if String.eqb f "point_angle" then Some above_zero else None
  else if String.eqb ty ToolType.THREAD_MILL then
    if String.eqb f "pitch" then Some above_zero
    else if String.eqb f "max_thread_length" then Some above_zero
    else None
  else None.

(** [f] with value [q] breaks the rule of its field, if the type has one. *)
Definition out_of_range (ty f : string) (q : Q) : Prop :=
  match error_rule ty f with
  | Some ok => ok q = false
  | None => True
  end.

(** Extension of a geometry by a list of fields. *)
Definition extend (g : gmap string value) (more : list (string * Q)) : gmap string value :=
  fold_right (fun kv m => <[fst kv := VNum (snd kv)]> m) g more.

(** Millimetres to inches, as the exporter rounds them. *)
Definition to_inch (v : Q) : Q := round_digits (v / 25.4) 4.

Definition angle_count_fields : list string :=
  ["helix_angle"; "included_angle"; "point_angle"; "lead_angle"; "flute_count"].

(** The geometry fields each export format shows: member name, geometry
    field and default of the structured format; column label and
    geometry field of the tabular one. *)
Definition fusion_fields (ty : string) : list (string * string * value) :=
  [("diameter", "diameter", VNum 0);
   ("fluteLength", "flute_length", VNum 0);
   ("overallLength", "overall_length", VNum 0)] ++
  (if String.eqb ty "end_mill" then
     [("fluteCount", "flute_count", VNum 2);
      ("helixAngle", "helix_angle", VNum 30);
      ("lengthOfCut", "length_of_cut", VNum 0);
      ("cornerRadius", "corner_radius", VNum 0)]
   else if String.eqb ty "ball_end_mill" then
     [("fluteCount", "flute_count", VNum 2);
      ("tipRadius", "tip_radius", VNum 0)]
   else if String.eqb ty "chamfer" then
     [("includedAngle", "included_angle", VNum 90);
      ("tipFlat", "tip_flat", VNum 0);
      ("shankDiameter", "shank_diameter", VNum 0)]
   else if String.eqb ty "drill" then
     [("pointAngle", "point_angle", VNum 118)]
   else if String.eqb ty "reamer" then
     [("leadAngle", "lead_angle", VNum 0)]
   else if String.eqb ty "thread_mill" then
     [("pitch", "pitch", VNum 0);
      ("maxThreadLength", "max_thread_length", VNum 0)]
   else []).

Definition csv_columns (ty : string) : list (string * string) :=
  [("Diameter", "diameter");
   ("Flute Length", "flute_length");
   ("Overall Length", "overall_length")] ++
  (if String.eqb ty "end_mill" then
     [("Flute Count", "flute_count");
      ("Helix Angle", "helix_angle");
      ("Length of Cut", "length_of_cut");
      ("Corner Radius", "corner_radius")]
   else if String.eqb ty "ball_end_mill" then
     [("Flute Count", "flute_count");
      ("Tip Radius", "tip_radius")]
   else if String.eqb ty "chamfer" then
     [("Included Angle", "included_angle");
      ("Tip Flat", "tip_flat");
      ("Shank Diameter", "shank_diameter")]
   else if String.eqb ty "drill" then
     [("Point Angle", "point_angle")]
   else if String.eqb ty "reamer" then
     [("Lead Angle", "lead_angle")]
   else if String.eqb ty "thread_mill" then
     [("Pitch", "pitch");
      ("Max Thread Length", "max_thread_length")]
   else []).

(** The member of a structured document under a name. *)
Definition json_member (k : string) (doc : document) : option value :=
  match doc with
  | Json items =>
      match find (fun p => String.eqb (fst p) k) items with
      | Some p => Some (snd p)
      | None => None
      end
  | Csv _ => None
  end.

Fixpoint cell_under (label : string) (header row : list value) : option value :=
  match header, row with
  | VStr h :: header', c :: row' =>
      if String.eqb h label then Some c else cell_under label header' row'
  | _, _ => None
  end.

(** The cell of the data row of a tabular document under a column label. *)
Definition csv_cell (label : string) (doc : document) : option value :=
  match doc with
  | Csv [header; row] => cell_under label header row
  | _ => None
  end.

(** The geometry an export shows: the stored one under metric units, the
    converted one under imperial units. *)
Definition convert_value_in (fields : list string) (k : string) (v : value) : value :=
  match v with
  | VNum q => if existsb (String.eqb k) fields then VNum (to_inch q) else v
  | _ => v
  end.

Definition convert_value : string -> value -> value := convert_value_in mm_fields.

Definition shown_geometry (units : ExportUnits) (g : gmap string value)
  : gmap string value :=
  match units with
  | METRIC => g
  | IMPERIAL => map_imap (fun k v => Some (convert_value k v)) g
  end.

(** The conversion loop, field by field. *)
Definition convert_field (d : gmap string value) (k : string) : gmap string value :=
  match d !! k with
  | Some (VNum q) => <[k := VNum (to_inch q)]> d
  | _ => d
  end.

Definition convert_fields (fields : list string) (d : gmap string value)
  : gmap string value :=
  fold_left convert_field fields d.

(** *** The errors of each stage as a function of the numbers stored *)

Definition opt (b : bool) (e : ValidationError) : list ValidationError :=
  if b then [e] else [].

Definition error (f m : string) : ValidationError :=
  {| field := f; message := m; severity := "error" |}.

(** A presence rule fires on a missing field, on zero and on [bad]. *)
Definition missing_or (g : gmap string value) (k : string) (bad : Q -> bool) : bool :=
  match num g k with
  | Some q => Qeq_bool q 0 || bad q
  | None => true
  end.

(** A guarded rule looks at fields that are stored and not zero. *)
Definition nonzero (g : gmap string value) (k : string) : option Q :=
  match num g k with
  | Some q => if Qeq_bool q 0 then None else Some q
  | None => None
  end.

Definition both (g : gmap string value) (k1 k2 : string) (p : Q -> Q -> bool) : bool :=
  match nonzero g k1, nonzero g k2 with
  | Some a, Some b => p a b
  | _, _ => false
  end.

Definition basic_errors (g : gmap string value) : list ValidationError :=
  opt (missing_or g "diameter" (fun q => Qle_bool q 0))
      (error "diameter" "Diameter must be greater than 0") ++
  opt (missing_or g "flute_length" (fun q => Qle_bool q 0))
      (error "flute_length" "Flute length must be greater than 0") ++
  opt (missing_or g "overall_length" (fun q => Qle_bool q 0))
      (error "overall_length" "Overall length must be greater than 0") ++
  opt (both g "flute_length" "overall_length" (fun a b => Qle_bool b a))
      (error "flute_length" "Flute length must be less than overall length").

Definition end_mill_errors (g : gmap string value) : list ValidationError :=
  opt (missing_or g "flute_count" (fun q => negb (Qle_bool 1 q)))
      (error "flute_count" "Flute count must be at least 1") ++
  opt (missing_or g "helix_angle" (fun q => negb (Qle_bool 0 q)))
      (error "helix_angle" "Helix angle must be non-negative") ++
  opt (missing_or g "length_of_cut" (fun q => Qle_bool q 0))
      (error "length_of_cut" "Length of cut must be greater than 0") ++
  opt (both g "flute_length" "length_of_cut" (fun a b => negb (Qle_bool b a)))
      (error "length_of_cut" "Length of cut cannot exceed flute length").

Definition ball_end_mill_errors (g : gmap string value) : list ValidationError :=
  opt (missing_or g "flute_count" (fun q => negb (Qle_bool 1 q)))
      (error "flute_count" "Flute count must be at least 1") ++
  opt (missing_or g "tip_radius" (fun q => Qle_bool q 0))
      (error "tip_radius" "Tip radius must be greater than 0") ++
  opt (both g "diameter" "tip_radius"
         (fun d t => negb (Qle_bool (Qabs (t - d / 2)) 0.01)))
      (error "tip_radius" "Tip radius must equal half the diameter for ball end mills").

Definition chamfer_errors (g : gmap string value) : list ValidationError :=
  opt (missing_or g "included_angle" (fun q => Qle_bool q 0))
      (error "included_angle" "Included angle is required and must be greater than 0") ++
  opt (match num g "tip_flat" with
       | Some q => negb (Qle_bool 0 q)
       | None => true
       end)
      (error "tip_flat" "Tip flat is required") ++
  opt (missing_or g "shank_diameter" (fun q => Qle_bool q 0))
      (error "shank_diameter" "Shank diameter must be greater than 0").

Definition drill_errors (g : gmap string value) : list ValidationError :=
  opt (missing_or g "point_angle" (fun q => Qle_bool q 0))
      (error "point_angle" "Point angle must be greater than 0").

Definition thread_mill_errors (g : gmap string value) : list ValidationError :=
  opt (missing_or g "pitch" (fun q => Qle_bool q 0))
      (error "pitch" "Pitch must be greater than 0") ++
  opt (missing_or g "max_thread_length" (fun q => Qle_bool q 0))
      (error "max_thread_length" "Maximum thread length must be greater than 0").

Definition type_errors (ty : string) (g : gmap string value) : list ValidationError :=
  if String.eqb ty ToolType.END_MILL then end_mill_errors g
  else if String.eqb ty ToolType.BALL_END_MILL then ball_end_mill_errors g
  else if String.eqb ty ToolType.CHAMFER then chamfer_errors g
  else if String.eqb ty ToolType.DRILL then drill_errors g
  else if String.eqb ty ToolType.REAMER then []
  else if String.eqb ty ToolType.THREAD_MILL then thread_mill_errors g
  else [].

Definition compatibility_errors (ty : string) : list ValidationError :=
  opt (negb (existsb (String.eqb ty) supported_types))
      (error "type" ("Tool type '" ++ ty ++ "' is not supported by Fusion 360")).

Definition all_errors (ty : string) (g : gmap string value) : list ValidationError :=
  basic_errors g ++ type_errors ty g ++ compatibility_errors ty.

(** *** The warnings of each stage *)

Definition warning (f m : string) : ValidationError :=
  {| field := f; message := m; severity := "warning" |}.

Definition outside (lo hi : Q) (q : Q) : bool :=
  negb (Qle_bool lo q) || negb (Qle_bool q hi).

Definition nonzero_and (g : gmap string value) (k : string) (p : Q -> bool) : bool :=
  match nonzero g k with
  | Some q => p q
  | None => false
  end.

Definition end_mill_warnings (g : gmap string value) : list ValidationError :=
  opt (nonzero_and g "helix_angle" (outside 20 45))
      (warning "helix_angle" "Unusual helix angle - typical range is 20-45 degrees") ++
  opt (both g "corner_radius" "diameter" (fun c d => negb (Qle_bool c (d / 4))))
      (warning "corner_radius" "Large corner radius may affect cutting performance").

Definition chamfer_warnings (g : gmap string value) : list ValidationError :=
  opt (nonzero_and g "tip_flat" (fun q => negb (Qle_bool 0.1 q)))
      (warning "tip_flat" "Very small tip flat may be difficult to manufacture").

Definition drill_warnings (g : gmap string value) : list ValidationError :=
  opt (nonzero_and g "point_angle" (outside 90 150))
      (warning "point_angle" "Unusual point angle - typical range is 90-150 degrees").

Definition reamer_warnings (g : gmap string value) : list ValidationError :=
  opt (match num g "lead_angle" with
       | Some q => outside 0 90 q
       | None => false
       end)
      (warning "lead_angle" "Lead angle should be between 0 and 90 degrees").

Definition thread_mill_warnings (g : gmap string value) : list ValidationError :=
  opt (both g "max_thread_length" "flute_length" (fun m f => negb (Qle_bool m f)))
      (warning "max_thread_length" "Maximum thread length should not exceed flute length").

Definition type_warnings (ty : string) (g : gmap string value) : list ValidationError :=
  if String.eqb ty ToolType.END_MILL then end_mill_warnings g
  else if String.eqb ty ToolType.BALL_END_MILL then []
  else if String.eqb ty ToolType.CHAMFER then chamfer_warnings g
  else if String.eqb ty ToolType.DRILL then drill_warnings g
  else if String.eqb ty ToolType.REAMER then reamer_warnings g
  else if String.eqb ty ToolType.THREAD_MILL then thread_mill_warnings g
  else [].

Definition compatibility_warnings (g : gmap string value) : list ValidationError :=
  opt (nonzero_and g "diameter" (outside 0.1 100))
      (warning "diameter" "Diameter outside typical range (0.1-100mm)") ++
  opt (nonzero_and g "overall_length" (outside 1 500))
      (warning "overall_length" "Overall length outside typical range (1-500mm)").

Definition all_warnings (ty : string) (g : gmap string value) : list ValidationError :=
  type_warnings ty g ++ compatibility_warnings g.

(** The findings of the guarded cross-field rules. *)
Definition cross_field (e : ValidationError) : bool :=
  existsb (String.eqb (message e))
    ["Flute length must be less than overall length";
     "Length of cut cannot exceed flute length";
     "Tip radius must equal half the diameter for ball end mills"].

(** A program of the validator returns, having appended [E] to the
    errors and [W] to the warnings. *)
Definition emits (m : V unit) (E W : list ValidationError) : Prop :=
  forall s,
    m s = Ok (tt, {| errors_ := errors_ s ++ E; warnings_ := warnings_ s ++ W |}).

(** An assertion on the two lists that a program keeps, when it returns. *)
Definition keeps (P : lists -> Prop) {A : Type} (m : V A) : Prop :=
  forall s a s', P s -> m s = Ok (a, s') -> P s'.

Definition severities_ok (s : lists) : Prop :=
  Forall (fun e => severity e = "error") (errors_ s) /\
  Forall (fun e => severity e = "warning") (warnings_ s).

(** A program of the exporter leaves every dict of [σ0] as it is and
    returns only what satisfies [Q]. *)
Definition frames (σ0 : store) {A : Type} (m : X A) (Q : A -> Prop) : Prop :=
  forall σ, σ0 ⊆ σ ->
    σ0 ⊆ snd (m σ) /\ forall a, fst (m σ) = Ok a -> Q a.

(** ** Sample records *)

Definition sample (ty : string) (fields : list (string * value))
  : ToolResponse (gmap string value) :=
  {| tool_id := "tool-1"; name := "Sample"; vendor := "Acme"; type := ty;
     geometry := list_to_map fields |}.

Definition valid_end_mill : ToolResponse (gmap string value) :=
  sample "end_mill"
    [("diameter", VNum 6); ("flute_length", VNum 20); ("overall_length", VNum 50);
     ("flute_count", VNum 2); ("helix_angle", VNum 30); ("length_of_cut", VNum 18);
     ("corner_radius", VNum 0.5)].

Definition end_mill_helix_0 : ToolResponse (gmap string value) :=
  sample "end_mill"
    [("diameter", VNum 6); ("flute_length", VNum 20); ("overall_length", VNum 50);
     ("flute_count", VNum 2); ("helix_angle", VNum 0); ("length_of_cut", VNum 18);
     ("corner_radius", VNum 0.5)].

Definition invalid_ball_end_mill : ToolResponse (gmap string value) :=
  sample "ball_end_mill"
    [("diameter", VNum 6); ("flute_length", VNum 20); ("overall_length", VNum 50);
     ("flute_count", VNum 2); ("tip_radius", VNum 2)].

Definition chamfer_tip_flat_0 : ToolResponse (gmap string value) :=
  sample "chamfer"
    [("diameter", VNum 6); ("flute_length", VNum 20); ("overall_length", VNum 50);
     ("included_angle", VNum 90); ("tip_flat", VNum 0); ("shank_diameter", VNum 6)].

Definition bare_thread_mill : ToolResponse (gmap string value) :=
  sample "thread_mill"
    [("diameter", VNum 6); ("overall_length", VNum 50); ("pitch", VNum 1)].

Definition bare_ball_end_mill : ToolResponse (gmap string value) :=
  sample "ball_end_mill"
    [("diameter", VNum 6); ("overall_length", VNum 50); ("flute_count", VNum 2)].

Definition drill_without_point_angle : ToolResponse (gmap string value) :=
  sample "drill"
    [("diameter", VNum 25.4); ("flute_length", VNum 40); ("overall_length", VNum 80)].

(** A store that holds the geometry of a tool, and the tool with the
    reference to it. *)
Definition stored_at : ref := 1%positive.

Definition store_of (tool : ToolResponse (gmap string value)) : store :=
  {[ stored_at := geometry tool ]}.

Definition stored (tool : ToolResponse (gmap string value)) : ToolResponse ref :=
  with_geometry tool stored_at.

(** ** Vocabulary of the further properties *)

(** The geometry fields that the rules of each tool type read. *)
Definition checked_fields (ty : string) : list string :=
  ["diameter"; "flute_length"; "overall_length"] ++
  (if String.eqb ty ToolType.END_MILL then
     ["flute_count"; "helix_angle"; "length_of_cut"; "corner_radius"]
   else if String.eqb ty ToolType.BALL_END_MILL then ["flute_count"; "tip_radius"]
   else if String.eqb ty ToolType.CHAMFER then
     ["included_angle"; "tip_flat"; "shank_diameter"]
   else if String.eqb ty ToolType.DRILL then ["point_angle"]
   else if String.eqb ty ToolType.REAMER then ["lead_angle"]
   else if String.eqb ty ToolType.THREAD_MILL then ["pitch"; "max_thread_length"]
   else []).

(** A program of the validator raises [e0] or nothing. *)
Definition raises_only (e0 : exn) {A : Type} (m : V A) : Prop :=
  forall s e, m s = Raise e -> e = e0.

(** Every finding is on one of [fields]. *)
Definition findings_on (fields : list string) (s : lists) : Prop :=
  Forall (fun e => In (field e) fields) (errors_ s) /\
  Forall (fun e => In (field e) fields) (warnings_ s).

(** The number stored under [k] satisfies [P]. *)
Definition has (g : gmap string value) (k : string) (P : Q -> Prop) : Prop :=
  exists q, g !! k = Some (VNum q) /\ P q.

(** The numbers stored under [k1] and [k2] are in relation [R]. *)
Definition related (g : gmap string value) (k1 k2 : string) (R : Q -> Q -> Prop) : Prop :=
  exists a b, g !! k1 = Some (VNum a) /\ g !! k2 = Some (VNum b) /\ R a b.

(** What the error rules ask of the geometry of a tool of type [ty]. *)
Definition acceptable (ty : string) (g : gmap string value) : Prop :=
  has g "diameter" (fun d => 0 < d)%Q /\
  has g "flute_length" (fun fl => 0 < fl)%Q /\
  has g "overall_length" (fun ol => 0 < ol)%Q /\
  related g "flute_length" "overall_length" (fun fl ol => fl < ol)%Q /\
  if String.eqb ty ToolType.END_MILL then
    has g "flute_count" (fun n => 1 <= n)%Q /\
    has g "helix_angle" (fun h => 0 < h)%Q /\
    has g "length_of_cut" (fun c => 0 < c)%Q /\
    related g "length_of_cut" "flute_length" (fun c fl => c <= fl)%Q
  else if String.eqb ty ToolType.BALL_END_MILL then
    has g "flute_count" (fun n => 1 <= n)%Q /\
    has g "tip_radius" (fun t => 0 < t)%Q /\
    related g "tip_radius" "diameter" (fun t d => Qabs (t - d / 2) <= 0.01)%Q
  else if String.eqb ty ToolType.CHAMFER then
    has g "included_angle" (fun a => 0 < a)%Q /\
    has g "tip_flat" (fun t => 0 <= t)%Q /\
    has g "shank_diameter" (fun d => 0 < d)%Q
  else if String.eqb ty ToolType.DRILL then
    has g "point_angle" (fun a => 0 < a)%Q
  else if String.eqb ty ToolType.REAMER then True
  else if String.eqb ty ToolType.THREAD_MILL then
    has g "pitch" (fun p => 0 < p)%Q /\
    has g "max_thread_length" (fun m => 0 < m)%Q
  else False.

(** A verdict holds a warning finding on field [f]. *)
Definition warning_on (f : string) (r : ValidationResponse) : Prop :=
  exists w, In w (warnings r) /\ field w = f.

(** The typical range of a field, outside of which a stored value draws a
    warning. *)
Definition typical_range (ty f : string) : option (Q * Q) :=
  if String.eqb f "diameter" then Some (0.1%Q, 100%Q)
  else if String.eqb f "overall_length" then Some (1%Q, 500%Q)
  else if String.eqb ty ToolType.END_MILL && String.eqb f "helix_angle"
  then Some (20%Q, 45%Q)
  else if String.eqb ty ToolType.DRILL && String.eqb f "point_angle"
  then Some (90%Q, 150%Q)
  else if String.eqb ty ToolType.REAMER && String.eqb f "lead_angle"
  then Some (0%Q, 90%Q)
  else None.

(** One of [fields] holds a string in [d]. *)
Definition string_under (fields : list string) (d : gmap string value) : Prop :=
  exists k s, In k fields /\ d !! k = Some (VStr s).

Definition string_underb (fields : list string) (d : gmap string value) : bool :=
  existsb (fun k => match d !! k with Some (VStr _) => true | _ => false end) fields.

Definition known_format (f : string) : Prop :=
  f = ExportFormat.FUSION_JSON \/ f = ExportFormat.CSV.

(** A tool of the table that is not deleted. *)
Definition stored_tool (db : list Tool.t) (tool : Tool.t) : Prop :=
  In tool db /\ Tool.is_deleted tool = false.

(** ** Sample rows and requests *)

Definition sample_row (i : string) (deleted : bool) : Tool.t :=
  {| Tool.id := i; Tool.name := "Sample"; Tool.vendor := "Acme";
     Tool.type := "end_mill"; Tool.geometry := geometry valid_end_mill;
     Tool.limits := None; Tool.created_at := 10%Z; Tool.updated_at := 10%Z;
     Tool.is_deleted := deleted |}.

Definition sample_db : list Tool.t :=
  [sample_row "a" false; sample_row "b" false; sample_row "c" true].

Definition sample_create : ToolCreate.t :=
  {| ToolCreate.name := "Sample"; ToolCreate.vendor := "Acme";
     ToolCreate.type := "end_mill"; ToolCreate.geometry := geometry valid_end_mill;
     ToolCreate.limits :=
       Some {| sfm := Some 300%Q; stepdown := None; engagement := None;
               feed_rate := None; spindle_speed := None |} |}.

Definition rename_only : ToolUpdate.t :=
  {| ToolUpdate.name := SetTo (Some "Renamed"); ToolUpdate.vendor := Unset;
     ToolUpdate.geometry := Unset; ToolUpdate.limits := Unset |}.

Definition limits_only : ToolUpdate.t :=
  {| ToolUpdate.name := Unset; ToolUpdate.vendor := Unset;
     ToolUpdate.geometry := Unset;
     ToolUpdate.limits :=
       SetTo (Some {| sfm := Some 300%Q; stepdown := None; engagement := None;
                      feed_rate := None; spindle_speed := None |}) |}.

Definition string_diameter : ToolResponse (gmap string value) :=
  sample "drill"
    [("diameter", VStr "6mm"); ("flute_length", VNum 40); ("overall_length", VNum 80)].

Definition wide_drill : ToolResponse (gmap string value) :=
  sample "drill"
    [("diameter", VNum 200); ("flute_length", VNum 40); ("overall_length", VNum 80);
     ("point_angle", VNum 118)].

(** * Properties *)

(** ** The validator: what each stage appends *)

Lemma no_strings_lookup (g : gmap string value) k s :
  no_strings g -> g !! k <> Some (VStr s).
Proof. intros H E. apply H in E. discriminate. Qed.

Lemma emits_bind (m1 m2 : V unit) E1 E2 W1 W2 :
  emits m1 E1 W1 -> emits m2 E2 W2 -> emits (m1;; m2) (E1 ++ E2) (W1 ++ W2).
Proof.
  intros H1 H2 s. unfold mbind, V_bind. rewrite H1, H2. simpl.
  by rewrite !app_assoc.
Qed.

Lemma emits_eq (m : V unit) E E' W W' :
  E = E' -> W = W' -> emits m E W -> emits m E' W'.
Proof. by intros -> ->. Qed.

(** An error rule first, a warning rule first, and an error rule before
    warning rules only. *)
Lemma emits_bind_e (m1 m2 : V unit) E1 E2 W :
  emits m1 E1 [] -> emits m2 E2 W -> emits (m1;; m2) (E1 ++ E2) W.
Proof. intros H1 H2. apply (emits_bind _ _ _ _ _ _ H1 H2). Qed.

Lemma emits_bind_w (m1 m2 : V unit) E W1 W2 :
  emits m1 [] W1 -> emits m2 E W2 -> emits (m1;; m2) E (W1 ++ W2).
Proof. intros H1 H2. apply (emits_bind _ _ _ _ _ _ H1 H2). Qed.

Lemma emits_bind_ew (m1 m2 : V unit) E W :
  emits m1 E [] -> emits m2 [] W -> emits (m1;; m2) E W.
Proof.
  intros H1 H2. eapply emits_eq; [| |apply (emits_bind _ _ _ _ _ _ H1 H2)].
  - apply app_nil_r.
  - reflexivity.
Qed.

Lemma emits_skip : emits (mret tt) [] [].
Proof. intros [es ws]. unfold mret, V_ret. simpl. by rewrite !app_nil_r. Qed.

Lemma emits_err c b e :
  c = Ok b -> emits (when_ c (errors_append e)) (opt b e) [].
Proof.
  intros -> [es ws]. destruct b; simpl;
    unfold when_, mbind, V_bind, ValidationService.eval, errors_append, mret, V_ret; simpl;
    by rewrite !app_nil_r.
Qed.

Lemma emits_warn c b w :
  c = Ok b -> emits (when_ c (warnings_append w)) [] (opt b w).
Proof.
  intros -> [es ws]. destruct b; simpl;
    unfold when_, mbind, V_bind, ValidationService.eval, warnings_append, mret, V_ret; simpl;
    by rewrite !app_nil_r.
Qed.

Lemma emits_guard (guard : bool) (m : V unit) E W :
  (guard = true -> emits m E W) -> (guard = false -> E = [] /\ W = []) ->
  emits (when_ (Ok guard) m) E W.
Proof.
  intros Ht Hf s. destruct guard.
  - unfold when_, mbind, V_bind, ValidationService.eval. simpl. apply (Ht eq_refl).
  - destruct (Hf eq_refl) as [-> ->]. destruct s.
    unfold when_, mbind, V_bind, ValidationService.eval, mret, V_ret. simpl.
    by rewrite !app_nil_r.
Qed.

Lemma emits_guard_err (guard : bool) c B e :
  (guard = true -> c = Ok B) -> (guard = false -> B = false) ->
  emits (when_ (Ok guard) (when_ c (errors_append e))) (opt B e) [].
Proof.
  intros Ht Hf. apply emits_guard.
  - intros G. apply emits_err. auto.
  - intros G. by rewrite (Hf G).
Qed.

Lemma emits_guard_warn (guard : bool) c B w :
  (guard = true -> c = Ok B) -> (guard = false -> B = false) ->
  emits (when_ (Ok guard) (when_ c (warnings_append w))) [] (opt B w).
Proof.
  intros Ht Hf. apply emits_guard.
  - intros G. apply emits_warn. auto.
  - intros G. by rewrite (Hf G).
Qed.

Lemma emits_eval {A : Type} (r : result A) (a : A) (f : A -> V unit) E W :
  r = Ok a -> emits (f a) E W -> emits (ValidationService.eval r ≫= f) E W.
Proof.
  intros -> H s. unfold mbind, V_bind, ValidationService.eval. apply H.
Qed.

(** Case analysis on the lookups of a geometry without strings, then on
    the comparisons of the numbers found. *)
Ltac lookups g H :=
  unfold missing_or, both, nonzero_and, nonzero, outside, num, get, getitem in *;
  repeat match goal with
  | |- context [g !! ?k] =>
      let E := fresh "E" in
      destruct (g !! k) as [[|?|?]|] eqn:E;
      [ | | exfalso; exact (no_strings_lookup g _ _ H E) | ]
  end;
  simpl in *.

Ltac bools :=
  repeat match goal with
  | |- context [Qeq_bool ?a ?b] => destruct (Qeq_bool a b) eqn:?; simpl in *
  | |- context [Qle_bool ?a ?b] => destruct (Qle_bool a b) eqn:?; simpl in *
  end.

Ltac cond g H :=
  lookups g H; bools; intros; try discriminate; try reflexivity; eauto.

Lemma basic_emits (tool : ToolResponse (gmap string value)) :
  no_strings (geometry tool) ->
  emits (_validate_basic_fields tool) (basic_errors (geometry tool)) [].
Proof.
  intros H. unfold _validate_basic_fields, basic_errors.
  set (g := geometry tool) in *.
  do 3 (apply emits_bind_e; [apply emits_err; cond g H|]).
  apply emits_guard_err; cond g H.
Qed.

Lemma end_mill_emits (tool : ToolResponse (gmap string value)) :
  no_strings (geometry tool) ->
  emits (_validate_end_mill tool)
    (end_mill_errors (geometry tool)) (end_mill_warnings (geometry tool)).
Proof.
  intros H. unfold _validate_end_mill, end_mill_errors, end_mill_warnings.
  set (g := geometry tool) in *.
  do 3 (apply emits_bind_e; [apply emits_err; cond g H|]).
  apply emits_bind_ew; [apply emits_guard_err; cond g H|].
  apply emits_bind_w; apply emits_guard_warn; cond g H.
Qed.

Lemma ball_end_mill_emits (tool : ToolResponse (gmap string value)) :
  no_strings (geometry tool) ->
  emits (_validate_ball_end_mill tool) (ball_end_mill_errors (geometry tool)) [].
Proof.
  intros H. unfold _validate_ball_end_mill, ball_end_mill_errors.
  set (g := geometry tool) in *.
  do 2 (apply emits_bind_e; [apply emits_err; cond g H|]).
  apply emits_guard.
  - lookups g H; intros G; try discriminate;
      apply andb_prop in G as [G1 G2]; try discriminate.
    eapply emits_eval; [reflexivity|]. apply emits_err.
    apply negb_true_iff in G1, G2. rewrite G1, G2. reflexivity.
  - cond g H.
Qed.

Lemma chamfer_emits (tool : ToolResponse (gmap string value)) :
  no_strings (geometry tool) ->
  emits (_validate_chamfer tool)
    (chamfer_errors (geometry tool)) (chamfer_warnings (geometry tool)).
Proof.
  intros H. unfold _validate_chamfer, chamfer_errors, chamfer_warnings.
  set (g := geometry tool) in *.
  do 2 (apply emits_bind_e; [apply emits_err; cond g H|]).
  apply emits_bind_ew; [apply emits_err; cond g H|].
  apply emits_warn. cond g H.
Qed.

Lemma drill_emits (tool : ToolResponse (gmap string value)) :
  no_strings (geometry tool) ->
  emits (_validate_drill tool)
    (drill_errors (geometry tool)) (drill_warnings (geometry tool)).
Proof.
  intros H. unfold _validate_drill, drill_errors, drill_warnings.
  set (g := geometry tool) in *.
  apply emits_bind_ew; [apply emits_err; cond g H|].
  apply emits_guard_warn; cond g H.
Qed.

Lemma reamer_emits (tool : ToolResponse (gmap string value)) :
  no_strings (geometry tool) ->
  emits (_validate_reamer tool) [] (reamer_warnings (geometry tool)).
Proof.
  intros H. unfold _validate_reamer, reamer_warnings.
  set (g := geometry tool) in *.
  apply emits_guard_warn; cond g H.
Qed.

Lemma thread_mill_emits (tool : ToolResponse (gmap string value)) :
  no_strings (geometry tool) ->
  emits (_validate_thread_mill tool)
    (thread_mill_errors (geometry tool)) (thread_mill_warnings (geometry tool)).
Proof.
  intros H. unfold _validate_thread_mill, thread_mill_errors, thread_mill_warnings.
  set (g := geometry tool) in *.
  apply emits_bind_e; [apply emits_err; cond g H|].
  apply emits_bind_ew; [apply emits_err; cond g H|].
  apply emits_guard_warn; cond g H.
Qed.

Lemma compatibility_emits (tool : ToolResponse (gmap string value)) :
  no_strings (geometry tool) ->
  emits (_validate_fusion_compatibility tool)
    (compatibility_errors (type tool)) (compatibility_warnings (geometry tool)).
Proof.
  intros H. unfold _validate_fusion_compatibility, compatibility_errors,
    compatibility_warnings.
  set (g := geometry tool) in *.
  apply emits_bind_ew; [apply emits_err; reflexivity|].
  apply emits_bind_w; apply emits_guard_warn; cond g H.
Qed.

Lemma run_rules_emits (tool : ToolResponse (gmap string value)) :
  no_strings (geometry tool) ->
  emits (run_rules tool)
    (all_errors (type tool) (geometry tool))
    (all_warnings (type tool) (geometry tool)).
Proof.
  intros H. unfold run_rules, all_errors, all_warnings, type_errors, type_warnings.
  apply emits_bind_e; [by apply basic_emits|].
  apply emits_bind; [|by apply compatibility_emits].
  repeat case_match; auto using end_mill_emits, ball_end_mill_emits,
    chamfer_emits, drill_emits, reamer_emits, thread_mill_emits, emits_skip.
Qed.

(** Without a string in its geometry, a tool is given its verdict: the
    errors are [all_errors] and the warnings [all_warnings]. *)
Lemma validate_tool_returns (tool : ToolResponse (gmap string value)) :
  no_strings (geometry tool) ->
  validate_tool tool =
    Ok {| is_valid := Nat.eqb (length (all_errors (type tool) (geometry tool))) 0;
          errors := all_errors (type tool) (geometry tool);
          warnings := all_warnings (type tool) (geometry tool) |}.
Proof.
  intros H. unfold validate_tool. rewrite (run_rules_emits tool H). reflexivity.
Qed.

(** ** Reading the errors of a verdict *)

Lemma error_on_spec f r : error_on f r <-> error_onb f r = true.
Proof.
  unfold error_on, error_onb. rewrite existsb_exists.
  split; intros (e & Hin & He); exists e; split; auto.
  - by apply String.eqb_eq.
  - by apply String.eqb_eq in He.
Qed.

Lemma existsb_opt (p : ValidationError -> bool) b e :
  existsb p (opt b e) = b && p e.
Proof. destruct b; simpl; [apply orb_false_r | reflexivity]. Qed.

Lemma Qle_bool_false a b : Qle_bool a b = false <-> (b < a)%Q.
Proof.
  rewrite <- not_true_iff_false, Qle_bool_iff. split.
  - apply Qnot_le_lt.
  - apply Qlt_not_le.
Qed.

Lemma nonzero_above_zero g k q :
  g !! k = Some (VNum q) -> (0 < q)%Q -> nonzero g k = Some q.
Proof.
  intros E Hq. unfold nonzero, num. rewrite E.
  destruct (Qeq_bool q 0) eqn:Hz; [|reflexivity].
  apply Qeq_bool_iff in Hz. rewrite Hz in Hq. by apply Qlt_irrefl in Hq.
Qed.

Lemma missing_or_above_zero g k q :
  g !! k = Some (VNum q) -> (0 < q)%Q -> missing_or g k (fun q => Qle_bool q 0) = false.
Proof.
  intros E Hq. unfold missing_or, num. rewrite E.
  apply orb_false_iff. split.
  - destruct (Qeq_bool q 0) eqn:Hz; [|reflexivity].
    apply Qeq_bool_iff in Hz. rewrite Hz in Hq. by apply Qlt_irrefl in Hq.
  - by apply Qle_bool_false.
Qed.



(** ** Assertions kept by every run *)

Lemma keeps_ret P {A : Type} (a : A) : keeps P (mret a : V A).
Proof. intros s a' s' HP [= <- <-]. exact HP. Qed.

Lemma keeps_eval P {A : Type} (r : result A) : keeps P (ValidationService.eval r).
Proof. intros s a s' HP. unfold ValidationService.eval. destruct r; [|done]. by intros [= <- <-]. Qed.

Lemma keeps_bind P {A B : Type} (m : V A) (f : A -> V B) :
  keeps P m -> (forall a, keeps P (f a)) -> keeps P (m ≫= f).
Proof.
  intros Hm Hf s b s' HP. unfold mbind, V_bind.
  destruct (m s) as [[a s1]|] eqn:E; [|done].
  intros R. exact (Hf a s1 b s' (Hm s a s1 HP E) R).
Qed.

Lemma keeps_when P c (body : V unit) : keeps P body -> keeps P (when_ c body).
Proof.
  intros Hb. unfold when_. apply keeps_bind; [apply keeps_eval|].
  intros []; [exact Hb | apply keeps_ret].
Qed.

Lemma keeps_if P {A : Type} (b : bool) (m1 m2 : V A) :
  keeps P m1 -> keeps P m2 -> keeps P (if b then m1 else m2).
Proof. by destruct b. Qed.

Lemma severities_errors_append e :
  severity e = "error" -> keeps severities_ok (errors_append e).
Proof.
  intros He s a s' [H1 H2] [= _ <-]. split; simpl; [|exact H2].
  apply Forall_app. split; [exact H1 | by constructor].
Qed.

Lemma severities_warnings_append e :
  severity e = "warning" -> keeps severities_ok (warnings_append e).
Proof.
  intros He s a s' [H1 H2] [= _ <-]. split; simpl; [exact H1|].
  apply Forall_app. split; [exact H2 | by constructor].
Qed.

Ltac keeps_severities :=
  repeat first
    [ apply severities_errors_append; reflexivity
    | apply severities_warnings_append; reflexivity
    | apply keeps_when
    | apply keeps_if
    | apply keeps_eval
    | apply keeps_ret
    | apply keeps_bind; [|intros ?] ].

Lemma run_rules_severities (tool : ToolResponse (gmap string value)) :
  keeps severities_ok (run_rules tool).
Proof.
  unfold run_rules, _validate_basic_fields, _validate_end_mill,
    _validate_ball_end_mill, _validate_chamfer, _validate_drill,
    _validate_reamer, _validate_thread_mill, _validate_fusion_compatibility.
  keeps_severities.
Qed.

(** C5. In the verdict of any tool, [is_valid] holds exactly when the
    errors list is empty, every finding of the errors list has severity
    error and every finding of the warnings list has severity warning. *)
Theorem verdict_partition (tool : ToolResponse (gmap string value)) (r : ValidationResponse) :
  validate_tool tool = Ok r ->
  (is_valid r = true <-> errors r = []) /\
  Forall (fun e => severity e = "error") (errors r) /\
  Forall (fun e => severity e = "warning") (warnings r).
Proof.
  unfold validate_tool.
  destruct (run_rules tool {| errors_ := []; warnings_ := [] |}) as [[[] s]|] eqn:R; [|done].
  intros [= <-]. simpl. split.
  - destruct (errors_ s); simpl; split; congruence.
  - assert (severities_ok {| errors_ := []; warnings_ := [] |}) as H0
      by (split; constructor).
    exact (run_rules_severities tool _ _ _ H0 R).
Qed.

Lemma verdict_partition_witness :
  (false = true <->
   [error "tip_radius" "Tip radius must equal half the diameter for ball end mills"] = []) /\
  Forall (fun e => severity e = "error")
    [error "tip_radius" "Tip radius must equal half the diameter for ball end mills"] /\
  Forall (fun e => severity e = "warning") [].
Proof.
  apply (verdict_partition invalid_ball_end_mill
           {| is_valid := false;
              errors := [error "tip_radius"
                           "Tip radius must equal half the diameter for ball end mills"];
              warnings := [] |}).
  vm_compute. reflexivity.
Defined.

(** ** Totality *)

Lemma error_finding_spec (f : string) (E : list ValidationError) :
  existsb (fun e => String.eqb (field e) f && String.eqb (severity e) "error") E = true ->
  exists e, In e E /\ field e = f /\ severity e = "error".
Proof.
  rewrite existsb_exists. intros (e & Hin & He). exists e.
  apply andb_prop in He as [H1 H2]. apply String.eqb_eq in H1, H2. auto.
Qed.

Lemma missing_or_fires g k (bad ok : Q -> bool) :
  (forall q, ok q = false -> Qeq_bool q 0 || bad q = true) ->
  match num g k with Some q => ok q = false | None => True end ->
  missing_or g k bad = true.
Proof. unfold missing_or. destruct (num g k); auto. Qed.

Lemma above_zero_bad q : above_zero q = false -> Qeq_bool q 0 || Qle_bool q 0 = true.
Proof. unfold above_zero. rewrite negb_false_iff. intros ->. apply orb_true_r. Qed.

Lemma at_least_bad c q : at_least c q = false -> Qeq_bool q 0 || negb (Qle_bool c q) = true.
Proof. unfold at_least. intros ->. apply orb_true_r. Qed.

Ltac eqb_cases H :=
  repeat match type of H with
  | context [String.eqb ?a ?b] =>
      destruct (String.eqb_spec a b); [subst|]; simpl in H
  end.

Ltac bool_simpl :=
  repeat progress
    (simpl; rewrite ?andb_false_r, ?andb_true_r, ?orb_true_r, ?orb_false_r).

(** A field that is missing, or whose number is out of the range its
    type requires, has an error finding in [all_errors]. *)
Lemma rule_broken_error ty g f ok :
  error_rule ty f = Some ok ->
  match num g f with Some q => ok q = false | None => True end ->
  exists e, In e (all_errors ty g) /\ field e = f /\ severity e = "error".
Proof.
  intros Hrule Hbad. apply error_finding_spec.
  unfold all_errors, type_errors, basic_errors, end_mill_errors,
    ball_end_mill_errors, chamfer_errors, drill_errors, thread_mill_errors,
    compatibility_errors.
  unfold error_rule in Hrule. simpl in Hrule.
  eqb_cases Hrule; try discriminate; injection Hrule as <-; simpl;
    rewrite ?existsb_app, ?existsb_opt;
    try rewrite (missing_or_fires g _ _ _ above_zero_bad Hbad);
    try rewrite (missing_or_fires g _ _ _ (at_least_bad _) Hbad);
    try (destruct (num g "tip_flat"); [unfold at_least in Hbad; rewrite Hbad|]);
    bool_simpl; reflexivity.
Qed.



(** ** Adding fields *)

Lemma no_strings_insert g k q : no_strings g -> no_strings (<[k := VNum q]> g).
Proof. intros H. apply map_Forall_insert_2; [reflexivity | exact H]. Qed.

Lemma no_strings_extend g more : no_strings g -> no_strings (extend g more).
Proof.
  intros H. induction more as [|[k v] more IH]; simpl; [done|].
  by apply no_strings_insert.
Qed.

Lemma extend_subseteq g more :
  List.Forall (fun kv => g !! fst kv = None) more -> g ⊆ extend g more.
Proof.
  induction 1 as [|[k v] more Hk _ IH]; simpl; [done|].
  by apply insert_subseteq_r.
Qed.

(** A field that an extension brings holds one of the numbers listed. *)
Lemma extend_added g more k :
  g !! k = None -> extend g more !! k <> None ->
  exists v, In (k, v) more /\ extend g more !! k = Some (VNum v).
Proof.
  intros Hg. induction more as [|[k0 v0] more IH]; simpl; [done|].
  destruct (decide (k0 = k)) as [->|Hne].
  - intros _. exists v0. split; [by left | apply lookup_insert_eq].
  - rewrite lookup_insert_ne by done. intros Hs.
    destruct (IH Hs) as (v & Hin & Hv). exists v. split; [by right | exact Hv].
Qed.

Lemma num_weaken g g' k :
  g ⊆ g' -> g !! k <> None -> num g' k = num g k.
Proof.
  intros Hsub Hk. unfold num. destruct (g !! k) as [x|] eqn:E; [|done].
  by rewrite (lookup_weaken _ _ _ _ E Hsub).
Qed.

Lemma nonzero_weaken g g' k q :
  g ⊆ g' -> nonzero g k = Some q -> nonzero g' k = Some q.
Proof.
  intros Hsub. unfold nonzero. destruct (g !! k) as [x|] eqn:E.
  - rewrite (num_weaken g g' k Hsub); [done|]. by rewrite E.
  - unfold num. by rewrite E.
Qed.

Lemma opt_length_le (b b' : bool) e e' :
  (b = true -> b' = true) -> length (opt b e) <= length (opt b' e').
Proof. destruct b, b'; simpl; intros H; try lia. Qed.

Lemma both_mono g g' k1 k2 p e :
  g ⊆ g' ->
  length (opt (both g k1 k2 p) e) <= length (opt (both g' k1 k2 p) e).
Proof.
  intros Hsub. apply opt_length_le. unfold both.
  destruct (nonzero g k1) as [a|] eqn:E1; [|done].
  destruct (nonzero g k2) as [b|] eqn:E2; [|done].
  by rewrite (nonzero_weaken _ _ _ _ Hsub E1), (nonzero_weaken _ _ _ _ Hsub E2).
Qed.

Lemma missing_or_weaken g g' k bad :
  g ⊆ g' -> g !! k <> None -> missing_or g' k bad = missing_or g k bad.
Proof. intros Hsub Hk. unfold missing_or. by rewrite (num_weaken g g' k Hsub Hk). Qed.

Lemma missing_or_absent g k bad : g !! k = None -> missing_or g k bad = true.
Proof. intros Hk. unfold missing_or, num. by rewrite Hk. Qed.

Lemma nonzero_absent g k : g !! k = None -> nonzero g k = None.
Proof. intros Hk. unfold nonzero, num. by rewrite Hk. Qed.

(** The presence rule of a field fires on the smaller geometry where the
    field is missing: it is enough that it fires on the larger one when
    the field is new there. *)
Lemma presence_mono g g' k bad e :
  g ⊆ g' ->
  (g !! k = None -> g' !! k <> None -> missing_or g' k bad = true) ->
  length (opt (missing_or g k bad) e) <= length (opt (missing_or g' k bad) e).
Proof.
  intros Hsub Hnew. apply opt_length_le. intros Hfire.
  destruct (g !! k) as [x|] eqn:E.
  - rewrite (missing_or_weaken g g' k bad Hsub); [done|]. by rewrite E.
  - destruct (g' !! k) as [x'|] eqn:E'.
    + apply Hnew; [done|]. rewrite ?E'. done.
    + by apply missing_or_absent.
Qed.

Lemma tip_flat_mono g g' e :
  g ⊆ g' ->
  (g !! "tip_flat" = None -> g' !! "tip_flat" <> None ->
   match num g' "tip_flat" with
   | Some q => negb (Qle_bool 0 q) | None => true end = true) ->
  length (opt (match num g "tip_flat" with
               | Some q => negb (Qle_bool 0 q) | None => true end) e) <=
  length (opt (match num g' "tip_flat" with
               | Some q => negb (Qle_bool 0 q) | None => true end) e).
Proof.
  intros Hsub Hnew. apply opt_length_le. intros Hfire.
  destruct (g !! "tip_flat") as [x|] eqn:E.
  - rewrite (num_weaken g g' "tip_flat" Hsub); [done|]. by rewrite E.
  - destruct (g' !! "tip_flat") as [x'|] eqn:E'.
    + apply Hnew; [done|]. rewrite ?E'. done.
    + unfold num. by rewrite E'.
Qed.

(** A field with a presence rule and a cross-field rule that reports on
    it: the two together. *)
Lemma group_mono g g' k ka kb bad p e1 e2 :
  g ⊆ g' -> k = ka \/ k = kb ->
  (g !! k = None -> g' !! k <> None ->
   missing_or g' k bad || both g' ka kb p = true) ->
  length (opt (missing_or g k bad) e1) + length (opt (both g ka kb p) e2) <=
  length (opt (missing_or g' k bad) e1) + length (opt (both g' ka kb p) e2).
Proof.
  intros Hsub Hk Hnew.
  destruct (g !! k) as [x|] eqn:E.
  - rewrite (missing_or_weaken g g' k bad Hsub) by (by rewrite E).
    pose proof (both_mono g g' ka kb p e2 Hsub). lia.
  - rewrite (missing_or_absent g k bad E).
    assert (both g ka kb p = false) as ->.
    { unfold both. destruct Hk as [<-|<-]; rewrite (nonzero_absent g k E);
        [done | by destruct (nonzero g ka)]. }
    assert (missing_or g' k bad || both g' ka kb p = true) as Hor.
    { destruct (g' !! k) as [x'|] eqn:E'.
      - apply Hnew; [done|]. rewrite ?E'. done.
      - by rewrite (missing_or_absent g' k bad E'). }
    destruct (missing_or g' k bad), (both g' ka kb p); simpl in *; lia.
Qed.

(** What is asked of a field that the larger geometry brings. *)
Ltac new_field Hadd :=
  let Hn := fresh "Hn" in
  let Hs := fresh "Hs" in
  let v := fresh "v" in
  let Hv := fresh "Hv" in
  let Hrange := fresh "Hrange" in
  let Herr := fresh "Herr" in
  intros Hn Hs;
  destruct (Hadd _ Hn Hs) as (v & Hv & [Hrange|Herr]);
  [ simpl in Hrange; unfold missing_or, num; rewrite Hv;
    first [ rewrite (above_zero_bad _ Hrange)
          | rewrite (at_least_bad _ _ Hrange)
          | unfold at_least in Hrange; rewrite Hrange ];
    reflexivity
  | simpl in Herr; rewrite ?existsb_app, ?existsb_opt in Herr;
    repeat progress
      (simpl in Herr;
       rewrite ?andb_false_r, ?andb_true_r, ?orb_true_r, ?orb_false_r in Herr);
    exact Herr ].

Ltac presence g g' Hsub Hadd k :=
  match goal with
  | |- context [length (opt (missing_or g k ?bad) ?e)] =>
      let H := fresh "Hmono" in
      assert (length (opt (missing_or g k bad) e) <=
              length (opt (missing_or g' k bad) e)) as H
        by (apply (presence_mono g g' k bad e Hsub); new_field Hadd)
  end.

Ltac group g g' Hsub Hadd k :=
  match goal with
  | |- context [length (opt (missing_or g k ?bad) ?e1)] =>
      match goal with
      | |- context [length (opt (both g ?ka ?kb ?p) (error k ?m))] =>
          let H := fresh "Hmono" in
          assert (length (opt (missing_or g k bad) e1) +
                  length (opt (both g ka kb p) (error k m)) <=
                  length (opt (missing_or g' k bad) e1) +
                  length (opt (both g' ka kb p) (error k m))) as H
            by (apply (group_mono g g' k ka kb bad p e1 (error k m) Hsub);
                [auto | new_field Hadd])
      end
  end.

Ltac tip_flat g g' Hsub Hadd :=
  match goal with
  | |- context [length (opt (match num g "tip_flat" with
                             | Some q => @?f q | None => true end) ?e)] =>
      let H := fresh "Hmono" in
      assert (length (opt (match num g "tip_flat" with
                           | Some q => negb (Qle_bool 0 q) | None => true end) e) <=
              length (opt (match num g' "tip_flat" with
                           | Some q => negb (Qle_bool 0 q) | None => true end) e)) as H
        by (apply (tip_flat_mono g g' e Hsub);
            let Hn := fresh "Hn" in
            let Hs := fresh "Hs" in
            let v := fresh "v" in
            let Hv := fresh "Hv" in
            let Hrange := fresh "Hrange" in
            let Herr := fresh "Herr" in
            intros Hn Hs;
            destruct (Hadd _ Hn Hs) as (v & Hv & [Hrange|Herr]);
            [ simpl in Hrange; unfold at_least in Hrange; unfold num;
              rewrite Hv, Hrange; reflexivity
            | simpl in Herr; rewrite ?existsb_app, ?existsb_opt in Herr;
              repeat progress
                (simpl in Herr;
                 rewrite ?andb_false_r, ?andb_true_r, ?orb_true_r, ?orb_false_r in Herr);
              exact Herr ])
  end.

(** Comparisons of two given strings, computed. *)
Ltac eval_eqb :=
  repeat match goal with
  | |- context [String.eqb ?a ?b] =>
      let r := eval vm_compute in (String.eqb a b) in
      match r with true => idtac | false => idtac end;
      change (String.eqb a b) with r
  end;
  cbv iota.

(** Between a geometry and a larger one whose new fields are each out of
    range, or draw an error on the field, the errors do not get fewer. *)
Lemma all_errors_mono ty g g' :
  g ⊆ g' ->
  (forall k, g !! k = None -> g' !! k <> None ->
     exists v, g' !! k = Some (VNum v) /\
       (out_of_range ty k v \/
        existsb (fun e => String.eqb (field e) k) (all_errors ty g') = true)) ->
  length (all_errors ty g) <= length (all_errors ty g').
Proof.
  intros Hsub Hadd.
  unfold out_of_range, error_rule in Hadd.
  unfold all_errors, type_errors, basic_errors, end_mill_errors,
    ball_end_mill_errors, chamfer_errors, drill_errors, thread_mill_errors,
    compatibility_errors in *.
  revert Hadd.
  repeat match goal with
  | |- context [String.eqb ty ?s] => destruct (String.eqb_spec ty s); [subst ty|]
  end;
  intros Hadd; eval_eqb; rewrite ?length_app;
  try group g g' Hsub Hadd "flute_length";
  try group g g' Hsub Hadd "length_of_cut";
  try group g g' Hsub Hadd "tip_radius";
  try presence g g' Hsub Hadd "diameter";
  try presence g g' Hsub Hadd "overall_length";
  try presence g g' Hsub Hadd "flute_count";
  try presence g g' Hsub Hadd "helix_angle";
  try presence g g' Hsub Hadd "included_angle";
  try presence g g' Hsub Hadd "shank_diameter";
  try presence g g' Hsub Hadd "point_angle";
  try presence g g' Hsub Hadd "pitch";
  try presence g g' Hsub Hadd "max_thread_length";
  try tip_flat g g' Hsub Hadd;
  lia.
Qed.

(** What an extension brings, read off its list. *)
Lemma extend_new g more (P : string -> Q -> Prop) k :
  List.Forall (fun kv => g !! fst kv = None /\ P (fst kv) (snd kv)) more ->
  g !! k = None -> extend g more !! k <> None ->
  exists v, extend g more !! k = Some (VNum v) /\ P k v.
Proof.
  intros Hall Hk Hs. destruct (extend_added g more k Hk Hs) as (v & Hin & Hv).
  exists v. split; [exact Hv|].
  rewrite List.Forall_forall in Hall. by destruct (Hall _ Hin) as [_ HP].
Qed.



(** ** A stored zero *)

Section Zero.
Variables (g : gmap string value) (f : string) (q : Q).
Hypothesis Hf : g !! f = Some (VNum q).
Hypothesis Hq : (q == 0)%Q.

Lemma zero_Qeq_bool : Qeq_bool q 0 = true.
Proof. by apply Qeq_bool_iff. Qed.

Lemma num_delete k : num (delete f g) k = if decide (f = k) then None else num g k.
Proof. unfold num. rewrite lookup_delete. by case_decide. Qed.

Lemma nonzero_delete k : nonzero (delete f g) k = nonzero g k.
Proof.
  unfold nonzero. rewrite num_delete. case_decide as Hk; [|done].
  subst k. unfold num. by rewrite Hf, zero_Qeq_bool.
Qed.

Lemma missing_or_delete k bad : missing_or (delete f g) k bad = missing_or g k bad.
Proof.
  unfold missing_or. rewrite num_delete. case_decide as Hk; [|done].
  subst k. unfold num. by rewrite Hf, zero_Qeq_bool.
Qed.

Lemma both_delete k1 k2 p : both (delete f g) k1 k2 p = both g k1 k2 p.
Proof. unfold both. by rewrite !nonzero_delete. Qed.

Lemma nonzero_and_delete k p : nonzero_and (delete f g) k p = nonzero_and g k p.
Proof. unfold nonzero_and. by rewrite nonzero_delete. Qed.

Lemma zero_inside lo hi : (lo <= 0)%Q -> (0 <= hi)%Q -> outside lo hi q = false.
Proof.
  intros Hlo Hhi. unfold outside. apply orb_false_iff.
  split; apply negb_false_iff, Qle_bool_iff; by rewrite Hq.
Qed.

Lemma basic_errors_delete : basic_errors (delete f g) = basic_errors g.
Proof. unfold basic_errors. by rewrite !missing_or_delete, !both_delete. Qed.

Lemma end_mill_errors_delete : end_mill_errors (delete f g) = end_mill_errors g.
Proof. unfold end_mill_errors. by rewrite !missing_or_delete, !both_delete. Qed.

Lemma ball_end_mill_errors_delete :
  ball_end_mill_errors (delete f g) = ball_end_mill_errors g.
Proof. unfold ball_end_mill_errors. by rewrite !missing_or_delete, !both_delete. Qed.

Lemma drill_errors_delete : drill_errors (delete f g) = drill_errors g.
Proof. unfold drill_errors. by rewrite !missing_or_delete. Qed.

Lemma thread_mill_errors_delete :
  thread_mill_errors (delete f g) = thread_mill_errors g.
Proof. unfold thread_mill_errors. by rewrite !missing_or_delete. Qed.

Lemma chamfer_errors_delete :
  f <> "tip_flat" -> chamfer_errors (delete f g) = chamfer_errors g.
Proof.
  intros Hne. unfold chamfer_errors. rewrite !missing_or_delete, num_delete.
  by case_decide.
Qed.

Lemma chamfer_cross_field :
  filter cross_field (chamfer_errors (delete f g)) =
  filter cross_field (chamfer_errors g).
Proof.
  unfold chamfer_errors. rewrite !filter_app.
  repeat match goal with
  | |- context [opt ?b ?e] => destruct b; simpl
  end; reflexivity.
Qed.

Lemma all_warnings_delete ty : all_warnings ty (delete f g) = all_warnings ty g.
Proof.
  unfold all_warnings, type_warnings, end_mill_warnings, chamfer_warnings,
    drill_warnings, reamer_warnings, thread_mill_warnings, compatibility_warnings.
  rewrite !nonzero_and_delete, !both_delete, num_delete.
  case_decide as Hk; [|done]. subst f. unfold num. rewrite Hf.
  rewrite zero_inside; done.
Qed.

Lemma all_errors_delete ty :
  (ty = ToolType.CHAMFER -> f <> "tip_flat") ->
  all_errors ty (delete f g) = all_errors ty g.
Proof.
  intros Hex. unfold all_errors, type_errors.
  rewrite basic_errors_delete, end_mill_errors_delete, ball_end_mill_errors_delete,
    drill_errors_delete, thread_mill_errors_delete.
  destruct (String.eqb_spec ty ToolType.CHAMFER) as [->|Hne].
  - simpl. by rewrite chamfer_errors_delete by auto.
  - repeat case_match; done.
Qed.

Lemma all_errors_cross_field ty :
  filter cross_field (all_errors ty (delete f g)) =
  filter cross_field (all_errors ty g).
Proof.
  unfold all_errors, type_errors. rewrite !filter_app.
  rewrite basic_errors_delete, end_mill_errors_delete, ball_end_mill_errors_delete,
    drill_errors_delete, thread_mill_errors_delete.
  repeat case_match; try done. by rewrite chamfer_cross_field.
Qed.

End Zero.

Lemma no_strings_delete g k : no_strings g -> no_strings (delete k g).
Proof. apply map_Forall_delete. Qed.

Lemma not_in_message (x : ValidationError) (l : list ValidationError) :
  existsb (fun e => String.eqb (message e) (message x)) l = false -> ~ In x l.
Proof.
  intros Hex Hin. assert (existsb (fun e => String.eqb (message e) (message x)) l = true) as Ht.
  { apply existsb_exists. exists x. split; [exact Hin | apply String.eqb_refl]. }
  congruence.
Qed.

Lemma nonzero_zero g k q :
  g !! k = Some (VNum q) -> (q == 0)%Q -> nonzero g k = None.
Proof.
  intros Hk Hq. unfold nonzero, num. by rewrite Hk, (zero_Qeq_bool q Hq).
Qed.

(** C9. A field stored as the number 0 is read by the guarded rules as
    an absent field: the verdict of the tool and the verdict of the tool
    without the field have the same warnings and the same cross-field
    errors; they are equal altogether, unless the field is the tip flat
    of a chamfer, whose presence rule tells 0 from absent. With
    [flute_length] 0 the flute-length/overall-length error is not
    reported, and with [tip_flat] 0 a chamfer draws no small-tip-flat
    warning. *)
Theorem zero_reads_as_absent (tool : ToolResponse (gmap string value)) (f : string) (q : Q) :
  no_strings (geometry tool) ->
  geometry tool !! f = Some (VNum q) -> (q == 0)%Q ->
  exists r r',
    validate_tool tool = Ok r /\
    validate_tool (with_geometry tool (delete f (geometry tool))) = Ok r' /\
    warnings r = warnings r' /\
    filter cross_field (errors r) = filter cross_field (errors r') /\
    ((type tool = ToolType.CHAMFER -> f <> "tip_flat") -> r = r') /\
    (f = "flute_length" ->
     ~ In (error "flute_length" "Flute length must be less than overall length")
          (errors r)) /\
    (type tool = ToolType.CHAMFER -> f = "tip_flat" ->
     ~ In (warning "tip_flat" "Very small tip flat may be difficult to manufacture")
          (warnings r)).
Proof.
  intros Hg Hf Hq.
  rewrite (validate_tool_returns tool Hg).
  rewrite (validate_tool_returns (with_geometry tool (delete f (geometry tool)))
             (no_strings_delete _ f Hg)).
  do 2 eexists. split; [reflexivity|]. split; [reflexivity|].
  destruct tool as [i n v ty g]. simpl in *.
  repeat split.
  - by rewrite (all_warnings_delete g f q Hf Hq).
  - by rewrite (all_errors_cross_field g f q Hf Hq).
  - intros Hex. by rewrite (all_warnings_delete g f q Hf Hq), (all_errors_delete g f q Hf Hq).
  - intros ->. apply not_in_message.
    unfold all_errors, type_errors, basic_errors, end_mill_errors,
      ball_end_mill_errors, chamfer_errors, drill_errors, thread_mill_errors,
      compatibility_errors.
    unfold both at 1. rewrite (nonzero_zero _ _ _ Hf Hq).
    repeat case_match; rewrite ?existsb_app, ?existsb_opt; bool_simpl; reflexivity.
  - intros -> ->. apply not_in_message.
    unfold all_warnings, type_warnings, chamfer_warnings, compatibility_warnings.
    simpl. unfold nonzero_and at 1. rewrite (nonzero_zero _ _ _ Hf Hq).
    rewrite ?existsb_app, ?existsb_opt. bool_simpl. reflexivity.
Qed.

Lemma zero_reads_as_absent_witness :
  exists r r',
    validate_tool chamfer_tip_flat_0 = Ok r /\
    validate_tool
      (with_geometry chamfer_tip_flat_0 (delete "tip_flat" (geometry chamfer_tip_flat_0)))
      = Ok r' /\
    warnings r = warnings r' /\
    ~ In (warning "tip_flat" "Very small tip flat may be difficult to manufacture")
         (warnings r).
Proof.
  destruct (zero_reads_as_absent chamfer_tip_flat_0 "tip_flat" 0)
    as (r & r' & Hr & Hr' & Hw & _ & _ & _ & Htf).
  - apply (bool_decide_unpack _). vm_compute. exact I.
  - reflexivity.
  - reflexivity.
  - exists r, r'. repeat (split; [assumption|]). by apply Htf.
Defined.

(** ** Rounding *)

Lemma round_half_even_bounds (n : Z) (d : positive) :
  (- Z.pos d <= 2 * (round_half_even (n # d) * Z.pos d - n) <= Z.pos d)%Z.
Proof.
  unfold round_half_even. cbn [Qnum Qden].
  pose proof (Z.div_mod n (Z.pos d) ltac:(lia)) as Hdm.
  pose proof (Z.mod_pos_bound n (Z.pos d) ltac:(lia)) as Hb.
  set (fl := (n / Z.pos d)%Z) in *. set (r := (n mod Z.pos d)%Z) in *.
  destruct (Z.ltb_spec (2 * r) (Z.pos d));
    [|destruct (Z.ltb_spec (Z.pos d) (2 * r)); [|destruct (Z.even fl)]];
    nia.
Qed.

Lemma round_half_even_close q :
  (Qabs (inject_Z (round_half_even q) - q) <= 1 # 2)%Q.
Proof.
  apply Qabs_Qle_condition. destruct q as [n d].
  pose proof (round_half_even_bounds n d) as H.
  set (z := round_half_even (n # d)) in *.
  unfold Qle, Qminus, Qplus, Qopp, inject_Z. cbn [Qnum Qden].
  split; nia.
Qed.

(** [round(x, 4)] is within half a unit of the fourth decimal. *)
Lemma round_digits_close x :
  (Qabs (round_digits x 4 - x) <= 1 # 20000)%Q.
Proof.
  change (round_digits x 4) with (round_half_even (x * inject_Z 10000) # 10000).
  set (y := (x * inject_Z 10000)%Q).
  pose proof (round_half_even_close y) as H.
  assert ((round_half_even y # 10000) - x ==
          (inject_Z (round_half_even y) - y) * (1 # 10000))%Q as E.
  { unfold y. rewrite (Qmake_Qdiv (round_half_even (x * inject_Z 10000)) 10000).
    unfold Qdiv. field. }
  rewrite E, Qabs_Qmult.
  apply Qle_trans with ((1 # 2) * Qabs (1 # 10000))%Q.
  - apply Qmult_le_compat_r; [exact H | apply Qabs_nonneg].
  - discriminate.
Qed.

(** Section 8, property 2: back in millimetres, a converted length is
    within 0.0001 * 25.4 of the stored one. *)
Lemma to_inch_round_trip v :
  (Qabs (to_inch v * 25.4 - v) <= 0.0001 * 25.4)%Q.
Proof.
  unfold to_inch.
  pose proof (round_digits_close (v / 25.4)) as H.
  assert (round_digits (v / 25.4) 4 * 25.4 - v ==
          (round_digits (v / 25.4) 4 - v / 25.4) * 25.4)%Q as E.
  { field. }
  rewrite E, Qabs_Qmult.
  apply Qle_trans with ((1 # 20000) * Qabs 25.4)%Q.
  - apply Qmult_le_compat_r; [exact H | apply Qabs_nonneg].
  - discriminate.
Qed.

(** ** The exporter: unit conversion *)

Lemma convert_field_lookup d k0 k :
  convert_field d k0 !! k = convert_value_in [k0] k <$> d !! k.
Proof.
  unfold convert_field, convert_value_in. simpl.
  destruct (String.eqb_spec k k0) as [->|Hne].
  - destruct (d !! k0) as [[|q|s]|] eqn:E; rewrite ?lookup_insert_eq, ?E; done.
  - assert (d !! k = (fun v => match v with VNum _ => v | _ => v end) <$> d !! k) as Hid
      by (destruct (d !! k) as [[]|]; done).
    destruct (d !! k0) as [[|q|s]|] eqn:E; rewrite ?lookup_insert_ne by done; exact Hid.
Qed.

Lemma convert_fields_lookup fields d k :
  List.NoDup fields ->
  convert_fields fields d !! k = convert_value_in fields k <$> d !! k.
Proof.
  revert d. induction fields as [|k0 fields IH]; intros d Hnd.
  - simpl. unfold convert_value_in. simpl. destruct (d !! k) as [[]|]; done.
  - apply List.NoDup_cons_iff in Hnd as [Hk0 Hnd]. simpl.
    change (fold_left convert_field fields (convert_field d k0))
      with (convert_fields fields (convert_field d k0)).
    rewrite (IH _ Hnd), convert_field_lookup.
    destruct (d !! k) as [v|]; [|done]. simpl. f_equal.
    unfold convert_value_in. simpl.
    destruct (String.eqb_spec k k0) as [->|Hne]; simpl.
    + assert (existsb (String.eqb k0) fields = false) as Hex.
      { apply not_true_iff_false. rewrite existsb_exists.
        intros (x & Hin & Hx). apply String.eqb_eq in Hx. by subst x. }
      destruct v; simpl; rewrite ?Hex; done.
    + destruct v; done.
Qed.

Lemma mm_fields_NoDup : List.NoDup mm_fields.
Proof.
  unfold mm_fields.
  repeat (apply List.NoDup_cons; [simpl; intuition discriminate|]).
  apply List.NoDup_nil.
Qed.

Lemma convert_fields_shown g :
  convert_fields mm_fields g = shown_geometry IMPERIAL g.
Proof.
  apply map_eq. intros k. unfold shown_geometry.
  rewrite map_lookup_imap, (convert_fields_lookup _ _ _ mm_fields_NoDup).
  destruct (g !! k); done.
Qed.

Lemma no_strings_convert_field d k : no_strings d -> no_strings (convert_field d k).
Proof.
  intros H. unfold convert_field. destruct (d !! k) as [[]|]; try done.
  apply map_Forall_insert_2; [reflexivity | exact H].
Qed.

(** The loop of [_convert_to_imperial] on a dict without strings. *)
Lemma convert_loop (fields : list string) (σ : store) (r : ref) (d : gmap string value) :
  no_strings d ->
  for_ fields (fun field =>
    c ← (b ← dict_contains r field;
         if b : bool
         then v ← dict_getitem r field; mret (negb (is_None v))
         else mret false);
    if c : bool
    then v ← dict_getitem r field;
         x ← ExportService.eval (x ← py_div v (VNum 25.4); py_round x 4);
         dict_setitem r field x
    else mret tt) (<[r := d]> σ)
  = (Ok tt, <[r := convert_fields fields d]> σ).
Proof.
  revert d. induction fields as [|k fields IH]; intros d Hd; [reflexivity|].
  simpl. unfold mbind at 1. unfold X_bind at 1.
  match goal with
  | |- match ?body ?st with _ => _ end = _ =>
      assert (body st = (Ok tt, <[r := convert_field d k]> σ)) as ->
  end.
  { unfold mbind, X_bind, dict_contains, dict_getitem, dict_setitem,
      ExportService.eval, mret, X_ret, contains, getitem, convert_field.
    destruct (d !! k) as [[|q|s]|] eqn:E;
      repeat progress (rewrite ?lookup_total_insert_eq, ?E; simpl).
    - reflexivity.
    - unfold to_inch. by rewrite insert_insert_eq.
    - exfalso. exact (no_strings_lookup d _ _ Hd E).
    - reflexivity. }
  apply IH. by apply no_strings_convert_field.
Qed.

(** [_convert_to_imperial] returns a new dict, the converted geometry,
    and touches no other. *)
Lemma convert_to_imperial_run (σ : store) (r : ref) (g : gmap string value) :
  σ !! r = Some g -> no_strings g ->
  _convert_to_imperial r σ =
    (Ok (fresh (dom σ)), <[fresh (dom σ) := shown_geometry IMPERIAL g]> σ).
Proof.
  intros Hr Hg. unfold _convert_to_imperial.
  unfold mbind at 1. unfold X_bind at 1. unfold dict_copy at 1.
  rewrite (lookup_total_correct _ _ _ Hr).
  unfold mbind at 1. unfold X_bind at 1.
  rewrite (convert_loop mm_fields σ (fresh (dom σ)) g Hg).
  by rewrite convert_fields_shown.
Qed.

(** ** The exporter: projection *)

(** The first statements of both generators leave in [geometry] a
    reference to a new dict, the geometry that the export shows. *)
Lemma export_geometry_run (tool : ToolResponse ref) (units : ExportUnits)
    (σ : store) (g : gmap string value) :
  σ !! geometry tool = Some g -> no_strings g ->
  exists r σ',
    σ' !! r = Some (shown_geometry units g) /\
    forall (A : Type) (k : ref -> X A),
      (geometry ← dict_copy (geometry tool);
       geometry ← (if ExportUnits_eqb units IMPERIAL
                   then _convert_to_imperial geometry
                   else mret geometry);
       k geometry) σ = k r σ'.
Proof.
  intros Hr Hg.
  set (r1 := fresh (dom σ)). set (σ1 := <[r1 := g]> σ).
  assert (σ1 !! r1 = Some g) as H1 by apply lookup_insert_eq.
  destruct units.
  - exists r1, σ1. split; [exact H1|]. intros A k.
    unfold mbind, X_bind, dict_copy. rewrite (lookup_total_correct _ _ _ Hr).
    reflexivity.
  - eexists _, _. split; [apply lookup_insert_eq|]. intros A k.
    unfold mbind, X_bind, dict_copy. rewrite (lookup_total_correct _ _ _ Hr).
    simpl. fold r1. fold σ1. rewrite (convert_to_imperial_run σ1 r1 g H1 Hg).
    reflexivity.
Qed.

Ltac type_cases ty :=
  repeat match goal with
  | |- context [String.eqb ty ?s] => destruct (String.eqb_spec ty s); [subst ty|]
  end.

Ltac each_field :=
  let Hin := fresh "Hin" in
  intros ? ? ? Hin; simpl in Hin;
  repeat (destruct Hin as [Hin|Hin]; [injection Hin as <- <- <-; reflexivity|]);
  destruct Hin.

Ltac each_column :=
  let Hin := fresh "Hin" in
  intros ? ? Hin; simpl in Hin;
  repeat (destruct Hin as [Hin|Hin]; [injection Hin as <- <-; reflexivity|]);
  destruct Hin.

(** The structured format shows every field of [fusion_fields] with the
    value of the shown geometry, or with the default of the field. *)
Lemma fusion_json_shows (tool : ToolResponse ref) (units : ExportUnits)
    (σ : store) (g : gmap string value) :
  σ !! geometry tool = Some g -> no_strings g ->
  exists doc σ',
    _generate_fusion_json tool units σ = (Ok doc, σ') /\
    forall K k d, In (K, k, d) (fusion_fields (type tool)) ->
      json_member K doc = Some (get_default (shown_geometry units g) k d).
Proof.
  intros Hr Hg. unfold _generate_fusion_json.
  destruct (export_geometry_run tool units σ g Hr Hg) as (r & σ' & Hσ' & ->).
  destruct tool as [i n v ty gr]. simpl in *.
  unfold fusion_fields.
  type_cases ty;
    unfold mbind, X_bind, dict_get, mret, X_ret; simpl;
    rewrite (lookup_total_correct _ _ _ Hσ');
    (eexists _, _; split; [reflexivity|]); each_field.
Qed.

(** The tabular format shows every field of [csv_columns] with the value
    of the shown geometry, or with an empty cell. *)
Lemma csv_shows (tool : ToolResponse ref) (units : ExportUnits)
    (σ : store) (g : gmap string value) :
  σ !! geometry tool = Some g -> no_strings g ->
  exists doc σ',
    _generate_csv tool units σ = (Ok doc, σ') /\
    forall L k, In (L, k) (csv_columns (type tool)) ->
      csv_cell L doc = Some (get_default (shown_geometry units g) k (VStr "")).
Proof.
  intros Hr Hg. unfold _generate_csv.
  destruct (export_geometry_run tool units σ g Hr Hg) as (r & σ' & Hσ' & ->).
  destruct tool as [i n v ty gr]. simpl in *.
  unfold csv_columns.
  type_cases ty;
    unfold mbind, X_bind, dict_get, mret, X_ret; simpl;
    rewrite (lookup_total_correct _ _ _ Hσ');
    (eexists _, _; split; [reflexivity|]); each_column.
Qed.

(** ** The exporter: the store *)

Lemma frames_ret σ0 {A : Type} (a : A) (Q : A -> Prop) :
  Q a -> frames σ0 (mret a : X A) Q.
Proof. intros HQ σ Hσ. split; [exact Hσ|]. by intros a' [= <-]. Qed.

Lemma frames_bind σ0 {A B : Type} (m : X A) (f : A -> X B) (P : A -> Prop) (Q : B -> Prop) :
  frames σ0 m P -> (forall a, P a -> frames σ0 (f a) Q) -> frames σ0 (m ≫= f) Q.
Proof.
  intros Hm Hf σ Hσ. unfold mbind, X_bind.
  destruct (Hm σ Hσ) as [H1 H2]. destruct (m σ) as [[a|e] σ1]; simpl in *.
  - apply (Hf a (H2 a eq_refl) σ1 H1).
  - split; [exact H1 | done].
Qed.

Lemma frames_bind_True σ0 {A B : Type} (m : X A) (f : A -> X B) (Q : B -> Prop) :
  frames σ0 m (fun _ => True) -> (forall a, frames σ0 (f a) Q) -> frames σ0 (m ≫= f) Q.
Proof. intros Hm Hf. apply (frames_bind _ _ _ _ _ Hm). auto. Qed.

Lemma frames_if σ0 {A : Type} (b : bool) (m1 m2 : X A) (Q : A -> Prop) :
  frames σ0 m1 Q -> frames σ0 m2 Q -> frames σ0 (if b then m1 else m2) Q.
Proof. by destruct b. Qed.

Lemma frames_eval σ0 {A : Type} (r : result A) :
  frames σ0 (ExportService.eval r) (fun _ => True).
Proof. intros σ Hσ. split; [exact Hσ | done]. Qed.

Lemma frames_raise σ0 {A : Type} (e : exn) (Q : A -> Prop) :
  frames σ0 (raise e) Q.
Proof. intros σ Hσ. split; [exact Hσ | done]. Qed.

Lemma frames_dict_get σ0 r k d : frames σ0 (dict_get r k d) (fun _ => True).
Proof. intros σ Hσ. split; [exact Hσ | done]. Qed.

Lemma frames_dict_contains σ0 r k : frames σ0 (dict_contains r k) (fun _ => True).
Proof. intros σ Hσ. split; [exact Hσ | done]. Qed.

Lemma frames_dict_getitem σ0 r k : frames σ0 (dict_getitem r k) (fun _ => True).
Proof. intros σ Hσ. split; [exact Hσ | done]. Qed.

(** A copy is a dict that [σ0] does not hold. *)
Lemma frames_dict_copy (σ0 : store) r :
  frames σ0 (dict_copy r) (fun r' => σ0 !! r' = None).
Proof.
  intros σ Hσ. unfold dict_copy. simpl.
  assert (σ0 !! fresh (dom σ) = None) as Hfresh.
  { destruct (σ0 !! fresh (dom σ)) as [d|] eqn:E; [|done].
    exfalso. apply (is_fresh (dom σ)). apply elem_of_dom.
    exists d. by apply (lookup_weaken _ _ _ _ E). }
  split.
  - by apply insert_subseteq_r.
  - by intros a [= <-].
Qed.

(** An update of a dict that [σ0] does not hold. *)
Lemma frames_dict_setitem (σ0 : store) r k v :
  σ0 !! r = None -> frames σ0 (dict_setitem r k v) (fun _ => True).
Proof.
  intros Hr σ Hσ. unfold dict_setitem. simpl. split; [|done].
  by apply insert_subseteq_r.
Qed.

Lemma frames_for σ0 {A : Type} (xs : list A) (body : A -> X unit) :
  (forall x, frames σ0 (body x) (fun _ => True)) ->
  frames σ0 (for_ xs body) (fun _ => True).
Proof.
  intros Hb. induction xs as [|x xs IH]; simpl.
  - by apply frames_ret.
  - apply frames_bind_True; [apply Hb | intros _; exact IH].
Qed.

Ltac frames_step :=
  first
    [ apply frames_ret; done
    | apply frames_dict_get
    | apply frames_dict_contains
    | apply frames_dict_getitem
    | apply frames_eval
    | apply frames_raise
    | apply frames_dict_setitem; assumption
    | apply frames_for; intros ?
    | apply frames_if
    | apply frames_bind_True; [|intros ?] ].

Lemma frames_convert_to_imperial (σ0 : store) r :
  frames σ0 (_convert_to_imperial r) (fun r' => σ0 !! r' = None).
Proof.
  unfold _convert_to_imperial.
  eapply frames_bind; [apply frames_dict_copy|]. intros converted Hc.
  apply frames_bind_True; [|intros _; by apply frames_ret].
  repeat frames_step.
Qed.

Lemma frames_generate_fusion_json (σ0 : store) tool units :
  frames σ0 (_generate_fusion_json tool units) (fun _ => True).
Proof.
  unfold _generate_fusion_json.
  eapply frames_bind; [apply frames_dict_copy|]. intros geometry Hg.
  eapply frames_bind;
    [apply frames_if; [apply frames_convert_to_imperial | by apply frames_ret]|].
  intros geometry' Hg'. simpl. repeat frames_step.
Qed.

Lemma frames_generate_csv (σ0 : store) tool units :
  frames σ0 (_generate_csv tool units) (fun _ => True).
Proof.
  unfold _generate_csv.
  eapply frames_bind; [apply frames_dict_copy|]. intros geometry Hg.
  eapply frames_bind;
    [apply frames_if; [apply frames_convert_to_imperial | by apply frames_ret]|].
  intros geometry' Hg'. simpl. repeat frames_step.
Qed.

Lemma frames_generate_export_data (σ0 : store) tool req :
  frames σ0 (_generate_export_data tool req) (fun _ => True).
Proof.
  unfold _generate_export_data.
  repeat apply frames_if.
  - apply frames_generate_fusion_json.
  - apply frames_generate_csv.
  - apply frames_raise.
Qed.

(** C10. An export leaves the geometry of the tool, and every other dict
    of the store, as it found it: with either format and either unit
    system, and also when it raises. *)
Theorem export_keeps_geometry (tool : ToolResponse ref) (export_request : ExportRequest)
    (σ : store) (g : gmap string value) :
  σ !! geometry tool = Some g ->
  snd (_generate_export_data tool export_request σ) !! geometry tool = Some g /\
  σ ⊆ snd (_generate_export_data tool export_request σ).
Proof.
  intros Hg.
  destruct (frames_generate_export_data σ tool export_request σ) as [Hsub _]; [done|].
  split; [|exact Hsub].
  by apply (lookup_weaken _ _ _ _ Hg).
Qed.

Lemma export_keeps_geometry_witness :
  snd (_generate_export_data (stored valid_end_mill)
         {| format := "fusion_json"; units := IMPERIAL |} (store_of valid_end_mill))
    !! stored_at = Some (geometry valid_end_mill).
Proof.
  apply (export_keeps_geometry (stored valid_end_mill)
           {| format := "fusion_json"; units := IMPERIAL |} (store_of valid_end_mill)
           (geometry valid_end_mill)).
  reflexivity.
Defined.

(** ** The exporter: the claims *)

Lemma shown_geometry_lookup units g k :
  shown_geometry units g !! k =
    match units with
    | METRIC => g !! k
    | IMPERIAL => convert_value k <$> g !! k
    end.
Proof.
  destruct units; simpl; [done|].
  rewrite map_lookup_imap. destruct (g !! k); done.
Qed.

Lemma shown_geometry_None units g k :
  shown_geometry units g !! k = None <-> g !! k = None.
Proof.
  rewrite shown_geometry_lookup. destruct units; [done|].
  destruct (g !! k); done.
Qed.

Lemma existsb_In_string (k : string) (l : list string) :
  existsb (String.eqb k) l = true <-> In k l.
Proof.
  rewrite existsb_exists. split.
  - intros (x & Hin & Hx). apply String.eqb_eq in Hx. by subst.
  - intros Hin. exists k. split; [done | apply String.eqb_refl].
Qed.







(** ** The helix angle of an end mill *)

(** What the end-mill stage does: the error on [helix_angle] is reported
    for a missing field and for every number that is not above zero. *)
Lemma helix_angle_error (tool : ToolResponse (gmap string value)) :
  type tool = ToolType.END_MILL ->
  no_strings (geometry tool) ->
  exists r, validate_tool tool = Ok r /\
    (error_on "helix_angle" r <->
     match num (geometry tool) "helix_angle" with
     | Some q => (q <= 0)%Q
     | None => True
     end).
Proof.
  intros Hty Hg. rewrite (validate_tool_returns tool Hg).
  eexists. split; [reflexivity|].
  rewrite error_on_spec. unfold error_onb, all_errors, type_errors. simpl.
  rewrite Hty. simpl.
  unfold basic_errors, end_mill_errors, compatibility_errors.
  rewrite !existsb_app, !existsb_opt. bool_simpl.
  unfold missing_or. destruct (num (geometry tool) "helix_angle") as [q|]; [|done].
  rewrite orb_true_iff, negb_true_iff, Qle_bool_false, Qeq_bool_iff. split.
  - intros [->|Hlt]; [apply Qle_refl | by apply Qlt_le_weak].
  - intros Hle. apply Qle_lt_or_eq in Hle as [Hlt|Heq]; auto.
Qed.

(** C4. The end mill of section 8, scenario 5, with [helix_angle] 0: the
    verdict holds the error "Helix angle must be non-negative". *)
Theorem helix_angle_zero_rejected :
  validate_tool end_mill_helix_0 =
    Ok {| is_valid := false;
          errors := [error "helix_angle" "Helix angle must be non-negative"];
          warnings := [] |}.
Proof. vm_compute. reflexivity. Qed.

(** ** Scenarios of section 8 of the specification *)

Example valid_end_mill_verdict :
  validate_tool valid_end_mill =
    Ok {| is_valid := true; errors := []; warnings := [] |}.
Proof. vm_compute. reflexivity. Qed.

Example invalid_ball_end_mill_verdict :
  validate_tool invalid_ball_end_mill =
    Ok {| is_valid := false;
          errors := [error "tip_radius"
                       "Tip radius must equal half the diameter for ball end mills"];
          warnings := [] |}.
Proof. vm_compute. reflexivity. Qed.

Example imperial_csv_diameter :
  csv_cell "Diameter"
    match fst (_generate_export_data (stored drill_without_point_angle)
                 {| format := ExportFormat.CSV; units := IMPERIAL |}
                 (store_of drill_without_point_angle)) with
    | Ok doc => doc
    | Raise _ => Csv []
    end = Some (VNum 1.0000).
Proof. vm_compute. reflexivity. Qed.

Example drill_point_angle_default :
  json_member "pointAngle"
    match fst (_generate_export_data (stored drill_without_point_angle)
                 {| format := ExportFormat.FUSION_JSON; units := METRIC |}
                 (store_of drill_without_point_angle)) with
    | Ok doc => doc
    | Raise _ => Json []
    end = Some (VNum 118).
Proof. vm_compute. reflexivity. Qed.

(** A field present with [None] is not an absent one: the structured
    format shows [None] for it, not the default of the field. *)
Example none_valued_field_shown :
  json_member "pointAngle"
    match fst (_generate_export_data
                 (stored (sample "drill" [("point_angle", VNone)]))
                 {| format := ExportFormat.FUSION_JSON; units := METRIC |}
                 (store_of (sample "drill" [("point_angle", VNone)]))) with
    | Ok doc => doc
    | Raise _ => Json []
    end = Some VNone.
Proof. vm_compute. reflexivity. Qed.

(** A string in the geometry makes the validator raise. *)
Example string_geometry_raises :
  validate_tool (sample "end_mill" [("diameter", VStr "6mm")]) = Raise TypeError.
Proof. vm_compute. reflexivity. Qed.

(** * Further properties *)

(** ** The validator: a valid tool *)

Lemma opt_nil (b : bool) (e : ValidationError) : opt b e = [] <-> b = false.
Proof. destruct b; simpl; split; congruence. Qed.

Lemma Qeq_bool_false q c : Qeq_bool q c = false <-> ~ (q == c)%Q.
Proof.
  rewrite <- not_true_iff_false, Qeq_bool_iff. reflexivity.
Qed.

Ltac to_Q :=
  repeat match goal with
  | H : Qle_bool _ _ = true |- _ => apply Qle_bool_iff in H
  | H : Qle_bool _ _ = false |- _ => apply Qle_bool_false in H
  | H : Qeq_bool _ _ = true |- _ => apply Qeq_bool_iff in H
  | H : Qeq_bool _ _ = false |- _ => apply Qeq_bool_false in H
  | H : negb _ = true |- _ => apply negb_true_iff in H
  | H : negb _ = false |- _ => apply negb_false_iff in H
  | H : _ || _ = false |- _ => apply orb_false_iff in H as [? ?]
  | |- Qle_bool _ _ = true => apply Qle_bool_iff
  | |- Qle_bool _ _ = false => apply Qle_bool_false
  | |- Qeq_bool _ _ = false => apply Qeq_bool_false
  | |- negb _ = true => apply negb_true_iff
  | |- negb _ = false => apply negb_false_iff
  | |- _ || _ = false => apply orb_false_iff; split
  end.

Lemma missing_or_above g k :
  missing_or g k (fun q => Qle_bool q 0) = false <-> has g k (fun q => 0 < q)%Q.
Proof.
  unfold missing_or, num, has. split.
  - destruct (g !! k) as [[|q|s]|]; try discriminate. intros H. to_Q.
    exists q. split; [reflexivity | lra].
  - intros (q & -> & Hq). to_Q; lra.
Qed.

Lemma missing_or_at_least_1 g k :
  missing_or g k (fun q => negb (Qle_bool 1 q)) = false <-> has g k (fun q => 1 <= q)%Q.
Proof.
  unfold missing_or, num, has. split.
  - destruct (g !! k) as [[|q|s]|]; try discriminate. intros H. to_Q.
    exists q. split; [reflexivity | lra].
  - intros (q & -> & Hq). to_Q; lra.
Qed.

Lemma missing_or_at_least_0 g k :
  missing_or g k (fun q => negb (Qle_bool 0 q)) = false <-> has g k (fun q => 0 < q)%Q.
Proof.
  unfold missing_or, num, has. split.
  - destruct (g !! k) as [[|q|s]|]; try discriminate. intros H. to_Q.
    exists q. split; [reflexivity | lra].
  - intros (q & -> & Hq). to_Q; lra.
Qed.

Lemma both_above g k1 k2 p :
  has g k1 (fun q => 0 < q)%Q -> has g k2 (fun q => 0 < q)%Q ->
  both g k1 k2 p = false <-> related g k1 k2 (fun a b => p a b = false).
Proof.
  intros (a & Ha & Hpa) (b & Hb & Hpb). unfold both, related.
  rewrite (nonzero_above_zero g k1 a Ha Hpa), (nonzero_above_zero g k2 b Hb Hpb).
  split.
  - intros Hp. by exists a, b.
  - intros (a' & b' & Ha' & Hb' & Hp). by simplify_eq.
Qed.

Lemma related_iff g k1 k2 (R R' : Q -> Q -> Prop) :
  (forall a b, R a b <-> R' a b) -> related g k1 k2 R <-> related g k1 k2 R'.
Proof.
  intros H. unfold related. split; intros (a & b & Ha & Hb & HR); exists a, b;
    (split; [exact Ha | split; [exact Hb | by apply H]]).
Qed.

Lemma related_swap g k1 k2 (R : Q -> Q -> Prop) :
  related g k1 k2 R <-> related g k2 k1 (fun b a => R a b).
Proof.
  unfold related. split; intros (a & b & Ha & Hb & HR); by exists b, a.
Qed.

Lemma basic_errors_nil g :
  basic_errors g = [] <->
  has g "diameter" (fun d => 0 < d)%Q /\
  has g "flute_length" (fun fl => 0 < fl)%Q /\
  has g "overall_length" (fun ol => 0 < ol)%Q /\
  related g "flute_length" "overall_length" (fun fl ol => fl < ol)%Q.
Proof.
  unfold basic_errors. rewrite !app_nil, !opt_nil, !missing_or_above.
  split; intros (Hd & Hfl & Hol & Hb); (split; [exact Hd | split; [exact Hfl | split; [exact Hol|]]]).
  - apply (both_above _ _ _ _ Hfl Hol) in Hb. revert Hb. apply related_iff.
    intros a b. split; intros ?; by apply Qle_bool_false.
  - apply (both_above _ _ _ _ Hfl Hol). revert Hb. apply related_iff.
    intros a b. split; intros ?; by apply Qle_bool_false.
Qed.

Lemma end_mill_errors_nil g :
  has g "flute_length" (fun fl => 0 < fl)%Q ->
  end_mill_errors g = [] <->
  has g "flute_count" (fun n => 1 <= n)%Q /\
  has g "helix_angle" (fun h => 0 < h)%Q /\
  has g "length_of_cut" (fun c => 0 < c)%Q /\
  related g "length_of_cut" "flute_length" (fun c fl => c <= fl)%Q.
Proof.
  intros Hfl. unfold end_mill_errors.
  rewrite !app_nil, !opt_nil, missing_or_above, missing_or_at_least_1,
    missing_or_at_least_0.
  split; intros (Hn & Hh & Hc & Hb); (split; [exact Hn | split; [exact Hh | split; [exact Hc|]]]).
  - apply (both_above _ _ _ _ Hfl Hc) in Hb. apply related_swap. revert Hb.
    apply related_iff. intros a b. rewrite negb_false_iff. split; intros ?; by apply Qle_bool_iff.
  - apply (both_above _ _ _ _ Hfl Hc). apply related_swap in Hb. revert Hb.
    apply related_iff. intros a b. rewrite negb_false_iff. split; intros ?; by apply Qle_bool_iff.
Qed.

Lemma ball_end_mill_errors_nil g :
  has g "diameter" (fun d => 0 < d)%Q ->
  ball_end_mill_errors g = [] <->
  has g "flute_count" (fun n => 1 <= n)%Q /\
  has g "tip_radius" (fun t => 0 < t)%Q /\
  related g "tip_radius" "diameter" (fun t d => Qabs (t - d / 2) <= 0.01)%Q.
Proof.
  intros Hd. unfold ball_end_mill_errors.
  rewrite !app_nil, !opt_nil, missing_or_above, missing_or_at_least_1.
  split; intros (Hn & Ht & Hb); (split; [exact Hn | split; [exact Ht|]]).
  - apply (both_above _ _ _ _ Hd Ht) in Hb. apply related_swap. revert Hb.
    apply related_iff. intros a b. rewrite negb_false_iff. split; intros ?; by apply Qle_bool_iff.
  - apply (both_above _ _ _ _ Hd Ht). apply related_swap in Hb. revert Hb.
    apply related_iff. intros a b. rewrite negb_false_iff. split; intros ?; by apply Qle_bool_iff.
Qed.

Lemma chamfer_errors_nil g :
  chamfer_errors g = [] <->
  has g "included_angle" (fun a => 0 < a)%Q /\
  has g "tip_flat" (fun t => 0 <= t)%Q /\
  has g "shank_diameter" (fun d => 0 < d)%Q.
Proof.
  unfold chamfer_errors. rewrite !app_nil, !opt_nil, !missing_or_above.
  assert (match num g "tip_flat" with
          | Some q => negb (Qle_bool 0 q)
          | None => true
          end = false <-> has g "tip_flat" (fun t => 0 <= t)%Q) as ->; [|reflexivity].
  unfold num, has. split.
  - destruct (g !! "tip_flat") as [[|q|s]|]; try discriminate. intros H. to_Q.
    by exists q.
  - intros (q & -> & Hq). by to_Q.
Qed.

Lemma drill_errors_nil g :
  drill_errors g = [] <-> has g "point_angle" (fun a => 0 < a)%Q.
Proof. unfold drill_errors. by rewrite opt_nil, missing_or_above. Qed.

Lemma thread_mill_errors_nil g :
  thread_mill_errors g = [] <->
  has g "pitch" (fun p => 0 < p)%Q /\ has g "max_thread_length" (fun m => 0 < m)%Q.
Proof. unfold thread_mill_errors. by rewrite app_nil, !opt_nil, !missing_or_above. Qed.

Lemma all_errors_nil ty g : all_errors ty g = [] <-> acceptable ty g.
Proof.
  unfold all_errors, acceptable, type_errors, compatibility_errors, supported_types.
  rewrite !app_nil, basic_errors_nil, opt_nil.
  split.
  - intros ((Hd & Hfl & Hol & Hb) & Hty & Hs).
    do 4 (split; [assumption|]).
    repeat case_match; simpl in Hs; rewrite ?orb_true_r in Hs; try discriminate Hs.
    + by apply end_mill_errors_nil.
    + by apply ball_end_mill_errors_nil.
    + by apply chamfer_errors_nil.
    + by apply drill_errors_nil.
    + exact I.
    + by apply thread_mill_errors_nil.
    + repeat match goal with H : String.eqb _ _ = false |- _ => rewrite H in Hs end.
      discriminate.
  - intros (Hd & Hfl & Hol & Hb & Hty).
    split; [by repeat split|].
    repeat case_match; try contradiction; simpl;
      repeat match goal with H : String.eqb _ _ = _ |- _ => rewrite H end;
      simpl; (split; [|reflexivity]).
    + by apply end_mill_errors_nil.
    + by apply ball_end_mill_errors_nil.
    + by apply chamfer_errors_nil.
    + by apply drill_errors_nil.
    + reflexivity.
    + by apply thread_mill_errors_nil.
Qed.



(** ** Warnings *)



Lemma finding_existsb (f : string) (l : list ValidationError) :
  (exists w, In w l /\ field w = f) <->
  existsb (fun w => String.eqb (field w) f) l = true.
Proof.
  rewrite existsb_exists.
  split; intros (w & Hin & Hw); exists w; split; auto.
  - by apply String.eqb_eq.
  - by apply String.eqb_eq in Hw.
Qed.

Lemma nonzero_and_outside g k lo hi :
  nonzero_and g k (outside lo hi) = true <->
  has g k (fun q => ~ q == 0 /\ (q < lo \/ hi < q))%Q.
Proof.
  unfold nonzero_and, nonzero, num, has, outside. split.
  - destruct (g !! k) as [[|q|s]|]; try discriminate.
    destruct (Qeq_bool q 0) eqn:Hz; [discriminate|]. intros H.
    exists q. split; [reflexivity|]. split; [by apply Qeq_bool_false|].
    apply orb_true_iff in H as [H|H]; apply negb_true_iff, Qle_bool_false in H; auto.
  - intros (q & -> & Hz & Hr). apply Qeq_bool_false in Hz. rewrite Hz.
    apply orb_true_iff.
    destruct Hr as [Hr|Hr]; [left|right]; by apply negb_true_iff, Qle_bool_false.
Qed.

Lemma lead_angle_outside g :
  match num g "lead_angle" with
  | Some q => outside 0 90 q
  | None => false
  end = true <->
  has g "lead_angle" (fun q => ~ q == 0 /\ (q < 0 \/ 90 < q))%Q.
Proof.
  unfold num, has, outside. split.
  - destruct (g !! "lead_angle") as [[|q|s]|]; try discriminate. intros H.
    exists q. split; [reflexivity|].
    apply orb_true_iff in H as [H|H]; apply negb_true_iff, Qle_bool_false in H;
      (split; [intros Hz; rewrite Hz in H; lra | auto]).
  - intros (q & -> & Hz & Hr). apply orb_true_iff.
    destruct Hr as [Hr|Hr]; [left|right]; by apply negb_true_iff, Qle_bool_false.
Qed.

(** X3. A field with a typical range (diameter and overall length for
    every type, helix angle of an end mill, point angle of a drill, lead
    angle of a reamer) has a warning finding exactly when it holds a
    number other than zero that lies outside the range. *)
Theorem range_warning_iff (tool : ToolResponse (gmap string value))
    (r : ValidationResponse) (f : string) (lo hi : Q) :
  no_strings (geometry tool) ->
  validate_tool tool = Ok r ->
  typical_range (type tool) f = Some (lo, hi) ->
  warning_on f r <->
  has (geometry tool) f (fun q => ~ q == 0 /\ (q < lo \/ hi < q))%Q.
Proof.
  intros Hs Hr. rewrite (validate_tool_returns tool Hs) in Hr. injection Hr as <-.
  destruct tool as [i n v ty g]. cbn [type geometry] in *. clear Hs.
  unfold warning_on. cbn [warnings]. rewrite finding_existsb.
  unfold typical_range, all_warnings, type_warnings, compatibility_warnings,
    end_mill_warnings, chamfer_warnings, drill_warnings, reamer_warnings,
    thread_mill_warnings.
  unfold ToolType.END_MILL, ToolType.BALL_END_MILL, ToolType.CHAMFER, ToolType.DRILL,
    ToolType.REAMER, ToolType.THREAD_MILL.
  destruct (String.eqb_spec f "diameter") as [->|Hd].
  { intros [= <- <-]. rewrite <- nonzero_and_outside.
    repeat case_match; rewrite ?existsb_app, ?existsb_opt; simpl;
      rewrite ?andb_false_r, ?andb_true_r; simpl; by rewrite ?orb_false_r. }
  destruct (String.eqb_spec f "overall_length") as [->|Ho].
  { intros [= <- <-]. rewrite <- nonzero_and_outside.
    repeat case_match; rewrite ?existsb_app, ?existsb_opt; simpl;
      rewrite ?andb_false_r, ?andb_true_r; simpl; by rewrite ?orb_false_r. }
  destruct (String.eqb_spec ty "end_mill") as [->|He]; simpl.
  { destruct (String.eqb_spec f "helix_angle") as [->|Hh]; [|discriminate].
    intros [= <- <-]. rewrite <- nonzero_and_outside.
    rewrite ?existsb_app, ?existsb_opt; simpl.
    by rewrite ?andb_false_r, ?andb_true_r, ?orb_false_r. }
  destruct (String.eqb_spec ty "drill") as [->|Hdr]; simpl.
  { destruct (String.eqb_spec f "point_angle") as [->|Hh]; [|discriminate].
    intros [= <- <-]. rewrite <- nonzero_and_outside.
    rewrite ?existsb_app, ?existsb_opt; simpl.
    by rewrite ?andb_false_r, ?andb_true_r, ?orb_false_r. }
  destruct (String.eqb_spec ty "reamer") as [->|Hre]; simpl; [|discriminate].
  destruct (String.eqb_spec f "lead_angle") as [->|Hh]; [|discriminate].
  intros [= <- <-]. rewrite <- lead_angle_outside.
  rewrite ?existsb_app, ?existsb_opt; simpl.
  by rewrite ?andb_false_r, ?andb_true_r, ?orb_false_r.
Qed.

Lemma range_warning_iff_witness :
  has (geometry wide_drill) "diameter" (fun q => ~ q == 0 /\ (q < 0.1 \/ 100 < q))%Q.
Proof.
  apply (range_warning_iff wide_drill
           {| is_valid := true; errors := [];
              warnings := [warning "diameter" "Diameter outside typical range (0.1-100mm)"] |}
           "diameter" 0.1 100).
  - apply (bool_decide_unpack _). vm_compute. exact I.
  - vm_compute. reflexivity.
  - reflexivity.
  - exists (warning "diameter" "Diameter outside typical range (0.1-100mm)").
    split; [by left | reflexivity].
Defined.

(** ** The tool type *)

Lemma type_error_iff ty g :
  existsb (fun e => String.eqb (field e) "type") (all_errors ty g) =
  negb (existsb (String.eqb ty) supported_types).
Proof.
  unfold all_errors, type_errors, basic_errors, end_mill_errors, ball_end_mill_errors,
    chamfer_errors, drill_errors, thread_mill_errors, compatibility_errors.
  repeat case_match; rewrite ?existsb_app, ?existsb_opt; simpl;
    rewrite ?andb_false_r, ?andb_true_r; simpl; by rewrite ?orb_false_r.
Qed.

(** X2. The verdict has an error finding on [type] exactly when the type
    of the tool is none of the six supported ones, and such a tool is
    never valid. *)
Theorem type_error_iff_unsupported (tool : ToolResponse (gmap string value))
    (r : ValidationResponse) :
  no_strings (geometry tool) ->
  validate_tool tool = Ok r ->
  (error_on "type" r <-> ~ In (type tool) supported_types) /\
  (~ In (type tool) supported_types -> is_valid r = false).
Proof.
  intros Hs Hr. rewrite (validate_tool_returns tool Hs) in Hr. injection Hr as <-.
  assert (error_on "type"
            {| is_valid := Nat.eqb (length (all_errors (type tool) (geometry tool))) 0;
               errors := all_errors (type tool) (geometry tool);
               warnings := all_warnings (type tool) (geometry tool) |} <->
          ~ In (type tool) supported_types) as Hiff.
  { rewrite error_on_spec. unfold error_onb. cbn [errors].
    rewrite type_error_iff, negb_true_iff, <- existsb_In_string.
    split; intros ?; by apply not_true_iff_false. }
  split; [exact Hiff|].
  intros Hty. apply Hiff in Hty as (e & Hin & _). cbn [errors is_valid] in *.
  destruct (all_errors (type tool) (geometry tool)); [destruct Hin | reflexivity].
Qed.

Lemma type_error_iff_unsupported_witness :
  is_valid {| is_valid := false;
              errors := [error "type" "Tool type 'lathe' is not supported by Fusion 360"];
              warnings := [] |} = false.
Proof.
  destruct (type_error_iff_unsupported
              (sample "lathe" [("diameter", VNum 6); ("flute_length", VNum 20);
                               ("overall_length", VNum 50)])
              {| is_valid := false;
                 errors := [error "type" "Tool type 'lathe' is not supported by Fusion 360"];
                 warnings := [] |}) as [_ Hinvalid].
  - apply (bool_decide_unpack _). vm_compute. exact I.
  - vm_compute. reflexivity.
  - apply Hinvalid. simpl. intuition discriminate.
Defined.

(** ** The validator: what it reads and what it raises *)

Ltac unfold_rules :=
  unfold validate_tool, run_rules, _validate_basic_fields, _validate_end_mill,
    _validate_ball_end_mill, _validate_chamfer, _validate_drill, _validate_reamer,
    _validate_thread_mill, _validate_fusion_compatibility.

Lemma run_rules_reads_checked_fields (tool : ToolResponse (gmap string value))
    (g' : gmap string value) :
  (forall k, In k (checked_fields (type tool)) -> g' !! k = geometry tool !! k) ->
  run_rules (with_geometry tool g') = run_rules tool.
Proof.
  intros H. destruct tool as [i n v ty g]. cbn [geometry type] in H.
  unfold checked_fields in H.
  unfold_rules. unfold with_geometry, get, getitem.
  cbn [geometry type].
  unfold ToolType.END_MILL, ToolType.BALL_END_MILL, ToolType.CHAMFER, ToolType.DRILL,
    ToolType.REAMER, ToolType.THREAD_MILL in *.
  repeat match goal with
  | |- context [String.eqb ty ?s] => destruct (String.eqb ty s)
  end;
  repeat match goal with
  | |- context [g' !! ?k] => rewrite (H k) by (simpl; tauto)
  end;
  reflexivity.
Qed.

(** X4. The verdict depends on the fields of [checked_fields] only: two
    geometries that agree on the fields that the rules of the type read
    get the same verdict, or raise the same exception, whatever else
    they hold. *)
Theorem verdict_reads_checked_fields (tool : ToolResponse (gmap string value))
    (g' : gmap string value) :
  (forall k, In k (checked_fields (type tool)) -> g' !! k = geometry tool !! k) ->
  validate_tool (with_geometry tool g') = validate_tool tool.
Proof.
  intros H. unfold validate_tool. by rewrite (run_rules_reads_checked_fields tool g' H).
Qed.

Lemma verdict_reads_checked_fields_witness :
  validate_tool (with_geometry valid_end_mill
                   (<["point_angle" := VStr "n/a"]> (geometry valid_end_mill))) =
  validate_tool valid_end_mill.
Proof.
  apply (verdict_reads_checked_fields valid_end_mill).
  intros k Hk. apply lookup_insert_ne. intros <-.
  vm_compute in Hk. intuition discriminate.
Defined.


Lemma raises_only_ret e0 {A : Type} (a : A) : raises_only e0 (mret a : V A).
Proof. intros s e. discriminate. Qed.

Lemma raises_only_bind e0 {A B : Type} (m : V A) (f : A -> V B) :
  raises_only e0 m -> (forall a, raises_only e0 (f a)) -> raises_only e0 (m ≫= f).
Proof.
  intros Hm Hf s e. unfold mbind, V_bind.
  destruct (m s) as [[a s']|e'] eqn:E.
  - apply Hf.
  - intros [= <-]. by apply (Hm s).
Qed.

Lemma raises_only_eval e0 {A : Type} (c : result A) :
  (forall e, c = Raise e -> e = e0) -> raises_only e0 (ValidationService.eval c).
Proof.
  intros Hc s e. unfold ValidationService.eval. destruct c; [discriminate|].
  intros [= <-]. by apply Hc.
Qed.

Lemma raises_only_when e0 (c : result bool) (body : V unit) :
  (forall e, c = Raise e -> e = e0) -> raises_only e0 body ->
  raises_only e0 (when_ c body).
Proof.
  intros Hc Hb. unfold when_. apply raises_only_bind.
  - by apply raises_only_eval.
  - intros []; [exact Hb | apply raises_only_ret].
Qed.

(** The body of a guarded rule runs only when the guard holds. *)
Lemma raises_only_guard e0 (guard : bool) (body : V unit) :
  (guard = true -> raises_only e0 body) -> raises_only e0 (when_ (Ok guard) body).
Proof.
  intros Hb s e. unfold when_, mbind, V_bind, ValidationService.eval.
  destruct guard; [by apply Hb | discriminate].
Qed.

Lemma raises_only_errors_append e0 x : raises_only e0 (errors_append x).
Proof. intros s e. discriminate. Qed.

Lemma raises_only_warnings_append e0 x : raises_only e0 (warnings_append x).
Proof. intros s e. discriminate. Qed.

(** A condition, under the guards passed so far, raises [TypeError] or
    nothing: a subscript is evaluated only after [get] has found the key. *)
Ltac only_TypeError :=
  unfold py_or, py_and, py_gt, py_ge, py_lt, py_le, py_div, py_sub, py_abs,
    get, getitem, mbind, result_bind;
  repeat case_match; simpl; intros;
  repeat match goal with
  | H : _ && _ = true |- _ => apply andb_prop in H as [? ?]
  end;
  simpl in *; simplify_eq; done.

Ltac raises_step :=
  first
    [ apply raises_only_errors_append
    | apply raises_only_warnings_append
    | apply raises_only_ret
    | apply raises_only_guard;
      let G := fresh "G" in intros G;
      first [ apply raises_only_when; [revert G; only_TypeError|]
            | apply raises_only_bind;
              [apply raises_only_eval; revert G; only_TypeError
              |intros ?; apply raises_only_when; [revert G; only_TypeError|]] ]
    | apply raises_only_when; [only_TypeError|]
    | apply raises_only_bind; [|intros ?] ].

Lemma run_rules_raises_only (tool : ToolResponse (gmap string value)) :
  raises_only TypeError (run_rules tool).
Proof.
  unfold run_rules.
  apply raises_only_bind; [|intros _; apply raises_only_bind; [|intros _]].
  - unfold _validate_basic_fields. repeat raises_step.
  - repeat case_match.
    + unfold _validate_end_mill. repeat raises_step.
    + unfold _validate_ball_end_mill. repeat raises_step.
    + unfold _validate_chamfer. repeat raises_step.
    + unfold _validate_drill. repeat raises_step.
    + unfold _validate_reamer. repeat raises_step.
    + unfold _validate_thread_mill. repeat raises_step.
    + apply raises_only_ret.
  - unfold _validate_fusion_compatibility. repeat raises_step.
Qed.



(** ** The fields of the findings *)


Lemma findings_errors_append fields e :
  In (field e) fields -> keeps (findings_on fields) (errors_append e).
Proof.
  intros He s a s' [H1 H2] [= _ <-]. split; simpl; [|exact H2].
  apply Forall_app. split; [exact H1 | by constructor].
Qed.

Lemma findings_warnings_append fields e :
  In (field e) fields -> keeps (findings_on fields) (warnings_append e).
Proof.
  intros He s a s' [H1 H2] [= _ <-]. split; simpl; [exact H1|].
  apply Forall_app. split; [exact H2 | by constructor].
Qed.

Ltac keeps_findings :=
  repeat first
    [ apply findings_errors_append; simpl; tauto
    | apply findings_warnings_append; simpl; tauto
    | apply keeps_when
    | apply keeps_eval
    | apply keeps_ret
    | apply keeps_bind; [|intros ?] ].

Lemma run_rules_findings (tool : ToolResponse (gmap string value)) :
  keeps (findings_on ("type" :: checked_fields (type tool))) (run_rules tool).
Proof.
  destruct tool as [i n v ty g]. cbn [type]. unfold checked_fields.
  unfold_rules. cbn [geometry type].
  unfold ToolType.END_MILL, ToolType.BALL_END_MILL, ToolType.CHAMFER, ToolType.DRILL,
    ToolType.REAMER, ToolType.THREAD_MILL in *.
  repeat match goal with
  | |- context [String.eqb ty ?s] => destruct (String.eqb ty s)
  end; keeps_findings.
Qed.

(** X7. Every finding of a verdict, error or warning, is on [type] or
    on one of the fields that the rules of the type of the tool read. *)
Theorem findings_on_checked_fields (tool : ToolResponse (gmap string value))
    (r : ValidationResponse) (e : ValidationError) :
  validate_tool tool = Ok r ->
  In e (errors r ++ warnings r) ->
  field e = "type" \/ In (field e) (checked_fields (type tool)).
Proof.
  unfold validate_tool.
  destruct (run_rules tool {| errors_ := []; warnings_ := [] |}) as [[[] s]|] eqn:R; [|done].
  intros [= <-]. simpl. intros Hin.
  assert (findings_on ("type" :: checked_fields (type tool))
            {| errors_ := []; warnings_ := [] |}) as H0 by (split; constructor).
  destruct (run_rules_findings tool _ _ _ H0 R) as [He Hw].
  rewrite List.Forall_forall in He, Hw.
  apply in_app_or in Hin as [Hin|Hin]; [apply He in Hin | apply Hw in Hin];
    simpl in Hin; destruct Hin as [<-|Hin]; auto.
Qed.

Lemma findings_on_checked_fields_witness :
  "tip_radius" = "type" \/ In "tip_radius" (checked_fields "ball_end_mill").
Proof.
  apply (findings_on_checked_fields invalid_ball_end_mill
           {| is_valid := false;
              errors := [error "tip_radius"
                           "Tip radius must equal half the diameter for ball end mills"];
              warnings := [] |}
           (error "tip_radius"
              "Tip radius must equal half the diameter for ball end mills")).
  - vm_compute. reflexivity.
  - simpl. left. reflexivity.
Defined.

(** ** The validator: a field that holds [None] *)

Lemma get_insert_None (g : gmap string value) f k :
  get (<[f := VNone]> g) k = get (delete f g) k.
Proof.
  unfold get. destruct (decide (f = k)) as [->|Hne].
  - by rewrite lookup_insert_eq, lookup_delete_eq.
  - by rewrite lookup_insert_ne, lookup_delete_ne.
Qed.

Lemma getitem_insert_None_ne (g : gmap string value) f k :
  f <> k -> getitem (<[f := VNone]> g) k = getitem (delete f g) k.
Proof. intros Hne. unfold getitem. by rewrite lookup_insert_ne, lookup_delete_ne. Qed.

Lemma getitem_insert_None_eq (g : gmap string value) f :
  getitem (<[f := VNone]> g) f = Ok VNone.
Proof. unfold getitem. by rewrite lookup_insert_eq. Qed.

Lemma get_delete_eq (g : gmap string value) f : get (delete f g) f = VNone.
Proof. unfold get. by rewrite lookup_delete_eq. Qed.

Lemma V_seq_ext (m1 m1' m2 m2' : V unit) :
  (forall s, m1 s = m1' s) -> (forall s, m2 s = m2' s) ->
  forall s, (m1;; m2) s = (m1';; m2') s.
Proof.
  intros H1 H2 s. unfold mbind, V_bind. rewrite H1.
  destruct (m1' s) as [[[] s']|e]; [apply H2 | reflexivity].
Qed.

Ltac none_keys g :=
  rewrite ?get_insert_None;
  repeat match goal with
  | |- context [getitem (<[?f := VNone]> g) ?k] =>
      let E := fresh "E" in
      destruct (decide (f = k)) as [E|E];
      [ try discriminate E; try subst f;
        rewrite ?getitem_insert_None_eq, ?get_delete_eq
      | rewrite (getitem_insert_None_ne g f k E) ]
  end;
  try change (truthy VNone) with false;
  rewrite ?andb_false_r;
  try reflexivity.

Lemma basic_None (tool : ToolResponse (gmap string value)) f g s :
  _validate_basic_fields (with_geometry tool (<[f := VNone]> g)) s =
  _validate_basic_fields (with_geometry tool (delete f g)) s.
Proof.
  unfold _validate_basic_fields, with_geometry. cbn [geometry].
  none_keys g.
Qed.

Lemma end_mill_None (tool : ToolResponse (gmap string value)) f g s :
  _validate_end_mill (with_geometry tool (<[f := VNone]> g)) s =
  _validate_end_mill (with_geometry tool (delete f g)) s.
Proof.
  unfold _validate_end_mill, with_geometry. cbn [geometry].
  none_keys g.
Qed.

Lemma ball_end_mill_None (tool : ToolResponse (gmap string value)) f g s :
  _validate_ball_end_mill (with_geometry tool (<[f := VNone]> g)) s =
  _validate_ball_end_mill (with_geometry tool (delete f g)) s.
Proof.
  unfold _validate_ball_end_mill, with_geometry. cbn [geometry].
  none_keys g.
Qed.

Lemma chamfer_None (tool : ToolResponse (gmap string value)) f g s :
  _validate_chamfer (with_geometry tool (<[f := VNone]> g)) s =
  _validate_chamfer (with_geometry tool (delete f g)) s.
Proof.
  unfold _validate_chamfer, with_geometry. cbn [geometry].
  none_keys g.
Qed.

Lemma drill_None (tool : ToolResponse (gmap string value)) f g s :
  _validate_drill (with_geometry tool (<[f := VNone]> g)) s =
  _validate_drill (with_geometry tool (delete f g)) s.
Proof.
  unfold _validate_drill, with_geometry. cbn [geometry].
  none_keys g.
Qed.

Lemma reamer_None (tool : ToolResponse (gmap string value)) f g s :
  _validate_reamer (with_geometry tool (<[f := VNone]> g)) s =
  _validate_reamer (with_geometry tool (delete f g)) s.
Proof.
  unfold _validate_reamer, with_geometry. cbn [geometry].
  none_keys g.
Qed.

Lemma thread_mill_None (tool : ToolResponse (gmap string value)) f g s :
  _validate_thread_mill (with_geometry tool (<[f := VNone]> g)) s =
  _validate_thread_mill (with_geometry tool (delete f g)) s.
Proof.
  unfold _validate_thread_mill, with_geometry. cbn [geometry].
  none_keys g.
Qed.

Lemma compatibility_None (tool : ToolResponse (gmap string value)) f g s :
  _validate_fusion_compatibility (with_geometry tool (<[f := VNone]> g)) s =
  _validate_fusion_compatibility (with_geometry tool (delete f g)) s.
Proof.
  unfold _validate_fusion_compatibility, with_geometry. cbn [geometry type].
  none_keys g.
Qed.

(** X5. A field stored with the value [None] is read as a missing one:
    the verdict is that of the geometry without the field. *)
Theorem None_reads_as_missing (tool : ToolResponse (gmap string value)) (f : string) :
  validate_tool (with_geometry tool (<[f := VNone]> (geometry tool))) =
  validate_tool (with_geometry tool (delete f (geometry tool))).
Proof.
  unfold validate_tool.
  assert (forall s,
    run_rules (with_geometry tool (<[f := VNone]> (geometry tool))) s =
    run_rules (with_geometry tool (delete f (geometry tool))) s) as ->; [|reflexivity].
  unfold run_rules.
  apply V_seq_ext; [apply basic_None|].
  apply V_seq_ext; [|apply compatibility_None].
  cbn [with_geometry type]. intros s.
  repeat case_match; auto using end_mill_None, ball_end_mill_None, chamfer_None,
    drill_None, reamer_None, thread_mill_None.
Qed.

(** ** The exporter: every geometry *)

Lemma string_under_spec fields d : string_under fields d <-> string_underb fields d = true.
Proof.
  unfold string_under, string_underb. rewrite existsb_exists. split.
  - intros (k & s & Hin & Hk). exists k. by rewrite Hk.
  - intros (k & Hin & Hk). destruct (d !! k) as [[|q|s]|] eqn:E; try discriminate.
    by exists k, s.
Qed.

Lemma string_underb_convert_field fields d k :
  string_underb fields (convert_field d k) = string_underb fields d.
Proof.
  assert (forall k', match convert_field d k !! k' with
                     | Some (VStr _) => true
                     | _ => false
                     end =
                     match d !! k' with
                     | Some (VStr _) => true
                     | _ => false
                     end) as Hpt.
  { intros k'. rewrite convert_field_lookup.
    destruct (d !! k') as [[|q|s]|]; simpl; try reflexivity.
    unfold convert_value_in. simpl. destruct (String.eqb k' k); reflexivity. }
  unfold string_underb. induction fields as [|k' fields IH]; [reflexivity|].
  simpl. by rewrite Hpt, IH.
Qed.

(** The loop of [_convert_to_imperial] on a dict whose [fields] hold no
    string. *)
Lemma convert_loop_returns (fields : list string) (σ : store) (r : ref)
    (d : gmap string value) :
  string_underb fields d = false ->
  for_ fields (fun field =>
    c ← (b ← dict_contains r field;
         if b : bool
         then v ← dict_getitem r field; mret (negb (is_None v))
         else mret false);
    if c : bool
    then v ← dict_getitem r field;
         x ← ExportService.eval (x ← py_div v (VNum 25.4); py_round x 4);
         dict_setitem r field x
    else mret tt) (<[r := d]> σ)
  = (Ok tt, <[r := convert_fields fields d]> σ).
Proof.
  revert d. induction fields as [|k fields IH]; intros d Hd; [reflexivity|].
  simpl in Hd. apply orb_false_iff in Hd as [Hk Hd].
  simpl. unfold mbind at 1. unfold X_bind at 1.
  match goal with
  | |- match ?body ?st with _ => _ end = _ =>
      assert (body st = (Ok tt, <[r := convert_field d k]> σ)) as ->
  end.
  { unfold mbind, X_bind, dict_contains, dict_getitem, dict_setitem,
      ExportService.eval, mret, X_ret, contains, getitem, convert_field.
    destruct (d !! k) as [[|q|s]|] eqn:E; try discriminate Hk;
      repeat progress (rewrite ?lookup_total_insert_eq, ?E; simpl).
    - reflexivity.
    - unfold to_inch. by rewrite insert_insert_eq.
    - reflexivity. }
  apply IH. by rewrite string_underb_convert_field.
Qed.

(** The loop raises [TypeError] at the first of [fields] that holds a
    string. *)
Lemma convert_loop_raises (fields : list string) (σ : store) (r : ref)
    (d : gmap string value) :
  string_underb fields d = true ->
  fst (for_ fields (fun field =>
    c ← (b ← dict_contains r field;
         if b : bool
         then v ← dict_getitem r field; mret (negb (is_None v))
         else mret false);
    if c : bool
    then v ← dict_getitem r field;
         x ← ExportService.eval (x ← py_div v (VNum 25.4); py_round x 4);
         dict_setitem r field x
    else mret tt) (<[r := d]> σ))
  = Raise TypeError.
Proof.
  revert d. induction fields as [|k fields IH]; intros d Hd; [discriminate|].
  simpl in Hd.
  simpl. unfold mbind at 1. unfold X_bind at 1.
  destruct (d !! k) as [[|q|s]|] eqn:E.
  - match goal with
    | |- fst (match ?body ?st with _ => _ end) = _ =>
        assert (body st = (Ok tt, <[r := convert_field d k]> σ)) as ->
    end.
    { unfold mbind, X_bind, dict_contains, dict_getitem, dict_setitem,
        ExportService.eval, mret, X_ret, contains, getitem, convert_field.
      repeat progress (rewrite ?lookup_total_insert_eq, ?E; simpl). reflexivity. }
    unfold convert_field. rewrite E. by apply IH.
  - match goal with
    | |- fst (match ?body ?st with _ => _ end) = _ =>
        assert (body st = (Ok tt, <[r := convert_field d k]> σ)) as ->
    end.
    { unfold mbind, X_bind, dict_contains, dict_getitem, dict_setitem,
        ExportService.eval, mret, X_ret, contains, getitem, convert_field.
      repeat progress (rewrite ?lookup_total_insert_eq, ?E; simpl).
      unfold to_inch. by rewrite insert_insert_eq. }
    apply IH. by rewrite string_underb_convert_field.
  - unfold mbind, X_bind, dict_contains, dict_getitem, dict_setitem,
      ExportService.eval, mret, X_ret, contains, getitem.
    repeat progress (rewrite ?lookup_total_insert_eq, ?E; simpl). reflexivity.
  - match goal with
    | |- fst (match ?body ?st with _ => _ end) = _ =>
        assert (body st = (Ok tt, <[r := convert_field d k]> σ)) as ->
    end.
    { unfold mbind, X_bind, dict_contains, dict_getitem, dict_setitem,
        ExportService.eval, mret, X_ret, contains, getitem, convert_field.
      repeat progress (rewrite ?lookup_total_insert_eq, ?E; simpl). reflexivity. }
    unfold convert_field. rewrite E. by apply IH.
Qed.

Lemma convert_to_imperial_returns (σ : store) (r : ref) (g : gmap string value) :
  σ !! r = Some g -> string_underb mm_fields g = false ->
  _convert_to_imperial r σ =
    (Ok (fresh (dom σ)), <[fresh (dom σ) := shown_geometry IMPERIAL g]> σ).
Proof.
  intros Hr Hg. unfold _convert_to_imperial.
  unfold mbind at 1. unfold X_bind at 1. unfold dict_copy at 1.
  rewrite (lookup_total_correct _ _ _ Hr).
  unfold mbind at 1. unfold X_bind at 1.
  rewrite (convert_loop_returns mm_fields σ (fresh (dom σ)) g Hg).
  by rewrite convert_fields_shown.
Qed.

Lemma convert_to_imperial_raises (σ : store) (r : ref) (g : gmap string value) :
  σ !! r = Some g -> string_underb mm_fields g = true ->
  fst (_convert_to_imperial r σ) = Raise TypeError.
Proof.
  intros Hr Hg. unfold _convert_to_imperial.
  unfold mbind at 1. unfold X_bind at 1. unfold dict_copy at 1.
  rewrite (lookup_total_correct _ _ _ Hr).
  unfold mbind at 1. unfold X_bind at 1.
  pose proof (convert_loop_raises mm_fields σ (fresh (dom σ)) g Hg) as H.
  destruct (for_ mm_fields _ _) as [[[]|e] σ']; simpl in H; [discriminate|].
  by injection H as ->.
Qed.

(** The first statements of both generators, on any geometry: they leave
    in [geometry] a reference to the geometry that the export shows,
    unless the export is imperial and a millimetre field holds a string. *)
Lemma export_geometry_returns (tool : ToolResponse ref) (units : ExportUnits)
    (σ : store) (g : gmap string value) :
  σ !! geometry tool = Some g ->
  units = METRIC \/ string_underb mm_fields g = false ->
  exists r σ',
    σ' !! r = Some (shown_geometry units g) /\
    forall (A : Type) (k : ref -> X A),
      (geometry ← dict_copy (geometry tool);
       geometry ← (if ExportUnits_eqb units IMPERIAL
                   then _convert_to_imperial geometry
                   else mret geometry);
       k geometry) σ = k r σ'.
Proof.
  intros Hr Hg.
  set (r1 := fresh (dom σ)). set (σ1 := <[r1 := g]> σ).
  assert (σ1 !! r1 = Some g) as H1 by apply lookup_insert_eq.
  destruct units.
  - exists r1, σ1. split; [exact H1|]. intros A k.
    unfold mbind, X_bind, dict_copy. rewrite (lookup_total_correct _ _ _ Hr).
    reflexivity.
  - destruct Hg as [|Hg]; [discriminate|].
    eexists _, _. split; [apply lookup_insert_eq|]. intros A k.
    unfold mbind, X_bind, dict_copy. rewrite (lookup_total_correct _ _ _ Hr).
    simpl. fold r1. fold σ1. rewrite (convert_to_imperial_returns σ1 r1 g H1 Hg).
    reflexivity.
Qed.

Lemma export_geometry_raises (tool : ToolResponse ref) (σ : store)
    (g : gmap string value) :
  σ !! geometry tool = Some g ->
  string_underb mm_fields g = true ->
  forall (A : Type) (k : ref -> X A),
    fst ((geometry ← dict_copy (geometry tool);
          geometry ← (if ExportUnits_eqb IMPERIAL IMPERIAL
                      then _convert_to_imperial geometry
                      else mret geometry);
          k geometry) σ) = Raise TypeError.
Proof.
  intros Hr Hg A k.
  set (r1 := fresh (dom σ)). set (σ1 := <[r1 := g]> σ).
  assert (σ1 !! r1 = Some g) as H1 by apply lookup_insert_eq.
  unfold mbind, X_bind, dict_copy. rewrite (lookup_total_correct _ _ _ Hr).
  simpl. fold r1. fold σ1.
  pose proof (convert_to_imperial_raises σ1 r1 g H1 Hg) as H.
  destruct (_convert_to_imperial r1 σ1) as [[r|e] σ']; simpl in H; [discriminate|].
  by injection H as ->.
Qed.

(** What an export returns, by cases. *)
Lemma generate_fusion_json_cases (tool : ToolResponse ref) (units : ExportUnits)
    (σ : store) (g : gmap string value) :
  σ !! geometry tool = Some g ->
  (units = IMPERIAL /\ string_under mm_fields g /\
   fst (_generate_fusion_json tool units σ) = Raise TypeError) \/
  ((units = METRIC \/ ~ string_under mm_fields g) /\
   exists items,
     fst (_generate_fusion_json tool units σ) = Ok (Json items) /\
     NoDup (map fst items) /\
     json_member "toolType" (Json items) =
       Some (VStr (_map_tool_type_to_fusion (type tool))) /\
     json_member "name" (Json items) = Some (VStr (name tool)) /\
     json_member "vendor" (Json items) = Some (VStr (vendor tool)) /\
     json_member "units" (Json items) =
       Some (VStr (match units with IMPERIAL => "in" | METRIC => "mm" end))).
Proof.
  intros Hr.
  destruct (string_underb mm_fields g) eqn:Hs.
  - destruct units.
    + right. split; [by left|].
      destruct (export_geometry_returns tool METRIC σ g Hr) as (r & σ' & Hσ' & Hrun);
        [by left|].
      unfold _generate_fusion_json. rewrite Hrun.
      destruct tool as [i n v ty gr]. simpl in *.
      type_cases ty;
        unfold mbind, X_bind, dict_get, mret, X_ret; simpl;
        (eexists; split; [reflexivity|]);
        (split; [|by repeat split]);
        apply (bool_decide_unpack _); vm_compute; exact I.
    + left. split; [reflexivity|]. split; [by apply string_under_spec|].
      unfold _generate_fusion_json. by apply export_geometry_raises with (g := g).
  - right. split; [right; by rewrite string_under_spec, Hs|].
    destruct (export_geometry_returns tool units σ g Hr) as (r & σ' & Hσ' & Hrun);
      [by right|].
    unfold _generate_fusion_json. rewrite Hrun.
    destruct tool as [i n v ty gr]. simpl in *.
    type_cases ty; destruct units;
      unfold mbind, X_bind, dict_get, mret, X_ret; simpl;
      (eexists; split; [reflexivity|]);
      (split; [|by repeat split]);
      apply (bool_decide_unpack _); vm_compute; exact I.
Qed.

Lemma generate_csv_cases (tool : ToolResponse ref) (units : ExportUnits)
    (σ : store) (g : gmap string value) :
  σ !! geometry tool = Some g ->
  (units = IMPERIAL /\ string_under mm_fields g /\
   fst (_generate_csv tool units σ) = Raise TypeError) \/
  ((units = METRIC \/ ~ string_under mm_fields g) /\
   exists header row,
     fst (_generate_csv tool units σ) = Ok (Csv [header; row]) /\
     length header = length row /\
     csv_cell "Tool Name" (Csv [header; row]) = Some (VStr (name tool)) /\
     csv_cell "Vendor" (Csv [header; row]) = Some (VStr (vendor tool)) /\
     csv_cell "Type" (Csv [header; row]) = Some (VStr (type tool)) /\
     csv_cell "Units" (Csv [header; row]) =
       Some (VStr (match units with IMPERIAL => "in" | METRIC => "mm" end))).
Proof.
  intros Hr.
  destruct (string_underb mm_fields g) eqn:Hs.
  - destruct units.
    + right. split; [by left|].
      destruct (export_geometry_returns tool METRIC σ g Hr) as (r & σ' & Hσ' & Hrun);
        [by left|].
      unfold _generate_csv. rewrite Hrun.
      destruct tool as [i n v ty gr]. simpl in *.
      type_cases ty;
        unfold mbind, X_bind, dict_get, mret, X_ret; simpl;
        (eexists _, _; split; [reflexivity|]); by repeat split.
    + left. split; [reflexivity|]. split; [by apply string_under_spec|].
      unfold _generate_csv. by apply export_geometry_raises with (g := g).
  - right. split; [right; by rewrite string_under_spec, Hs|].
    destruct (export_geometry_returns tool units σ g Hr) as (r & σ' & Hσ' & Hrun);
      [by right|].
    unfold _generate_csv. rewrite Hrun.
    destruct tool as [i n v ty gr]. simpl in *.
    type_cases ty; destruct units;
      unfold mbind, X_bind, dict_get, mret, X_ret; simpl;
      (eexists _, _; split; [reflexivity|]); by repeat split.
Qed.




(** X9. The document of an export is of the format asked for: a
    structured document has no member name twice, and a tabular one is a
    header row and one data row of the same length. *)
Theorem export_document_shape (tool : ToolResponse ref) (export_request : ExportRequest)
    (σ : store) (g : gmap string value) (doc : document) :
  σ !! geometry tool = Some g ->
  fst (_generate_export_data tool export_request σ) = Ok doc ->
  match doc with
  | Json items =>
      format export_request = ExportFormat.FUSION_JSON /\ NoDup (map fst items)
  | Csv rows =>
      format export_request = ExportFormat.CSV /\
      exists header row, rows = [header; row] /\ length header = length row
  end.
Proof.
  intros Hr. destruct export_request as [f u]. cbn [format units] in *.
  unfold _generate_export_data. cbn [format units].
  destruct (String.eqb_spec f ExportFormat.FUSION_JSON) as [->|Hj].
  - destruct (generate_fusion_json_cases tool u σ g Hr)
      as [(Hu & Hs & ->)|(Hok & items & -> & Hnd & _)]; [discriminate|].
    by intros [= <-].
  - destruct (String.eqb_spec f ExportFormat.CSV) as [->|Hc]; [|discriminate].
    destruct (generate_csv_cases tool u σ g Hr)
      as [(Hu & Hs & ->)|(Hok & header & row & -> & Hlen & _)]; [discriminate|].
    intros [= <-]. split; [reflexivity|]. by exists header, row.
Qed.

Lemma export_document_shape_witness :
  exists doc,
    fst (_generate_export_data (stored valid_end_mill)
           {| format := "csv"; units := METRIC |} (store_of valid_end_mill)) = Ok doc /\
    match doc with
    | Json items => "csv" = ExportFormat.FUSION_JSON /\ NoDup (map fst items)
    | Csv rows =>
        "csv" = ExportFormat.CSV /\
        exists header row, rows = [header; row] /\ length header = length row
    end.
Proof.
  eexists. split; [vm_compute; reflexivity|].
  apply (export_document_shape (stored valid_end_mill)
           {| format := "csv"; units := METRIC |} (store_of valid_end_mill)
           (geometry valid_end_mill)).
  - reflexivity.
  - vm_compute. reflexivity.
Defined.

(** X10. Both formats show the name and the vendor of the tool as they
    are and name the units, [in] for imperial and [mm] for metric; the
    structured format shows the display name of the type and the tabular
    format the type itself. *)
Theorem export_identity_fields (tool : ToolResponse ref) (export_request : ExportRequest)
    (σ : store) (g : gmap string value) (doc : document) :
  σ !! geometry tool = Some g ->
  fst (_generate_export_data tool export_request σ) = Ok doc ->
  let unit_label :=
    VStr (match units export_request with IMPERIAL => "in" | METRIC => "mm" end) in
  match doc with
  | Json _ =>
      json_member "toolType" doc = Some (VStr (_map_tool_type_to_fusion (type tool))) /\
      json_member "name" doc = Some (VStr (name tool)) /\
      json_member "vendor" doc = Some (VStr (vendor tool)) /\
      json_member "units" doc = Some unit_label
  | Csv _ =>
      csv_cell "Type" doc = Some (VStr (type tool)) /\
      csv_cell "Tool Name" doc = Some (VStr (name tool)) /\
      csv_cell "Vendor" doc = Some (VStr (vendor tool)) /\
      csv_cell "Units" doc = Some unit_label
  end.
Proof.
  intros Hr. destruct export_request as [f u]. cbn [format units] in *.
  unfold _generate_export_data. cbn [format units].
  destruct (String.eqb_spec f ExportFormat.FUSION_JSON) as [->|Hj].
  - destruct (generate_fusion_json_cases tool u σ g Hr)
      as [(Hu & Hs & ->)|(Hok & items & -> & Hnd & H)]; [discriminate|].
    by intros [= <-].
  - destruct (String.eqb_spec f ExportFormat.CSV) as [->|Hc]; [|discriminate].
    destruct (generate_csv_cases tool u σ g Hr)
      as [(Hu & Hs & ->)|(Hok & header & row & -> & Hlen & H1 & H2 & H3 & H4)];
      [discriminate|].
    by intros [= <-].
Qed.

Lemma export_identity_fields_witness :
  exists doc,
    fst (_generate_export_data (stored valid_end_mill)
           {| format := "fusion_json"; units := IMPERIAL |} (store_of valid_end_mill))
      = Ok doc /\
    json_member "toolType" doc = Some (VStr "End Mill") /\
    json_member "units" doc = Some (VStr "in").
Proof.
  eexists. split; [vm_compute; reflexivity|].
  destruct (export_identity_fields (stored valid_end_mill)
              {| format := "fusion_json"; units := IMPERIAL |} (store_of valid_end_mill)
              (geometry valid_end_mill)
              (Json [("toolType", VStr "End Mill"); ("name", VStr "Sample");
                     ("vendor", VStr "Acme"); ("diameter", VNum (to_inch 6));
                     ("fluteLength", VNum (to_inch 20));
                     ("overallLength", VNum (to_inch 50)); ("units", VStr "in");
                     ("fluteCount", VNum 2); ("helixAngle", VNum 30);
                     ("lengthOfCut", VNum (to_inch 18));
                     ("cornerRadius", VNum (to_inch 0.5))]))
    as (Hty & _ & _ & Hunits).
  - reflexivity.
  - vm_compute. reflexivity.
  - split; [exact Hty | exact Hunits].
Defined.
Lemma round_half_even_mono x y : (x <= y)%Q -> (round_half_even x <= round_half_even y)%Z.
Proof.
  destruct x as [n1 d1], y as [n2 d2]. unfold Qle, round_half_even. cbn [Qnum Qden].
  intros Hle.
  pose proof (Z.div_mod n1 (Z.pos d1) ltac:(lia)) as Hdm1.
  pose proof (Z.mod_pos_bound n1 (Z.pos d1) ltac:(lia)) as Hb1.
  pose proof (Z.div_mod n2 (Z.pos d2) ltac:(lia)) as Hdm2.
  pose proof (Z.mod_pos_bound n2 (Z.pos d2) ltac:(lia)) as Hb2.
  set (f1 := (n1 / Z.pos d1)%Z) in *. set (r1 := (n1 mod Z.pos d1)%Z) in *.
  set (f2 := (n2 / Z.pos d2)%Z) in *. set (r2 := (n2 mod Z.pos d2)%Z) in *.
  set (D1 := Z.pos d1) in *. set (D2 := Z.pos d2) in *.
  assert (0 < D1)%Z as HD1 by (unfold D1; lia).
  assert (0 < D2)%Z as HD2 by (unfold D2; lia).
  clearbody D1 D2 f1 f2 r1 r2. subst n1 n2.
  assert (0 < D1 * D2)%Z as HD by nia.
  assert (0 <= r1 * D2)%Z as Hr1 by nia.
  assert (r2 * D1 < D1 * D2)%Z as Hr2 by nia.
  assert (r1 * D2 < D1 * D2)%Z as Hr1' by nia.
  assert (0 <= r2 * D1)%Z as Hr2' by nia.
  assert (f1 <= f2)%Z as Hf.
  { destruct (Z_le_gt_dec f1 f2) as [|Hgt]; [done|]. exfalso.
    assert (D1 * D2 * (f2 + 1) <= D1 * D2 * f1)%Z by (apply Z.mul_le_mono_nonneg_l; lia).
    nia. }
  assert (f1 < f2 \/ f1 = f2 /\ r1 * D2 <= r2 * D1)%Z as [Hlt|[-> Hr]].
  { destruct (Z.eq_dec f1 f2) as [->|]; [right; split; [done|nia] | left; lia]. }
  - repeat case_match; lia.
  - destruct (Z.ltb_spec (2 * r1) D1), (Z.ltb_spec D1 (2 * r1)),
      (Z.ltb_spec (2 * r2) D2), (Z.ltb_spec D2 (2 * r2));
      destruct (Z.even f2); try lia; nia.
Qed.

Lemma round_digits_mono x y : (x <= y)%Q -> (round_digits x 4 <= round_digits y 4)%Q.
Proof.
  intros Hle.
  change (round_digits x 4) with (round_half_even (x * inject_Z 10000) # 10000).
  change (round_digits y 4) with (round_half_even (y * inject_Z 10000) # 10000).
  unfold Qle. cbn [Qnum Qden].
  apply Z.mul_le_mono_nonneg_r; [lia|].
  apply round_half_even_mono. apply Qmult_le_compat_r; [exact Hle | discriminate].
Qed.

Lemma to_inch_mono v w : (v <= w)%Q -> (to_inch v <= to_inch w)%Q.
Proof.
  intros Hle. unfold to_inch. apply round_digits_mono.
  unfold Qdiv. apply Qmult_le_compat_r; [exact Hle | discriminate].
Qed.

Lemma converted_lookup g k v :
  In k mm_fields -> g !! k = Some (VNum v) ->
  shown_geometry IMPERIAL g !! k = Some (VNum (to_inch v)).
Proof.
  intros Hk Hv. rewrite shown_geometry_lookup, Hv.
  change (Some (convert_value_in mm_fields k (VNum v)) = Some (VNum (to_inch v))).
  unfold convert_value_in. apply existsb_In_string in Hk. by rewrite Hk.
Qed.





(** ** The services over the database *)

(** ** The database *)

(** A query on the primary key of a table finds the row that [find]
    finds, and never several. *)
Lemma select_key {R : Type} (key : R -> string) (p : R -> bool) (i : string)
    (table : list R) :
  NoDup (map key table) ->
  (forall r, p r = true -> key r = i) ->
  Db.scalar_one_or_none (Db.select p table) = Done (List.find p table).
Proof.
  intros Hnd Hp. unfold Db.select.
  induction table as [|r table IH]; [reflexivity|].
  simpl in *. apply NoDup_cons in Hnd as [Hr Hnd].
  destruct (p r) eqn:E; [|by apply IH].
  assert (List.filter p table = []) as ->; [|reflexivity].
  destruct (List.filter p table) as [|r' rows] eqn:F; [reflexivity|].
  exfalso. apply Hr.
  assert (In r' (List.filter p table)) as Hin by (rewrite F; by left).
  apply filter_In in Hin as [Hin Hp'].
  rewrite (Hp r E), <- (Hp r' Hp'). apply list_elem_of_In, in_map, Hin.
Qed.

Lemma find_app_None {R : Type} (p : R -> bool) (l l' : list R) :
  List.find p l = None -> List.find p (l ++ l') = List.find p l'.
Proof.
  induction l as [|r l IH]; [reflexivity|]. simpl.
  destruct (p r); [discriminate | exact IH].
Qed.

Lemma find_app_Some {R : Type} (p : R -> bool) (l l' : list R) r :
  List.find p l = Some r -> List.find p (l ++ l') = Some r.
Proof.
  induction l as [|r0 l IH]; [discriminate|]. simpl.
  destruct (p r0); [done | exact IH].
Qed.

Lemma find_key_None {R : Type} (key : R -> string) (p : R -> bool) (i : string)
    (table : list R) :
  (forall r, p r = true -> key r = i) ->
  ~ In i (map key table) -> List.find p table = None.
Proof.
  intros Hp Hi. destruct (List.find p table) as [r|] eqn:F; [|reflexivity].
  apply find_some in F as [Hin Hr]. exfalso. apply Hi.
  rewrite <- (Hp r Hr). by apply in_map.
Qed.

Lemma existsb_key {R : Type} (key : R -> string) (i : string) (table : list R) :
  existsb (fun r => String.eqb (key r) i) table = true <-> In i (map key table).
Proof.
  rewrite existsb_exists, in_map_iff. split.
  - intros (r & Hin & Hr). apply String.eqb_eq in Hr. by exists r.
  - intros (r & Hr & Hin). exists r. split; [done | by apply String.eqb_eq].
Qed.

Lemma map_key_update {R : Type} (key : R -> string) (row : R) (table : list R) :
  map key (Db.update key row table) = map key table.
Proof.
  unfold Db.update. rewrite map_map. apply map_ext. intros r.
  destruct (String.eqb_spec (key r) (key row)); congruence.
Qed.

Lemma find_update_ne {R : Type} (key : R -> string) (p : R -> bool) (i : string)
    (row : R) (table : list R) :
  (forall r, p r = true -> key r = i) -> key row <> i ->
  List.find p (Db.update key row table) = List.find p table.
Proof.
  intros Hp Hne. unfold Db.update. induction table as [|r table IH]; [reflexivity|].
  simpl. destruct (String.eqb_spec (key r) (key row)) as [E|E].
  - destruct (p row) eqn:Hrow; [by apply Hp in Hrow|].
    destruct (p r) eqn:Hr; [|exact IH].
    apply Hp in Hr. congruence.
  - by rewrite IH.
Qed.

Lemma find_update_eq {R : Type} (key : R -> string) (p : R -> bool)
    (row : R) (table : list R) :
  (forall r, p r = true -> key r = key row) ->
  In (key row) (map key table) ->
  List.find p (Db.update key row table) = if p row then Some row else None.
Proof.
  intros Hp Hin. unfold Db.update. induction table as [|r table IH]; [destruct Hin|].
  simpl. destruct (String.eqb_spec (key r) (key row)) as [E|E].
  - destruct (p row) eqn:Hrow; [reflexivity|].
    fold (Db.update key row table).
    destruct (List.find p (Db.update key row table)) as [r'|] eqn:F; [|reflexivity].
    apply find_some in F as [Hin' Hr']. unfold Db.update in Hin'.
    apply in_map_iff in Hin' as (r0 & <- & _).
    destruct (String.eqb (key r0) (key row)) eqn:E0; [congruence|].
    apply Hp in Hr'. apply String.eqb_neq in E0. contradiction.
  - destruct (p r) eqn:Hr; [by apply Hp in Hr|].
    apply IH. destruct Hin as [Hin|Hin]; [contradiction | exact Hin].
Qed.

Lemma find_key_In {R : Type} (key : R -> string) (p : R -> bool) (i : string)
    (table : list R) (row : R) :
  NoDup (map key table) ->
  (forall r, p r = true -> key r = i) ->
  In row table -> p row = true -> List.find p table = Some row.
Proof.
  intros Hnd Hp Hin Hrow. induction table as [|r table IH]; [destruct Hin|].
  simpl in *. apply NoDup_cons in Hnd as [Hr Hnd].
  destruct Hin as [->|Hin]; [by rewrite Hrow|].
  destruct (p r) eqn:E; [|by apply IH].
  exfalso. apply Hr. rewrite (Hp r E), <- (Hp row Hrow).
  by apply list_elem_of_In, in_map.
Qed.

(** ** The tool service *)

Section ToolService.
Import ToolService.

Context {Response : Type}.
Variable from_orm : Tool.t -> outcome Response.

Lemma by_id_key tool_id tool : by_id tool_id tool = true -> Tool.id tool = tool_id.
Proof. unfold by_id. intros H. apply andb_prop in H as [H _]. by apply String.eqb_eq. Qed.

(** On a table with a primary key, [get_tool] returns the row that is
    not deleted and has the identifier, if there is one. *)
Lemma get_tool_find tool_id db :
  NoDup (map Tool.id db) ->
  get_tool from_orm tool_id db =
    match List.find (by_id tool_id) db with
    | Some tool => Some <$> from_orm tool
    | None => Done None
    end.
Proof.
  intros Hnd. unfold get_tool.
  rewrite (select_key Tool.id _ tool_id db Hnd (by_id_key tool_id)).
  reflexivity.
Qed.

(** X14. After [create_tool] with a new identifier, [get_tool] of that
    identifier returns what [create_tool] returned, the identifiers of
    the table are still unique, and [get_tool] of any other identifier
    returns what it did before. *)
Theorem create_then_get (tool_data : ToolCreate.t) (tool_id : string)
    (created updated : datetime) (db db' : list Tool.t) (out : outcome Response) :
  NoDup (map Tool.id db) ->
  ~ In tool_id (map Tool.id db) ->
  create_tool from_orm tool_data tool_id created updated db = (out, db') ->
  get_tool from_orm tool_id db' = Some <$> out /\
  NoDup (map Tool.id db') /\
  forall other, other <> tool_id ->
    get_tool from_orm other db' = get_tool from_orm other db.
Proof.
  intros Hnd Hnew. unfold create_tool, Db.add. cbn [Tool.id].
  destruct (existsb _ db) eqn:Hex; [by apply existsb_key in Hex|].
  intros [= <- <-].
  assert (NoDup (map Tool.id
            (db ++ [{| Tool.id := tool_id;
                       Tool.name := ToolCreate.name tool_data;
                       Tool.vendor := ToolCreate.vendor tool_data;
                       Tool.type := ToolCreate.type tool_data;
                       Tool.geometry := ToolCreate.geometry tool_data;
                       Tool.limits :=
                         match ToolCreate.limits tool_data with
                         | Some l => Some (ToolLimits_dict l)
                         | None => None
                         end;
                       Tool.created_at := created;
                       Tool.updated_at := updated;
                       Tool.is_deleted := false |}]))) as Hnd'.
  { rewrite map_app. simpl. apply NoDup_app. split; [exact Hnd|]. split.
    - intros i Hi Hi'. apply list_elem_of_singleton in Hi'. subst i.
      by apply Hnew, list_elem_of_In.
    - apply NoDup_singleton. }
  split; [|split; [exact Hnd'|]].
  - rewrite (get_tool_find _ _ Hnd').
    rewrite find_app_None
      by (apply (find_key_None Tool.id _ tool_id); [apply by_id_key | exact Hnew]).
    simpl. unfold by_id. cbn [Tool.id Tool.is_deleted]. by rewrite String.eqb_refl.
  - intros other Hne. rewrite (get_tool_find _ _ Hnd'), (get_tool_find _ _ Hnd).
    destruct (List.find (by_id other) db) as [tool|] eqn:F.
    + by rewrite (find_app_Some _ _ _ _ F).
    + rewrite (find_app_None _ _ _ F). simpl. unfold by_id. cbn [Tool.id].
      apply String.eqb_neq in Hne. rewrite String.eqb_sym in Hne. by rewrite Hne.
Qed.

Lemma find_by_id tool_id db tool :
  List.find (by_id tool_id) db = Some tool ->
  In tool db /\ Tool.id tool = tool_id /\ Tool.is_deleted tool = false.
Proof.
  intros F. apply find_some in F as [Hin Hp]. split; [exact Hin|].
  unfold by_id in Hp. apply andb_prop in Hp as [Hi Hd].
  apply String.eqb_eq in Hi. by destruct (Tool.is_deleted tool).
Qed.

(** [delete_tool] on a table with a primary key. *)
Lemma delete_tool_find tool_id updated db :
  NoDup (map Tool.id db) ->
  delete_tool tool_id updated db =
    match List.find (by_id tool_id) db with
    | Some tool =>
        (Done true,
         Db.update Tool.id
           {| Tool.id := Tool.id tool;
              Tool.name := Tool.name tool;
              Tool.vendor := Tool.vendor tool;
              Tool.type := Tool.type tool;
              Tool.geometry := Tool.geometry tool;
              Tool.limits := Tool.limits tool;
              Tool.created_at := Tool.created_at tool;
              Tool.updated_at := updated;
              Tool.is_deleted := true |} db)
    | None => (Done false, db)
    end.
Proof.
  intros Hnd. unfold delete_tool.
  rewrite (select_key Tool.id _ tool_id db Hnd (by_id_key tool_id)).
  by destruct (List.find (by_id tool_id) db).
Qed.

(** X15. [delete_tool] is a soft delete: after it has returned [True],
    [get_tool] of the identifier returns [None] and a second
    [delete_tool] returns [False] and changes nothing, while the row is
    still in the table, marked deleted, and the other tools are found
    as before. *)
Theorem soft_delete (tool_id : string) (updated : datetime) (db db' : list Tool.t) :
  NoDup (map Tool.id db) ->
  delete_tool tool_id updated db = (Done true, db') ->
  get_tool from_orm tool_id db' = Done None /\
  (exists tool, In tool db' /\ Tool.id tool = tool_id /\ Tool.is_deleted tool = true) /\
  map Tool.id db' = map Tool.id db /\
  (forall later, delete_tool tool_id later db' = (Done false, db')) /\
  forall other, other <> tool_id ->
    get_tool from_orm other db' = get_tool from_orm other db.
Proof.
  intros Hnd. rewrite (delete_tool_find _ _ _ Hnd).
  destruct (List.find (by_id tool_id) db) as [tool|] eqn:F; [|discriminate].
  apply find_by_id in F as (Hin & Hid & Hlive).
  match goal with
  | |- (_, Db.update _ ?row _) = _ -> _ => set (tool' := row)
  end.
  intros [= <-].
  assert (NoDup (map Tool.id (Db.update Tool.id tool' db))) as Hnd'
    by (by rewrite map_key_update).
  assert (In (Tool.id tool') (map Tool.id db)) as Hin'
    by exact (in_map Tool.id db tool Hin).
  assert (List.find (by_id tool_id) (Db.update Tool.id tool' db) = None) as Hgone.
  { rewrite (find_update_eq Tool.id (by_id tool_id) tool' db).
    - unfold by_id. cbn [tool' Tool.is_deleted]. by rewrite andb_false_r.
    - intros r Hr. apply by_id_key in Hr. by rewrite Hr.
    - exact Hin'. }
  split; [by rewrite (get_tool_find _ _ Hnd'), Hgone|].
  split.
  { exists tool'. split; [|by split].
    unfold Db.update. apply in_map_iff. exists tool.
    split; [|exact Hin]. cbn [tool' Tool.id]. by rewrite String.eqb_refl. }
  split; [apply map_key_update|].
  split; [intros later; by rewrite (delete_tool_find _ _ _ Hnd'), Hgone|].
  intros other Hne.
  rewrite (get_tool_find _ _ Hnd'), (get_tool_find _ _ Hnd).
  rewrite (find_update_ne Tool.id (by_id other) other tool' db); [reflexivity| |].
  - apply by_id_key.
  - cbn [tool' Tool.id]. congruence.
Qed.


Lemma stored_tool_find db tool :
  NoDup (map Tool.id db) -> stored_tool db tool ->
  List.find (by_id (Tool.id tool)) db = Some tool.
Proof.
  intros Hnd [Hin Hlive].
  apply (find_key_In Tool.id _ (Tool.id tool)); [exact Hnd | apply by_id_key | exact Hin|].
  unfold by_id. by rewrite String.eqb_refl, Hlive.
Qed.


(** X17. An update without such a field replaces the fields that are
    set and [updated_at], keeps the identifier, the type, the creation
    time and the fields that are unset, resets [limits] when it is set
    to [None], and leaves the other tools as they were; [get_tool]
    returns the updated tool. *)
Theorem update_tool_applies (tool : Tool.t) (tool_data : ToolUpdate.t)
    (updated : datetime) (db : list Tool.t) (name vendor : string)
    (geometry : gmap string value) :
  NoDup (map Tool.id db) ->
  stored_tool db tool ->
  assigned (ToolUpdate.name tool_data) (Tool.name tool) = Some name ->
  assigned (ToolUpdate.vendor tool_data) (Tool.vendor tool) = Some vendor ->
  assigned (ToolUpdate.geometry tool_data) (Tool.geometry tool) = Some geometry ->
  (forall l, ToolUpdate.limits tool_data <> SetTo (Some l)) ->
  exists tool' db',
    update_tool from_orm (Tool.id tool) tool_data updated db =
      (Some <$> from_orm tool', db') /\
    get_tool from_orm (Tool.id tool) db' = Some <$> from_orm tool' /\
    tool' =
      {| Tool.id := Tool.id tool;
         Tool.name := name;
         Tool.vendor := vendor;
         Tool.type := Tool.type tool;
         Tool.geometry := geometry;
         Tool.limits :=
           match ToolUpdate.limits tool_data with
           | SetTo _ => None
           | Unset => Tool.limits tool
           end;
         Tool.created_at := Tool.created_at tool;
         Tool.updated_at := updated;
         Tool.is_deleted := false |} /\
    map Tool.id db' = map Tool.id db /\
    forall other, other <> Tool.id tool ->
      get_tool from_orm other db' = get_tool from_orm other db.
Proof.
  intros Hnd Hst Hn Hv Hg Hl. pose proof Hst as [Hin Hlive].
  unfold update_tool.
  rewrite (select_key Tool.id _ (Tool.id tool) db Hnd (by_id_key (Tool.id tool))).
  rewrite (stored_tool_find _ _ Hnd Hst), Hn, Hv, Hg, Hlive.
  set (tool' := {| Tool.id := Tool.id tool; Tool.name := name; Tool.vendor := vendor;
                   Tool.type := Tool.type tool; Tool.geometry := geometry;
                   Tool.limits := match ToolUpdate.limits tool_data with
                                  | SetTo _ => None
                                  | Unset => Tool.limits tool
                                  end;
                   Tool.created_at := Tool.created_at tool;
                   Tool.updated_at := updated; Tool.is_deleted := false |}).
  exists tool', (Db.update Tool.id tool' db).
  assert (NoDup (map Tool.id (Db.update Tool.id tool' db))) as Hnd'
    by (by rewrite map_key_update).
  split; [|split; [|split; [reflexivity | split; [apply map_key_update|]]]].
  - destruct (ToolUpdate.limits tool_data) as [|[l|]]; [reflexivity | by destruct (Hl l) |
      reflexivity].
  - rewrite (get_tool_find _ _ Hnd').
    rewrite (find_update_eq Tool.id (by_id (Tool.id tool)) tool' db).
    + unfold by_id. cbn [tool' Tool.id Tool.is_deleted]. by rewrite String.eqb_refl.
    + intros r Hr. by apply by_id_key in Hr.
    + exact (in_map Tool.id db tool Hin).
  - intros other Hne.
    rewrite (get_tool_find _ _ Hnd'), (get_tool_find _ _ Hnd).
    rewrite (find_update_ne Tool.id (by_id other) other tool' db); [reflexivity| |].
    + apply by_id_key.
    + cbn [tool' Tool.id]. congruence.
Qed.

Lemma from_orm_all_spec rows rs :
  from_orm_all from_orm rows = Done rs ->
  Forall2 (fun tool r => from_orm tool = Done r) rows rs.
Proof.
  revert rs. induction rows as [|tool rows IH]; intros rs; simpl.
  - intros [= <-]. constructor.
  - destruct (from_orm tool) as [r|e] eqn:E; [|discriminate].
    destruct (from_orm_all from_orm rows) as [rs'|e]; [|discriminate].
    intros [= <-]. constructor; [exact E | by apply IH].
Qed.

Lemma where_if_subset {R : Type} flag (p : string -> R -> bool) (rows : list R) r :
  In r (where_if flag p rows) -> In r rows.
Proof.
  unfold where_if, Db.select. destruct flag as [s|]; [|done].
  destruct (String.eqb s ""); [done|]. intros Hin. by apply filter_In in Hin as [? _].
Qed.

Section list_tools.

Variable ilike : string -> string -> bool.
Variable order_by_created_at_desc : list Tool.t -> list Tool.t.
Hypothesis order_by_permutes : forall rows, order_by_created_at_desc rows ≡ₚ rows.

Lemma list_query_live search tool_type vendor db tool :
  In tool (list_query ilike search tool_type vendor db) ->
  In tool db /\ Tool.is_deleted tool = false.
Proof.
  unfold list_query. intros Hin.
  do 3 apply where_if_subset in Hin.
  apply filter_In in Hin as [Hin Hlive]. split; [exact Hin|].
  by destruct (Tool.is_deleted tool).
Qed.


(** X18. The page that [list_tools] returns holds min(size, total -
    (page - 1) * size) tools, each of them the response of a row of the
    table that is not deleted, and [total] does not exceed the number of
    rows that are not deleted. *)
Theorem list_tools_page (page : positive) (size : nat)
    (search tool_type vendor : option string) (db : list Tool.t)
    (resp : ToolListResponse.t Response) :
  list_tools from_orm ilike order_by_created_at_desc page size search tool_type vendor db
    = Done resp ->
  length (ToolListResponse.tools resp) = (size `min` (ToolListResponse.total resp - (Pos.to_nat page - 1) * size))%nat /\
  (ToolListResponse.total resp <= length (List.filter (fun tool => negb (Tool.is_deleted tool)) db))%nat /\
  forall r, In r (ToolListResponse.tools resp) ->
    exists tool, In tool db /\ Tool.is_deleted tool = false /\ from_orm tool = Done r.
Proof.
  unfold list_tools.
  set (query := list_query ilike search tool_type vendor db).
  set (rows := take size (drop _ (order_by_created_at_desc query))).
  destruct (from_orm_all from_orm rows) as [rs|e] eqn:E; [|discriminate].
  intros [= <-]. cbn [ToolListResponse.tools ToolListResponse.total].
  apply from_orm_all_spec in E.
  split; [|split].
  - rewrite <- (Forall2_length _ _ _ E). unfold rows.
    rewrite length_take, length_drop, (Permutation_length (order_by_permutes query)).
    reflexivity.
  - unfold query, list_query.
    assert (forall (R : Type) flag (p : string -> R -> bool) (l : list R),
              (length (where_if flag p l) <= length l)%nat) as Hle.
    { intros R flag p l. unfold where_if, Db.select. destruct flag as [s|]; [|done].
      destruct (String.eqb s ""); [done|]. apply List.filter_length_le. }
    etrans; [apply Hle|]. etrans; [apply Hle|]. etrans; [apply Hle|].
    unfold Db.select. apply Nat.eq_le_incl. f_equal.
  - intros r Hr.
    assert (exists tool, In tool rows /\ from_orm tool = Done r) as (tool & Hin & Htool).
    { clear -E Hr. induction E as [|tool r' rows rs Hh _ IH]; [destruct Hr|].
      destruct Hr as [->|Hr].
      - exists tool. split; [by left | exact Hh].
      - destruct (IH Hr) as (tool' & Hin & Htool'). exists tool'. split; [by right | done]. }
    exists tool.
    assert (In tool query) as Hq.
    { unfold rows in Hin. apply list_elem_of_In in Hin.
      apply subseteq_take, subseteq_drop in Hin.
      rewrite (order_by_permutes query) in Hin. by apply list_elem_of_In. }
    apply list_query_live in Hq as [Hdb Hlive]. done.
Qed.

End list_tools.

(** [create_tool] does not look for a tool of the same name and vendor:
    it can be called twice with the same data, and then the query of
    [get_tool_by_name_and_vendor] finds two rows. *)
(** X19. [create_tool] does not look for a tool of the same name and
    vendor: after two calls with the same data,
    [get_tool_by_name_and_vendor] raises [MultipleResultsFound]. *)
Theorem duplicate_name_and_vendor (tool_data : ToolCreate.t) (id1 id2 : string)
    (c1 u1 c2 u2 : datetime) (db db1 db2 : list Tool.t) (out1 out2 : outcome Response) :
  ~ In id1 (map Tool.id db) -> ~ In id2 (map Tool.id db) -> id1 <> id2 ->
  create_tool from_orm tool_data id1 c1 u1 db = (out1, db1) ->
  create_tool from_orm tool_data id2 c2 u2 db1 = (out2, db2) ->
  get_tool_by_name_and_vendor from_orm
    (ToolCreate.name tool_data) (ToolCreate.vendor tool_data) db2
    = Failed MultipleResultsFound.
Proof.
  intros H1 H2 Hne. unfold create_tool, Db.add. cbn [Tool.id].
  destruct (existsb _ db) eqn:Hex1; [by apply existsb_key in Hex1|].
  intros [= <- <-].
  destruct (existsb _ (db ++ _)) eqn:Hex2.
  { apply existsb_key in Hex2. rewrite map_app in Hex2.
    apply in_app_or in Hex2 as [Hin|[Hin|[]]]; [contradiction|].
    simpl in Hin. congruence. }
  intros [= <- <-].
  unfold get_tool_by_name_and_vendor, Db.select.
  rewrite <- app_assoc, List.filter_app. simpl. rewrite !String.eqb_refl. simpl.
  by destruct (List.filter _ db) as [|r [|r' rows]].
Qed.

End ToolService.

(** ** The export records *)

Section ExportRecords.
Import ExportRecords.

Variable render : document -> string.

Lemma export_id_key export_id (export : ToolExport.t) :
  String.eqb (ToolExport.id export) export_id = true -> ToolExport.id export = export_id.
Proof. apply String.eqb_eq. Qed.

Lemma get_export_find export_id db :
  NoDup (map ToolExport.id db) ->
  get_export export_id db =
    match List.find (fun export => String.eqb (ToolExport.id export) export_id) db with
    | Some export => Done (ToolExport.export_data export)
    | None => Done None
    end.
Proof.
  intros Hnd. unfold get_export.
  rewrite (select_key ToolExport.id _ export_id db Hnd (export_id_key export_id)).
  reflexivity.
Qed.

(** X13. After [export_tool] has returned a response, [get_export] of
    the identifier in the response returns the text of the document that
    was generated, the response carries the length of that text, and
    the exports that were there are still found. *)
Theorem export_then_get (tool : ToolResponse ref) (export_request : ExportRequest)
    (export_id : string) (now : datetime) (σ σ' : store)
    (db db' : list ToolExport.t) (resp : ExportResponse.t) :
  NoDup (map ToolExport.id db) ->
  ~ In export_id (map ToolExport.id db) ->
  export_tool render tool export_request export_id now σ db = (Done resp, db', σ') ->
  exists doc,
    fst (_generate_export_data tool export_request σ) = Ok doc /\
    get_export (ExportResponse.export_id resp) db' = Done (Some (render doc)) /\
    ExportResponse.file_size resp = Some (len (render doc)) /\
    NoDup (map ToolExport.id db') /\
    forall other, other <> ExportResponse.export_id resp ->
      get_export other db' = get_export other db.
Proof.
  intros Hnd Hnew. unfold export_tool, Db.add. cbn [ToolExport.id].
  destruct (_generate_export_data tool export_request σ) as [[doc|e] σ1]; [|discriminate].
  destruct (existsb _ db) eqn:Hex; [discriminate|].
  intros [= <- <- <-]. cbn [ExportResponse.export_id ExportResponse.file_size].
  exists doc. split; [reflexivity|].
  match goal with
  | |- context [db ++ [?row]] => set (export := row)
  end.
  assert (NoDup (map ToolExport.id (db ++ [export]))) as Hnd'.
  { rewrite map_app. simpl. apply NoDup_app. split; [exact Hnd|]. split.
    - intros i Hi Hi'. apply list_elem_of_singleton in Hi'. subst i.
      by apply Hnew, list_elem_of_In.
    - apply NoDup_singleton. }
  split; [|split; [reflexivity | split; [exact Hnd'|]]].
  - rewrite (get_export_find _ _ Hnd').
    rewrite find_app_None
      by (apply (find_key_None ToolExport.id _ export_id);
          [apply export_id_key | exact Hnew]).
    simpl. by rewrite String.eqb_refl.
  - intros other Hne. rewrite (get_export_find _ _ Hnd'), (get_export_find _ _ Hnd).
    destruct (List.find _ db) as [e|] eqn:F.
    + by rewrite (find_app_Some _ _ _ _ F).
    + rewrite (find_app_None _ _ _ F). simpl.
      apply String.eqb_neq in Hne. rewrite String.eqb_sym in Hne. by rewrite Hne.
Qed.

End ExportRecords.

(** ** Witnesses of the services *)

Lemma create_then_get_witness :
  ToolService.get_tool Done "d"
    (snd (ToolService.create_tool Done sample_create "d" 20%Z 20%Z sample_db)) =
  Some <$> fst (ToolService.create_tool Done sample_create "d" 20%Z 20%Z sample_db).
Proof.
  destruct (create_then_get Done sample_create "d" 20%Z 20%Z sample_db
              (snd (ToolService.create_tool Done sample_create "d" 20%Z 20%Z sample_db))
              (fst (ToolService.create_tool Done sample_create "d" 20%Z 20%Z sample_db)))
    as (Hget & _ & _).
  - apply (bool_decide_unpack _). vm_compute. exact I.
  - simpl. intuition discriminate.
  - reflexivity.
  - exact Hget.
Defined.

Lemma soft_delete_witness :
  ToolService.get_tool Done "a" (snd (ToolService.delete_tool "a" 30%Z sample_db)) =
  Done (@None Tool.t).
Proof.
  destruct (soft_delete Done "a" 30%Z sample_db
              (snd (ToolService.delete_tool "a" 30%Z sample_db))) as (Hget & _).
  - apply (bool_decide_unpack _). vm_compute. exact I.
  - reflexivity.
  - exact Hget.
Defined.


Lemma update_tool_applies_witness :
  exists tool' db',
    ToolService.update_tool Done "a" rename_only 30%Z sample_db = (Done (Some tool'), db') /\
    Tool.name tool' = "Renamed" /\ Tool.vendor tool' = "Acme".
Proof.
  destruct (update_tool_applies Done (sample_row "a" false) rename_only 30%Z sample_db
              "Renamed" "Acme" (geometry valid_end_mill))
    as (tool' & db' & Hrun & _ & Htool & _).
  - apply (bool_decide_unpack _). vm_compute. exact I.
  - split; [simpl; tauto | reflexivity].
  - reflexivity.
  - reflexivity.
  - reflexivity.
  - intros l. discriminate.
  - exists tool', db'. split; [exact Hrun|]. rewrite Htool. split; reflexivity.
Defined.

Lemma list_tools_page_witness :
  exists resp,
    ToolService.list_tools Done (fun _ _ => true) (fun rows => rows)
      2%positive 1 None (Some "end_mill") None sample_db = Done resp /\
    length (ToolListResponse.tools resp) = 1%nat /\
    ToolListResponse.total resp = 2%nat.
Proof.
  eexists. split; [reflexivity|].
  destruct (list_tools_page Done (fun _ _ => true) (fun rows => rows)
              (fun rows => reflexivity rows)
              2%positive 1 None (Some "end_mill") None sample_db
              {| ToolListResponse.tools := [sample_row "b" false];
                 ToolListResponse.total := 2;
                 ToolListResponse.page := 2%positive;
                 ToolListResponse.size := 1 |}) as (Hlen & _).
  - reflexivity.
  - split; [exact Hlen | reflexivity].
Defined.

Lemma duplicate_name_and_vendor_witness :
  ToolService.get_tool_by_name_and_vendor Done "Sample" "Acme"
    (snd (ToolService.create_tool Done sample_create "y" 2%Z 2%Z
            (snd (ToolService.create_tool Done sample_create "x" 1%Z 1%Z []))))
  = Failed MultipleResultsFound.
Proof.
  apply (duplicate_name_and_vendor Done sample_create "x" "y" 1%Z 1%Z 2%Z 2%Z []
           (snd (ToolService.create_tool Done sample_create "x" 1%Z 1%Z []))
           (snd (ToolService.create_tool Done sample_create "y" 2%Z 2%Z
                   (snd (ToolService.create_tool Done sample_create "x" 1%Z 1%Z []))))
           (fst (ToolService.create_tool Done sample_create "x" 1%Z 1%Z []))
           (fst (ToolService.create_tool Done sample_create "y" 2%Z 2%Z
                   (snd (ToolService.create_tool Done sample_create "x" 1%Z 1%Z []))))).
  - simpl. tauto.
  - simpl. tauto.
  - discriminate.
  - reflexivity.
  - reflexivity.
Defined.

Lemma triple_eta {A B C : Type} (x : A * B * C) (a : A) :
  fst (fst x) = a -> x = (a, snd (fst x), snd x).
Proof. destruct x as [[a' b] c]. simpl. by intros ->. Qed.

Lemma export_then_get_witness :
  ExportRecords.get_export "e1"
    (snd (fst (ExportRecords.export_tool (fun _ => "text") (stored valid_end_mill)
                 {| format := "csv"; units := METRIC |} "e1" 5%Z
                 (store_of valid_end_mill) []))) = Done (Some "text").
Proof.
  destruct (export_then_get (fun _ => "text") (stored valid_end_mill)
              {| format := "csv"; units := METRIC |} "e1" 5%Z
              (store_of valid_end_mill)
              (snd (ExportRecords.export_tool (fun _ => "text") (stored valid_end_mill)
                      {| format := "csv"; units := METRIC |} "e1" 5%Z
                      (store_of valid_end_mill) []))
              []
              (snd (fst (ExportRecords.export_tool (fun _ => "text")
                           (stored valid_end_mill)
                           {| format := "csv"; units := METRIC |} "e1" 5%Z
                           (store_of valid_end_mill) [])))
              {| ExportResponse.export_id := "e1";
                 ExportResponse.tool_id := "tool-1";
                 ExportResponse.format := "csv";
                 ExportResponse.units := METRIC;
                 ExportResponse.file_size := Some 4%nat;
                 ExportResponse.download_url :=
                   Some "/api/tools/tool-1/export/e1/download";
                 ExportResponse.created_at := 5%Z |})
    as (doc & _ & Hget & _).
  - constructor.
  - simpl. tauto.
  - apply triple_eta. vm_compute. reflexivity.
  - exact Hget.
Defined.
